(** * RRC procedures of the srsLTE UE stack: SI scheduling arithmetic and
      the procedure state machines of [srsue/src/stack/rrc/rrc_procedures.cc].

    The C++ procedures are embedded as Rocq functions.  Unsigned 32-bit
    values are integers of [Z] with the wrap-around written out; the state
    each handler threads (its own members, the members of the parent [rrc]
    object, and the calls it makes on PHY, MAC, RLC, PDCP, NAS and the log)
    is passed through a small state monad; what a handler asks of its
    collaborators is read from an environment record. *)

From Stdlib Require Import ZArith List Bool String Lia.
Import ListNotations.
Local Open Scope string_scope.
Local Open Scope list_scope.
Local Open Scope Z_scope.

(** ** Machine integers *)

(** Value of a [uint32_t] expression: reduction modulo 2^32. *)
Definition u32 (z : Z) : Z := z mod 4294967296.

(** Conversion of a [uint32_t] to [int32_t]. *)
Definition to_i32 (z : Z) : Z := if z <? 2147483648 then z else z - 4294967296.

(** ** Outcomes of a procedure handler ([srslte::proc_outcome_t]) *)

Inductive proc_outcome_t := yield | success | error.

(** ** SIB1 contents used by the scheduling arithmetic

    Enumerated ASN.1 fields are kept by the value of their [to_number()]. *)

Record sched_info_s := mk_sched_info {
  si_periodicity : Z;        (* 8, 16, ..., 512 radio frames *)
  sib_map_info : list Z      (* SIB types mapped to this SI message: 3, 4, ... *)
}.

Record sib_type1_s := mk_sib1 {
  sched_info_list : list sched_info_s;
  si_win_len : Z             (* 1, 2, 5, 10, 15, 20 or 40 subframes *)
}.

(** ** TS 36.331 Sec 5.2.3 - helper functions *)

Definition sib1_periodicity : Z := 20.

(** The two nested loops of [compute_si_periodicity_and_idx]: the first
    entry [i] of the scheduling list one of whose mapped SIBs is
    [sib_index + 1]; [{0, -1}] when there is none. *)
Fixpoint find_sib_sched (l : list sched_info_s) (i sib_index : Z) : Z * Z :=
  match l with
  | [] => (0, -1)
  | si :: l' =>
      if existsb (fun m => m =? u32 (sib_index + 1)) (sib_map_info si)
      then (si_periodicity si, to_i32 i)
      else find_sib_sched l' (u32 (i + 1)) sib_index
  end.

(** [sib1] is a pointer in the source: [None] is the null pointer.  The
    result is [None] where the source reads through a null pointer or past
    the end of the scheduling list. *)
Definition compute_si_periodicity_and_idx (sib_index : Z) (sib1 : option sib_type1_s)
  : option (Z * Z) :=
  if sib_index =? 0 then Some (sib1_periodicity, 0)
  else if sib_index =? 1 then
    match sib1 with
    | Some s1 =>
        match sched_info_list s1 with
        | si :: _ => Some (si_periodicity si, 0)
        | [] => None
        end
    | None => None
    end
  else
    match sib1 with
    | Some s1 => Some (find_sib_sched (sched_info_list s1) 0 sib_index)
    | None => None
    end.

(** Start TTI of the SI-window.  A division by zero ([T * 10] wrapping to
    zero) has no result. *)
Definition sib_start_tti (tti T offset a : Z) : option Z :=
  let T10 := u32 (T * 10) in
  if T10 =? 0 then None
  else Some (u32 (u32 (u32 (T10 * u32 (1 + tti / T10)) + u32 (offset * 10)) + a) mod 10240).

(** SI-window [(start, length)]. *)
Definition compute_si_window (tti sib_index n T : Z) (sib1 : option sib_type1_s)
  : option (Z * Z) :=
  if sib_index =? 0 then
    match sib_start_tti tti 2 0 5 with
    | Some si_win_start => Some (si_win_start, 1)
    | None => None
    end
  else
    match sib1 with
    | None => None
    | Some s1 =>
        let w := si_win_len s1 in
        let x := u32 (n * w) in
        let a := x mod 10 in
        let offset := x / 10 in
        match sib_start_tti tti T offset a with
        | Some si_win_start => Some (si_win_start, w)
        | None => None
        end
    end.

(** ** TTI points *)

Module tti_point.

(** Modelled from the spec: [srslte::tti_point] (srslte/common/tti_point.h)
    is not among the source files.  "All subframe times are unsigned modulo
    10240 (SFN*10 + subframe)": [tti_point{v}] for a value below 2^31. *)
Definition make (v : Z) : Z := v mod 10240.

(** Modelled from the spec: [operator-] of [srslte::tti_point].
    "Subtraction uses wrap-aware arithmetic; the core assumes
    |delta| < 5120": the difference is brought back into the half ring
    around zero. *)
Definition sub (a b : Z) : Z :=
  let diff := a - b in
  if diff >? 5120 then diff - 10240
  else if diff <? -5120 then diff + 10240
  else diff.

(** Modelled from the spec: [operator<] of [srslte::tti_point]; [a < b]
    when the wrap-aware difference [a - b] is negative. *)
Definition lt (a b : Z) : bool := sub a b <? 0.

End tti_point.

(** The periodicities [T] the callers pass: 2 for SIB1, else an
    si-Periodicity of SIB1. *)
Definition si_periods : list Z := [2; 8; 16; 32; 64; 128; 256; 512].

(** The si-WindowLength values of SIB1. *)
Definition si_window_lengths : list Z := [1; 2; 5; 10; 15; 20; 40].


(** ** Data shared by the procedures *)

Inductive rrc_state_t := RRC_STATE_IDLE | RRC_STATE_CONNECTED.

Definition rrc_state_eqb (a b : rrc_state_t) : bool :=
  match a, b with
  | RRC_STATE_IDLE, RRC_STATE_IDLE | RRC_STATE_CONNECTED, RRC_STATE_CONNECTED => true
  | _, _ => false
  end.

(** Result a completed procedure hands to its [then] hook and to the
    procedures waiting for it ([srslte::proc_state_t], [proc_result_t<T>]). *)
Inductive proc_result_t (A : Type) := result_value (a : A) | result_error.
Arguments result_value {A} a.
Arguments result_error {A}.

Definition proc_state_t := proc_result_t unit.

Definition is_error {A} (r : proc_result_t A) : bool :=
  match r with result_error => true | result_value _ => false end.

Definition is_success {A} (r : proc_result_t A) : bool := negb (is_error r).

(** A future on another procedure, as the polling handler sees it. *)
Inductive future_t (A : Type) := fut_pending | fut_value (a : A) | fut_error.
Arguments fut_pending {A}.
Arguments fut_value {A} a.
Arguments fut_error {A}.

Definition fut_is_complete {A} (f : future_t A) : bool :=
  match f with fut_pending => false | _ => true end.

Definition fut_is_error {A} (f : future_t A) : bool :=
  match f with fut_error => true | _ => false end.

Definition fut_is_success {A} (f : future_t A) : bool :=
  match f with fut_value _ => true | _ => false end.

Record phy_cell_t := mk_phy_cell { pci : Z; earfcn : Z }.

Record s_tmsi_t := mk_s_tmsi { mmec : Z; m_tmsi : Z }.

(** [operator==] of [srslte::s_tmsi_t] *)
Definition s_tmsi_eqb (a b : s_tmsi_t) : bool :=
  (mmec a =? mmec b) && (m_tmsi a =? m_tmsi b).

Inductive cs_result_t := changed_cell | same_cell | no_cell.

Inductive found_t := CELL_FOUND | CELL_NOT_FOUND | ERROR.
Inductive last_freq_t := MORE_FREQS | NO_MORE_FREQS.

Record cell_search_ret_t := mk_cell_search_ret { found : found_t; last_freq : last_freq_t }.

(** [phy_controller::cell_srch_res] *)
Record cell_srch_res := mk_cell_srch_res { cs_ret : cell_search_ret_t; found_cell : phy_cell_t }.

(** *** Timers *)

Module timer.

(** Modelled from the spec: the timer service (srslte/common/timers.h) is
    not among the source files.  A timer is
    "{id, duration_ms, expired, running, on_expiry callback}"; the callback
    is the event the [react] of the owner receives. *)
Record t := mk { id : nat; duration : Z; running : bool; expired : bool }.

(** Modelled from the spec: timers are "reconfigurable, may be .run() /
    .stop()". *)
Definition set (tm : t) (d : Z) : t := mk (id tm) d (running tm) (expired tm).

(** Modelled from the spec: [run()] of a timer of the timer service. *)
Definition run (tm : t) : t := mk (id tm) (duration tm) true false.

(** Modelled from the spec: [stop()] of a timer of the timer service. *)
Definition stop (tm : t) : t := mk (id tm) (duration tm) false (expired tm).

Definition is_running (tm : t) : bool := running tm.
Definition is_expired (tm : t) : bool := expired tm.

(** Modelled from the spec: the timer service lets a running timer expire,
    "on expiry the callback is invoked exactly once". *)
Definition expire (tm : t) : t := mk (id tm) (duration tm) false true.

End timer.

(** *** Measured cells *)

(** Modelled from the spec: the RSRP of a cell (srsue/hdr/stack/rrc/rrc_cell.h
    is not among the source files) is a "float, may be NaN until a
    measurement arrives".  Only NaN, minus infinity and a finite reading
    are told apart. *)
Inductive rsrp_t := rsrp_nan | rsrp_neg_inf | rsrp_dbm (v : Z).

(** [std::isnormal]: neither NaN, infinite nor zero. *)
Definition isnormal (r : rsrp_t) : bool :=
  match r with rsrp_dbm v => negb (v =? 0) | _ => false end.

(** Modelled from the spec: [cell_t] of rrc_cell.h, a measured cell
    "{phy_cell_id (PCI), earfcn, rsrp, sib1?, sib2?, sib3?, sib13?,
    has_mcch, ...}". *)
Record cell_t := mk_cell {
  phy_cell : phy_cell_t;
  rsrp : rsrp_t;
  sib1 : option sib_type1_s;
  sibs : list Z;             (* indices (1 = SIB2, 2 = SIB3, 12 = SIB13) of the other SIBs held *)
  has_mcch : bool
}.

(** Modelled from the spec: [cell_t::has_sib(index)], "possession of a SIB". *)
Definition has_sib (c : cell_t) (index : Z) : bool :=
  if index =? 0 then match sib1 c with Some _ => true | None => false end
  else existsb (Z.eqb index) (sibs c).

Definition has_sib1 (c : cell_t) : bool := has_sib c 0.
Definition has_sib2 (c : cell_t) : bool := has_sib c 1.
Definition has_sib3 (c : cell_t) : bool := has_sib c 2.

(** Modelled from the spec: [cell_t::sib1ptr()], the SIB1 the cell holds. *)
Definition sib1ptr (c : cell_t) : option sib_type1_s := sib1 c.

Definition set_rsrp (c : cell_t) (r : rsrp_t) : cell_t :=
  mk_cell (phy_cell c) r (sib1 c) (sibs c) (has_mcch c).

Definition set_has_mcch (c : cell_t) (b : bool) : cell_t :=
  mk_cell (phy_cell c) (rsrp c) (sib1 c) (sibs c) b.

(** Modelled from the spec: [cell_t::reset_sibs()], "invalidate all
    serving-cell SIBs". *)
Definition reset_sibs (c : cell_t) : cell_t :=
  mk_cell (phy_cell c) (rsrp c) None [] (has_mcch c).

(** [new cell_t(phy_cell)]: a cell with NaN RSRP and no SIB. *)
Definition new_cell_t (pc : phy_cell_t) : cell_t := mk_cell pc rsrp_nan None [] false.

(** Modelled from the spec: the measured-cells store of rrc_cell.h,
    "{serving_cell, neighbours: ordered sequence of cell}". *)
Record meas_cell_list := mk_meas_cells { serving_cell : cell_t; neighbours : list cell_t }.

Definition nof_neighbours (mc : meas_cell_list) : nat := List.length (neighbours mc).

Definition set_serving (mc : meas_cell_list) (c : cell_t) : meas_cell_list :=
  mk_meas_cells c (neighbours mc).

(** Modelled from the spec: [get_neighbour_cell_handle(earfcn, pci)] of the
    store, the "target cell known in neighbours": its position in the
    neighbour list, [None] for the null pointer. *)
Fixpoint find_neighbour (l : list cell_t) (e p : Z) : option nat :=
  match l with
  | [] => None
  | c :: l' =>
      if (earfcn (phy_cell c) =? e) && (pci (phy_cell c) =? p) then Some 0%nat
      else match find_neighbour l' e p with Some i => Some (S i) | None => None end
  end.

Fixpoint update_nth {A} (l : list A) (i : nat) (f : A -> A) : list A :=
  match l, i with
  | [], _ => []
  | x :: l', O => f x :: l'
  | x :: l', S i' => x :: update_nth l' i' f
  end.

(** *** Members of the parent [rrc] object the procedures use *)

Record sec_cfg_t := mk_sec_cfg { cipher_algo : Z; integ_algo : Z }.

Definition byte_buffer_t := list Z.

Module rrc.

Record t := mk {
  state : rrc_state_t;
  plmn_is_selected : bool;
  ue_identity : s_tmsi_t;
  ue_required_sibs : list Z;
  t300 : timer.t;
  t302 : timer.t;
  t304 : timer.t;
  t310 : timer.t;
  dedicated_info_nas : option byte_buffer_t;
  sec_cfg : sec_cfg_t;
  meas_cells : meas_cell_list;
  t301 : timer.t;
  t311 : timer.t;
  security_is_activated : bool
}.

Definition set_t300 (r : t) (x : timer.t) : t :=
  mk (state r) (plmn_is_selected r) (ue_identity r) (ue_required_sibs r)
     x (t302 r) (t304 r) (t310 r) (dedicated_info_nas r) (sec_cfg r) (meas_cells r)
     (t301 r) (t311 r) (security_is_activated r).

Definition set_t310 (r : t) (x : timer.t) : t :=
  mk (state r) (plmn_is_selected r) (ue_identity r) (ue_required_sibs r)
     (t300 r) (t302 r) (t304 r) x (dedicated_info_nas r) (sec_cfg r) (meas_cells r)
     (t301 r) (t311 r) (security_is_activated r).

Definition set_t304 (r : t) (x : timer.t) : t :=
  mk (state r) (plmn_is_selected r) (ue_identity r) (ue_required_sibs r)
     (t300 r) (t302 r) x (t310 r) (dedicated_info_nas r) (sec_cfg r) (meas_cells r)
     (t301 r) (t311 r) (security_is_activated r).

Definition set_dedicated_info_nas (r : t) (x : option byte_buffer_t) : t :=
  mk (state r) (plmn_is_selected r) (ue_identity r) (ue_required_sibs r)
     (t300 r) (t302 r) (t304 r) (t310 r) x (sec_cfg r) (meas_cells r)
     (t301 r) (t311 r) (security_is_activated r).

Definition set_sec_cfg (r : t) (x : sec_cfg_t) : t :=
  mk (state r) (plmn_is_selected r) (ue_identity r) (ue_required_sibs r)
     (t300 r) (t302 r) (t304 r) (t310 r) (dedicated_info_nas r) x (meas_cells r)
     (t301 r) (t311 r) (security_is_activated r).

Definition set_meas_cells (r : t) (x : meas_cell_list) : t :=
  mk (state r) (plmn_is_selected r) (ue_identity r) (ue_required_sibs r)
     (t300 r) (t302 r) (t304 r) (t310 r) (dedicated_info_nas r) (sec_cfg r) x
     (t301 r) (t311 r) (security_is_activated r).

Definition set_state (r : t) (x : rrc_state_t) : t :=
  mk x (plmn_is_selected r) (ue_identity r) (ue_required_sibs r)
     (t300 r) (t302 r) (t304 r) (t310 r) (dedicated_info_nas r) (sec_cfg r) (meas_cells r)
     (t301 r) (t311 r) (security_is_activated r).

Definition set_t301 (r : t) (x : timer.t) : t :=
  mk (state r) (plmn_is_selected r) (ue_identity r) (ue_required_sibs r)
     (t300 r) (t302 r) (t304 r) (t310 r) (dedicated_info_nas r) (sec_cfg r) (meas_cells r)
     x (t311 r) (security_is_activated r).

Definition set_t311 (r : t) (x : timer.t) : t :=
  mk (state r) (plmn_is_selected r) (ue_identity r) (ue_required_sibs r)
     (t300 r) (t302 r) (t304 r) (t310 r) (dedicated_info_nas r) (sec_cfg r) (meas_cells r)
     (t301 r) x (security_is_activated r).

(** [meas_cells.serving_cell()] *)
Definition serving (r : t) : cell_t := serving_cell (meas_cells r).

Definition update_serving (r : t) (f : cell_t -> cell_t) : t :=
  set_meas_cells r (set_serving (meas_cells r) (f (serving r))).

End rrc.

(** ** Calls a handler makes: the log and the collaborators *)

Inductive log_level := log_error | log_warning | log_info | log_debug | log_console.

Inductive action :=
| Log (l : log_level) (msg : string)
(* PHY and PHY controller *)
| phy_start_cell_search
| phy_start_cell_select (c : phy_cell_t)
| phy_reset
(* MAC *)
| mac_bcch_start_rx (si_win_start si_win_len : Z)
| mac_reset
| mac_wait_uplink
| mac_clear_rntis
| mac_set_ho_rnti (rnti target_pci : Z)
| mac_start_cont_ho
| mac_start_noncont_ho (preamble_idx mask_idx : Z)
(* RLC, PDCP, USIM *)
| rlc_reestablish
| pdcp_reestablish
| pdcp_config_security_all (cfg : sec_cfg_t)
| usim_generate_as_keys_ho (target_pci serving_earfcn ncc : Z)
(* NAS *)
| nas_page (s : s_tmsi_t)
| nas_connection_request_completed (outcome : bool)
| nas_set_barring_mo_data
(* the managers of the other procedures *)
| si_acquirer_launch (sib_index : Z)
| serv_cell_cfg_launch (required_sibs : list Z)
| serv_cell_cfg_run
| cell_searcher_launch
| cell_searcher_run
| cell_selector_launch
| callback_list_add_cell_selector
(* methods of [rrc] defined outside rrc_procedures.cc *)
| rrc_set_phy_default
| rrc_set_mac_default
| rrc_send_con_request (cause : Z)
| rrc_handle_sib2
| rrc_handle_sib13
| rrc_leave_connected
| rrc_apply_scell_config
| rrc_apply_rr_config_common (send_lower_layers : bool)
| rrc_apply_rr_config_dedicated
| rrc_send_rrc_con_reconfig_complete
| meas_parse_meas_config.

(** What the collaborators answer during one handler invocation.  The
    functions on the cell store are members of [rrc] and of the store that
    are defined in other files; they are taken as they come. *)
Record env_t := mk_env {
  current_tti : Z;     (* [stack->get_current_tti().to_uint()], below 10240 *)
  phy_cell_is_camping : bool;
  phy_ctrl_is_in_sync : bool;
  phy_ctrl_start_cell_search : bool;
  phy_ctrl_start_cell_select : phy_cell_t -> bool;
  nas_paging_ret : s_tmsi_t -> bool;
  si_acquirer_launch_ret : Z -> bool;
  si_acquire_fut : future_t unit;
  serv_cell_cfg_launch_ret : bool;
  serv_cell_cfg_run_ret : bool;
  serv_cfg_fut : future_t unit;
  cell_searcher_launch_ret : bool;
  cell_searcher_run_ret : bool;
  cell_search_fut : future_t cell_search_ret_t;
  cell_selector_is_idle : bool;
  cell_selector_launch_ret : bool;
  is_sib_scheduled : cell_t -> Z -> bool;
  cell_selection_criteria : rrc.t -> rsrp_t -> bool;
  add_meas_cell : meas_cell_list -> cell_t -> bool * meas_cell_list;
  meas_set_serving_cell : meas_cell_list -> phy_cell_t -> bool -> meas_cell_list;
  rrc_set_serving_cell : rrc.t -> phy_cell_t -> bool -> rrc.t;
  parse_meas_config_ret : bool
}.

(** ** The handler monad

    A handler runs on its own members [P], the parent [rrc] object and the trace
    of the calls made so far.  [None] stands for an execution the C++
    leaves undefined (a read through a null pointer or out of bounds). *)

Record ctx (P : Type) := mk_ctx { self : P; rrc_ptr : rrc.t; trace : list action }.
Arguments mk_ctx {P} self rrc_ptr trace.
Arguments self {P} c.
Arguments rrc_ptr {P} c.
Arguments trace {P} c.

Definition M (P A : Type) : Type := ctx P -> option (A * ctx P).

Definition ret {P A} (a : A) : M P A := fun c => Some (a, c).

Definition bind {P A B} (m : M P A) (k : A -> M P B) : M P B :=
  fun c => match m c with Some (a, c') => k a c' | None => None end.

Notation "x <- m ;; k" := (bind m (fun x => k))
  (at level 61, m at next level, right associativity).
Notation "m ;; k" := (bind m (fun _ => k))
  (at level 61, right associativity).

Definition undefined {P A} : M P A := fun _ => None.

Definition get_self {P} : M P P := fun c => Some (self c, c).
Definition put_self {P} (p : P) : M P unit := fun c => Some (tt, mk_ctx p (rrc_ptr c) (trace c)).
Definition get_rrc {P} : M P rrc.t := fun c => Some (rrc_ptr c, c).
Definition put_rrc {P} (r : rrc.t) : M P unit := fun c => Some (tt, mk_ctx (self c) r (trace c)).
Definition act {P} (a : action) : M P unit :=
  fun c => Some (tt, mk_ctx (self c) (rrc_ptr c) (trace c ++ [a])).

Definition modify_self {P} (f : P -> P) : M P unit := p <- get_self ;; put_self (f p).
Definition modify_rrc {P} (f : rrc.t -> rrc.t) : M P unit := r <- get_rrc ;; put_rrc (f r).

Definition when {P} (b : bool) (m : M P unit) : M P unit := if b then m else ret tt.

(** The logging macros of rrc_procedures.cc *)
Definition Error {P} (msg : string) : M P unit := act (Log log_error msg).
Definition Warning {P} (msg : string) : M P unit := act (Log log_warning msg).
Definition Info {P} (msg : string) : M P unit := act (Log log_info msg).
Definition Debug {P} (msg : string) : M P unit := act (Log log_debug msg).
Definition Console {P} (msg : string) : M P unit := act (Log log_console msg).

(** A call that returns a value: the call is recorded, the answer is read
    from the environment. *)
Definition call {P A} (a : action) (answer : A) : M P A := act a ;; ret answer.

(** Modelled from the spec: the generic runner (srslte/common/stack_procedure.h)
    is not among the source files.  "Upon success/error, the engine
    captures a typed completion value ..., runs the procedure's then hook,
    and fulfils all futures waiting on this procedure"; on [yield] the
    procedure stays running. *)
Definition complete {P} (then_ : proc_state_t -> M P unit) (o : proc_outcome_t)
  : M P proc_outcome_t :=
  match o with
  | yield => ret yield
  | success => then_ (result_value tt) ;; ret success
  | error => then_ result_error ;; ret error
  end.

(** ** TS 36.331 Sec 5.2.3 - Acquisition of an SI message procedure *)

Definition si_window_error : string :=
  "The SI Window start was incorrectly calculated. si_win_start=%d, tti=%d".

Module si_acquire_proc.

Record t := mk {
  sib_index : Z;
  period : Z;
  sched_index : Z;
  si_acq_timeout : timer.t;
  si_acq_retry_timer : timer.t
}.

Definition set_sib_index (p : t) (x : Z) : t :=
  mk x (period p) (sched_index p) (si_acq_timeout p) (si_acq_retry_timer p).
Definition set_period (p : t) (x : Z) : t :=
  mk (sib_index p) x (sched_index p) (si_acq_timeout p) (si_acq_retry_timer p).
Definition set_sched_index (p : t) (x : Z) : t :=
  mk (sib_index p) (period p) x (si_acq_timeout p) (si_acq_retry_timer p).
Definition set_si_acq_timeout (p : t) (x : timer.t) : t :=
  mk (sib_index p) (period p) (sched_index p) x (si_acq_retry_timer p).
Definition set_si_acq_retry_timer (p : t) (x : timer.t) : t :=
  mk (sib_index p) (period p) (sched_index p) (si_acq_timeout p) x.

Inductive event := sib_received_ev | si_acq_timer_expired (timer_id : nat).

Definition start_si_acquire (E : env_t) : M t unit :=
  let nof_sib_harq_retxs := 5 in
  p <- get_self ;;
  r <- get_rrc ;;
  (* Instruct MAC to decode SIB (non-blocking) *)
  let tti := current_tti E in
  match compute_si_window tti (sib_index p) (u32 (sched_index p)) (period p)
                          (sib1ptr (rrc.serving r)) with
  | None => undefined
  | Some (first, second) =>
      let si_win_start := tti_point.make first in
      if tti_point.lt si_win_start tti then
        Error si_window_error
      else
        let si_win_len := second in
        act (mac_bcch_start_rx si_win_start si_win_len) ;;
        (* start window retry timer *)
        let retry_period :=
          if sib_index p =? 0 then sib1_periodicity else u32 (period p * nof_sib_harq_retxs) in
        let tics_until_si_win_start := tti_point.sub si_win_start tti in
        let tics_until_si_retry := u32 (retry_period + tics_until_si_win_start) in
        put_self (set_si_acq_retry_timer p
                    (timer.run (timer.set (si_acq_retry_timer p) tics_until_si_retry))) ;;
        Info "Instructed MAC to search for SIB%d, win_start=%d, win_len=%d, period=%d, sched_index=%d"
  end.

Definition init (E : env_t) (sib_index_ : Z) : M t proc_outcome_t :=
  r <- get_rrc ;;
  (* make sure we dont already have the SIB of interest *)
  if has_sib (rrc.serving r) sib_index_ then
    Info "The UE has already acquired SIB%d" ;;
    ret success
  else
    Info "Starting SI Acquisition procedure for SIB%d" ;;
    (* make sure SIB1 is captured before other SIBs *)
    modify_self (fun p => set_sib_index p sib_index_) ;;
    if (sib_index_ >? 0) && negb (has_sib1 (rrc.serving r)) then
      Error "Trying to acquire SIB%d but SIB1 not received yet" ;;
      ret error
    else
      (* compute the si-Periodicity and schedInfoList index *)
      match compute_si_periodicity_and_idx sib_index_ (sib1ptr (rrc.serving r)) with
      | None => undefined
      | Some (first, second) =>
          if second <? 0 then
            Info "Could not find SIB%d scheduling in SIB1" ;;
            ret error
          else
            modify_self (fun p => set_sched_index (set_period p first) second) ;;
            (* trigger new SI acquisition procedure in MAC *)
            start_si_acquire E ;;
            (* start timeout timer *)
            modify_self (fun p => set_si_acq_timeout p (timer.run (si_acq_timeout p))) ;;
            ret yield
      end.

Definition then_ (result : proc_state_t) : M t unit :=
  (* make sure timers are stopped *)
  modify_self (fun p => set_si_acq_retry_timer p (timer.stop (si_acq_retry_timer p))) ;;
  modify_self (fun p => set_si_acq_timeout p (timer.stop (si_acq_timeout p))) ;;
  if is_success result then Info "SIB%d acquired successfully"
  else Error "Failed to acquire SIB%d".

Definition react_sib_received_ev (E : env_t) : M t proc_outcome_t :=
  p <- get_self ;;
  r <- get_rrc ;;
  if has_sib (rrc.serving r) (sib_index p) then ret success else ret yield.

Definition react_si_acq_timer_expired (E : env_t) (timer_id : nat) : M t proc_outcome_t :=
  p <- get_self ;;
  r <- get_rrc ;;
  if has_sib (rrc.serving r) (sib_index p) then ret success
  else if Nat.eqb timer_id (timer.id (si_acq_retry_timer p)) then
    (* retry si acquire *)
    Info "SI Acquire Retry Timeout for SIB%d" ;;
    start_si_acquire E ;;
    ret yield
  else
    (* timeout. SI acquire failed *)
    (if Nat.eqb timer_id (timer.id (si_acq_timeout p))
     then Error "Timeout while acquiring SIB%d"
     else Error "Unrecognized timer id") ;;
    ret error.

Definition react (E : env_t) (ev : event) : M t proc_outcome_t :=
  match ev with
  | sib_received_ev => react_sib_received_ev E
  | si_acq_timer_expired timer_id => react_si_acq_timer_expired E timer_id
  end.

(** *** The procedure under its manager and the timer service *)

(** [si_acquirer.launch(&fut, sib_index)] on an idle procedure *)
Definition launch (E : env_t) (sib_index_ : Z) : M t proc_outcome_t :=
  o <- init E sib_index_ ;; complete then_ o.

(** [si_acquirer.trigger(ev)] on a running procedure *)
Definition trigger (E : env_t) (ev : event) : M t proc_outcome_t :=
  o <- react E ev ;; complete then_ o.

(** One of the two timers of the procedure, running, expires. *)
Definition expire_timer (timer_id : nat) : M t unit :=
  p <- get_self ;;
  if Nat.eqb timer_id (timer.id (si_acq_retry_timer p)) && timer.running (si_acq_retry_timer p) then
    put_self (set_si_acq_retry_timer p (timer.expire (si_acq_retry_timer p)))
  else if Nat.eqb timer_id (timer.id (si_acq_timeout p)) && timer.running (si_acq_timeout p) then
    put_self (set_si_acq_timeout p (timer.expire (si_acq_timeout p)))
  else undefined.

(** What reaches a running procedure: the world has moved on to [world],
    and either a SIB has been received or one of the timers has expired,
    its callback triggering [si_acq_timer_expired]. *)
Record input := mk_input { in_env : env_t; world : rrc.t; in_event : event }.

Definition deliver (i : input) : M t proc_outcome_t :=
  put_rrc (world i) ;;
  match in_event i with
  | sib_received_ev => trigger (in_env i) sib_received_ev
  | si_acq_timer_expired timer_id =>
      expire_timer timer_id ;; trigger (in_env i) (si_acq_timer_expired timer_id)
  end.

(** Inputs are delivered while the procedure yields. *)
Fixpoint run (ins : list input) : M t proc_outcome_t :=
  match ins with
  | [] => ret yield
  | i :: ins' =>
      o <- deliver i ;;
      match o with
      | yield => run ins'
      | _ => ret o
      end
  end.

(** *** The life of the procedure object *)

(** Whether the SI-window that [start_si_acquire] computes in the state of
    [c] starts, in the wrap-aware order, before the current TTI. *)
Definition window_in_past (E : env_t) (c : ctx t) : bool :=
  match compute_si_window (current_tti E) (sib_index (self c)) (u32 (sched_index (self c)))
                          (period (self c)) (sib1ptr (rrc.serving (rrc_ptr c))) with
  | Some (first, _) => tti_point.lt (tti_point.make first) (current_tti E)
  | None => false
  end.

Inductive phase := idle | running.

Definition phase_after (o : proc_outcome_t) : phase :=
  match o with yield => running | _ => idle end.

(** Modelled from the spec: the constructor takes both timers from the
    timer service ([get_unique_timer]: a timer of its own each, not
    running); the manager launches the procedure only while it is idle,
    events reach it only while it runs, and the rrc object changes in
    between. *)
Inductive reachable : phase -> ctx t -> Prop :=
| reach_construct p r :
    timer.running (si_acq_timeout p) = false ->
    timer.running (si_acq_retry_timer p) = false ->
    timer.id (si_acq_retry_timer p) <> timer.id (si_acq_timeout p) ->
    reachable idle (mk_ctx p r [])
| reach_world ph c r :
    reachable ph c -> reachable ph (mk_ctx (self c) r (trace c))
| reach_launch E sib_index_ c o c' :
    reachable idle c -> launch E sib_index_ c = Some (o, c') -> reachable (phase_after o) c'
| reach_deliver i c o c' :
    reachable running c -> deliver i c = Some (o, c') -> reachable (phase_after o) c'.

(** The procedure waits in [c'] after a handler in which [start_si_acquire]
    found the SI-window start in the past: [init], run by a launch, or the
    [react] to the expiry of the retry timer. *)
Inductive stalled : ctx t -> Prop :=
| stalled_launch E sib_index_ c c' :
    reachable idle c ->
    launch E sib_index_ c = Some (yield, c') ->
    window_in_past E c' = true ->
    stalled c'
| stalled_retry i c c' :
    reachable running c ->
    in_event i = si_acq_timer_expired (timer.id (si_acq_retry_timer (self c))) ->
    deliver i c = Some (yield, c') ->
    window_in_past (in_env i) c' = true ->
    stalled c'.

End si_acquire_proc.

Definition is_bcch_start_rx (a : action) : bool :=
  match a with mac_bcch_start_rx _ _ => true | _ => false end.

(** ** Serving Cell Config Procedure *)

Module serving_cell_config_proc.

Record t := mk { required_sibs : list Z; req_idx : nat }.

Definition set_required_sibs (p : t) (x : list Z) : t := mk x (req_idx p).
Definition set_req_idx (p : t) (x : nat) : t := mk (required_sibs p) x.

(** The loop of [launch_sib_acquire], entered with [req_idx = idx] and
    [rest] the required SIBs from position [idx] on.  [req_idx] is written
    back where the loop is left. *)
Fixpoint launch_sib_acquire_from (E : env_t) (rest : list Z) (idx : nat) : M t proc_outcome_t :=
  match rest with
  | [] =>
      modify_self (fun p => set_req_idx p idx) ;;
      Info "Serving Cell Configuration Procedure has finished successfully" ;;
      ret success
  | required_sib :: rest' =>
      r <- get_rrc ;;
      if negb (has_sib (rrc.serving r) required_sib) then
        if (required_sib <? 2) || is_sib_scheduled E (rrc.serving r) required_sib then
          modify_self (fun p => set_req_idx p idx) ;;
          Info "Cell has no SIB%d. Obtaining SIB%d" ;;
          launched <- call (si_acquirer_launch required_sib) (si_acquirer_launch_ret E required_sib) ;;
          if negb launched then
            Error "SI Acquire is already running..." ;;
            ret error
          else
            (* wait for si acquire to finish *)
            ret yield
        else
          (* SIB is not scheduled in SchedInfoList. Skipping it... *)
          launch_sib_acquire_from E rest' (S idx)
      else
        (* UE had SIB already. Handle its SIB *)
        Info "Cell has SIB%d" ;;
        (if required_sib =? 1 then act rrc_handle_sib2
         else if required_sib =? 12 then act rrc_handle_sib13
         else ret tt) ;;
        launch_sib_acquire_from E rest' (S idx)
  end.

Definition launch_sib_acquire (E : env_t) : M t proc_outcome_t :=
  p <- get_self ;;
  launch_sib_acquire_from E (skipn (req_idx p) (required_sibs p)) (req_idx p).

Definition init (E : env_t) (required_sibs_ : list Z) : M t proc_outcome_t :=
  modify_self (fun p => set_required_sibs p required_sibs_) ;;
  Info "Starting a Serving Cell Configuration Procedure" ;;
  if negb (phy_cell_is_camping E) then
    Error "Trying to configure Cell while not camping on it" ;;
    ret error
  else
    modify_rrc (fun r => rrc.update_serving r (fun c => set_has_mcch c false)) ;;
    modify_self (fun p => set_req_idx p 0%nat) ;;
    launch_sib_acquire E.

(** [required_sibs[req_idx]] past the end of the vector is undefined. *)
Definition step (E : env_t) : M t proc_outcome_t :=
  if negb (fut_is_complete (si_acquire_fut E)) then ret yield
  else
    p <- get_self ;;
    r <- get_rrc ;;
    match nth_error (required_sibs p) (req_idx p) with
    | None => undefined
    | Some required_sib =>
        if (fut_is_error (si_acquire_fut E) || negb (has_sib (rrc.serving r) required_sib))
           && (required_sib <? 2)
        then
          act (Log log_warning "Serving Cell Configuration has failed") ;;
          ret error
        else
          (* continue with remaining SIBs *)
          put_self (set_req_idx p (S (req_idx p))) ;;
          launch_sib_acquire E
    end.

(** States in which the procedure is running: [init] has yielded, [step]
    has yielded, and the rest of the stack may have changed the [rrc]
    object and made calls of its own in between. *)
Inductive running : ctx t -> Prop :=
| running_init E required_sibs_ c c' :
    init E required_sibs_ c = Some (yield, c') -> running c'
| running_step E c c' :
    running c -> step E c = Some (yield, c') -> running c'
| running_world c r tr :
    running c -> running (mk_ctx (self c) r tr).

End serving_cell_config_proc.

Definition is_si_acquirer_launch (a : action) : bool :=
  match a with si_acquirer_launch _ => true | _ => false end.

(** ** Cell Search Procedure *)

Module cell_search_proc.

Inductive state_t := phy_cell_search | phy_cell_select | si_acquire | wait_measurement.

Definition state_eqb (a b : state_t) : bool :=
  match a, b with
  | phy_cell_search, phy_cell_search | phy_cell_select, phy_cell_select
  | si_acquire, si_acquire | wait_measurement, wait_measurement => true
  | _, _ => false
  end.

Record t := mk { state : state_t; search_result : cell_srch_res }.

Definition set_state (p : t) (x : state_t) : t := mk x (search_result p).
Definition set_search_result (p : t) (x : cell_srch_res) : t := mk (state p) x.

Definition handle_cell_found (E : env_t) (new_cell : phy_cell_t) : M t proc_outcome_t :=
  Info "Cell found in this frequency. Setting new serving cell EARFCN=%d PCI=%d ..." ;;
  r <- get_rrc ;;
  (* Create a cell with NaN RSRP. Will be updated by new_phy_meas() during SIB search. *)
  let (added, cells) := add_meas_cell E (rrc.meas_cells r) (new_cell_t new_cell) in
  put_rrc (rrc.set_meas_cells r cells) ;;
  if negb added then
    Error "Could not add new found cell" ;;
    ret error
  else
    modify_rrc (fun r => rrc.set_meas_cells r
                           (meas_set_serving_cell E (rrc.meas_cells r) new_cell false)) ;;
    (* set new serving cell in PHY *)
    modify_self (fun p => set_state p phy_cell_select) ;;
    r <- get_rrc ;;
    started <- call (phy_start_cell_select (phy_cell (rrc.serving r)))
                    (phy_ctrl_start_cell_select E (phy_cell (rrc.serving r))) ;;
    if negb started then
      Error "Couldn't start phy cell selection" ;;
      ret error
    else ret yield.

(** [react(const bool& cs_ret)]: the result of a PHY cell selection *)
Definition react_cell_select (E : env_t) (cs_ret : bool) : M t proc_outcome_t :=
  p <- get_self ;;
  if negb (state_eqb (state p) phy_cell_select) then
    Warning "Received unexpected cell search result" ;;
    ret yield
  else if negb cs_ret then
    Error "Couldn't select new serving cell" ;;
    ret error
  else if negb (phy_cell_is_camping E) then
    Warning "Could not camp on found cell." ;;
    ret error
  else
    r <- get_rrc ;;
    when (negb (isnormal (rsrp (rrc.serving r))))
         (Info "No valid measurement found for the serving cell. Wait for valid measurement...") ;;
    put_self (set_state p wait_measurement) ;;
    ret yield.

(** [react(const phy_controller::cell_srch_res& event)] *)
Definition react_cell_search (E : env_t) (event : cell_srch_res) : M t proc_outcome_t :=
  p <- get_self ;;
  if negb (state_eqb (state p) phy_cell_search) then
    Error "Received unexpected cell search result" ;;
    ret error
  else
    put_self (set_search_result p event) ;;
    (* Transition to SI Acquire or finish *)
    match found (cs_ret event) with
    | CELL_FOUND => handle_cell_found E (found_cell event)
    | CELL_NOT_FOUND =>
        (* No cells found. Do nothing *)
        ret success
    | ERROR => ret error
    end.

(** Searches for a cell in the current frequency and retrieves SIB1 if not
    retrieved yet *)
Definition init (E : env_t) : M t proc_outcome_t :=
  Info "Starting..." ;;
  modify_self (fun p => set_state p phy_cell_search) ;;
  started <- call phy_start_cell_search (phy_ctrl_start_cell_search E) ;;
  if negb started then
    Warning "Failed to initiate Cell Search." ;;
    ret error
  else ret yield.

Definition step_si_acquire (E : env_t) : M t proc_outcome_t :=
  if negb (fut_is_complete (si_acquire_fut E)) then ret yield
  else if fut_is_error (si_acquire_fut E) then
    (* SI Acquire has completed *)
    Error "Failed to trigger SI acquire for SIB0" ;;
    ret error
  else
    Info "Completed successfully" ;;
    ret success.

Definition step_wait_measurement (E : env_t) : M t proc_outcome_t :=
  r <- get_rrc ;;
  if negb (isnormal (rsrp (rrc.serving r))) then ret yield
  else if has_sib1 (rrc.serving r) then
    Info "Cell has SIB1" ;;
    ret success
  else
    Info "Cell has no SIB1. Obtaining SIB1..." ;;
    launched <- call (si_acquirer_launch 0) (si_acquirer_launch_ret E 0) ;;
    if negb launched then
      (* disallow concurrent si_acquire *)
      Error "SI Acquire is already running..." ;;
      ret error
    else
      modify_self (fun p => set_state p si_acquire) ;;
      (* [return step()] in state [si_acquire] *)
      step_si_acquire E.

Definition step (E : env_t) : M t proc_outcome_t :=
  p <- get_self ;;
  match state p with
  | phy_cell_search | phy_cell_select =>
      (* Waits for cell select/search to complete *)
      ret yield
  | si_acquire => step_si_acquire E
  | wait_measurement => step_wait_measurement E
  end.

End cell_search_proc.

(** ** Calls and answers of the remaining procedures

    The procedures below call on parts of the stack that [action] has no
    constructor for.  Their calls, those of [action] included, are recorded
    in order in a list of their own, kept beside the members of the
    procedure; the [trace] of the context is not used by them.  A launch or
    a run of another procedure is one entry of the list: the calls that
    procedure makes in turn are not listed. *)

Inductive stack_call :=
| base (a : action)
(* MAC, RLC *)
| mac_pcch_start_rx
| mac_get_rntis
| rlc_suspend_bearer (lcid : nat)
(* the managers of the other procedures *)
| cell_reselector_launch
| cell_reselector_run
| cell_selector_launch_fut
| cell_selector_run
| callback_list_add_cell_reselector
| serv_cell_cfg_launch_no_future (required_sibs : list Z)
(* methods of [rrc] defined outside rrc_procedures.cc *)
| rrc_start_go_idle
| rrc_set_phy_default_pucch_srs
| rrc_apply_mac_config_dedicated_default
| rrc_send_con_restablish_request (cause rnti source_pci : Z)
| rrc_con_reconfig_failed.

Record with_calls (P : Type) := mk_with_calls { proc : P; calls : list stack_call }.
Arguments mk_with_calls {P} proc calls.
Arguments proc {P} w.
Arguments calls {P} w.

(** Modelled from the spec: the procedure manager
    (srslte/common/stack_procedure.h) is not among the source files.
    "launch(&future, args) -> bool - enters running state and runs init.
    Fails (returns false) if another invocation is already running", and
    "run() -> bool - called by outer code to advance this procedure one
    step; returns true while running, false when complete"; the hooks of
    the procedures that complete are run on the way.  A launch or a run of
    another procedure therefore executes handlers that write to the rrc
    object.  The value such a call returns and the rrc object it leaves
    are given, for each procedure called, as a function of the rrc object
    at the time of the call. *)
Definition sub_call := rrc.t -> bool * rrc.t.

(** What the collaborators answer and do, beyond [env_t]. *)
Record answers := mk_answers {
  srbs_flushed : bool;                 (* [rrc_ptr->srbs_flushed()] *)
  nas_is_attached : bool;              (* [nas->is_attached()] *)
  leave_connected_rest : rrc.t -> rrc.t;
  cell_selector_launch_does : sub_call;
  cell_selector_run_does : sub_call;
  cell_selection_fut : future_t cs_result_t;
  cell_reselector_launch_does : sub_call;
  cell_reselector_run_does : sub_call;
  serv_cell_cfg_launch_does : list Z -> sub_call;
  serv_cell_cfg_run_does : sub_call;
  crnti : Z;                           (* [uernti.crnti] after [mac->get_rntis(&uernti)] *)
  rlc_has_bearer : nat -> bool;
  n_radio_bearers : nat                (* SRSLTE_N_RADIO_BEARERS *)
}.

(** Modelled from the spec: [rrc::leave_connected()] (rrc.cc is not among
    the source files).  The go-idle procedure "transitions to IDLE" through
    it, and "After go-idle success, state == IDLE"; what else the method
    does to the rrc object is [leave_connected_rest]. *)
Definition leave_connected (A : answers) (r : rrc.t) : rrc.t :=
  rrc.set_state (leave_connected_rest A r) RRC_STATE_IDLE.

(** The call of another procedure has been made: the rrc object is as that
    procedure leaves it, and the call returns its answer. *)
Definition through {P} (does : sub_call) : M P bool :=
  r <- get_rrc ;;
  put_rrc (snd (does r)) ;;
  ret (fst (does r)).

Definition get_proc {P} : M (with_calls P) P := fun c => Some (proc (self c), c).

Definition modify_proc {P} (f : P -> P) : M (with_calls P) unit :=
  modify_self (fun w => mk_with_calls (f (proc w)) (calls w)).

Definition emit {P} (x : stack_call) : M (with_calls P) unit :=
  modify_self (fun w => mk_with_calls (proc w) (calls w ++ [x])).

Definition emit_log {P} (l : log_level) (msg : string) : M (with_calls P) unit :=
  emit (base (Log l msg)).

(** Kinds of calls. *)
Definition is_base_log (x : stack_call) : bool :=
  match x with base (Log _ _) => true | _ => false end.

(** ** Cell Selection Procedure *)

Module cell_selection_proc.

Inductive search_state_t := cell_selection | serv_cell_camp | cell_config | cell_search.

Record t := mk {
  state : search_state_t;
  neigh_index : nat;
  cs_result : cs_result_t;
  discard_serving : bool;
  serv_cell_select_attempted : bool
}.

Definition set_state (p : t) (x : search_state_t) : t :=
  mk x (neigh_index p) (cs_result p) (discard_serving p) (serv_cell_select_attempted p).
Definition set_neigh_index (p : t) (x : nat) : t :=
  mk (state p) x (cs_result p) (discard_serving p) (serv_cell_select_attempted p).
Definition set_cs_result (p : t) (x : cs_result_t) : t :=
  mk (state p) (neigh_index p) x (discard_serving p) (serv_cell_select_attempted p).
Definition set_discard_serving (p : t) (x : bool) : t :=
  mk (state p) (neigh_index p) (cs_result p) x (serv_cell_select_attempted p).
Definition set_serv_cell_select_attempted (p : t) (x : bool) : t :=
  mk (state p) (neigh_index p) (cs_result p) (discard_serving p) x.

Definition step_cell_search (E : env_t) : M t proc_outcome_t :=
  running <- call cell_searcher_run (cell_searcher_run_ret E) ;;
  if running then ret yield
  else
    match cell_search_fut E with
    | fut_error =>
        modify_self (fun p => set_cs_result p no_cell) ;;
        ret error
    | fut_value v =>
        modify_self (fun p => set_cs_result p
                                (match found v with CELL_FOUND => changed_cell | _ => no_cell end)) ;;
        Info "Cell Search of cell selection run successfully" ;;
        ret success
    | fut_pending => undefined
    end.

Definition start_serv_cell_selection (E : env_t) : M t proc_outcome_t :=
  if phy_ctrl_is_in_sync E && phy_cell_is_camping E then
    modify_self (fun p => set_cs_result p same_cell) ;;
    ret success
  else
    Info "Not camping on serving cell %s. Selecting it..." ;;
    modify_self (fun p => set_state p serv_cell_camp) ;;
    r <- get_rrc ;;
    started <- call (phy_start_cell_select (phy_cell (rrc.serving r)))
                    (phy_ctrl_start_cell_select E (phy_cell (rrc.serving r))) ;;
    if negb started then
      Error "Failed to launch PHY Cell Selection" ;;
      ret error
    else
      modify_self (fun p => set_serv_cell_select_attempted p true) ;;
      ret yield.

(** The loop of [start_cell_selection] over the known neighbours, entered
    with [neigh_index = idx] and [rest] the neighbours from position [idx]
    on.  [Some o] when the loop body returns [o], [None] when the loop runs
    out; [neigh_index] is written back where the loop is left. *)
Fixpoint select_neighbour (E : env_t) (rest : list cell_t) (idx : nat)
  : M t (option proc_outcome_t) :=
  match rest with
  | [] =>
      modify_self (fun p => set_neigh_index p idx) ;;
      ret None
  | cell :: rest' =>
      r <- get_rrc ;;
      (* Matches S criteria *)
      if cell_selection_criteria E r (rsrp cell) then
        (* Try to select Cell *)
        p <- get_self ;;
        put_rrc (rrc_set_serving_cell E r (phy_cell cell) (discard_serving p)) ;;
        put_self (set_discard_serving (set_neigh_index p idx) false) ;;
        Info "Selected cell: %s" ;;
        modify_self (fun p => set_state p cell_selection) ;;
        r' <- get_rrc ;;
        started <- call (phy_start_cell_select (phy_cell (rrc.serving r')))
                        (phy_ctrl_start_cell_select E (phy_cell (rrc.serving r'))) ;;
        if negb started then
          Error "Failed to launch PHY Cell Selection" ;;
          ret (Some error)
        else ret (Some yield)
      else select_neighbour E rest' (S idx)
  end.

Definition start_cell_selection (E : env_t) : M t proc_outcome_t :=
  p <- get_self ;;
  r <- get_rrc ;;
  (* First of all, try to re-select the current serving cell if it meets the criteria *)
  if negb (serv_cell_select_attempted p)
     && cell_selection_criteria E r (rsrp (rrc.serving r))
  then start_serv_cell_selection E
  else
    (* If serving is not available, use the stored information (known neighbours) *)
    sel <- select_neighbour E (skipn (neigh_index p) (neighbours (rrc.meas_cells r)))
                            (neigh_index p) ;;
    match sel with
    | Some o => ret o
    | None =>
        Info "Could not select any known cell. Searching new cells" ;;
        launched <- call cell_searcher_launch (cell_searcher_launch_ret E) ;;
        if negb launched then ret error
        else
          modify_self (fun p => set_state p cell_search) ;;
          (* [return step()] in state [cell_search] *)
          step_cell_search E
    end.

Definition step_cell_selection (E : env_t) (cs_ret : bool) : M t proc_outcome_t :=
  r <- get_rrc ;;
  let try_next_cell : M t proc_outcome_t :=
    modify_rrc (fun r => rrc.update_serving r (fun c => set_rsrp c rsrp_neg_inf)) ;;
    (* Discard this cell and continue to next neighbour cell *)
    modify_self (fun p => set_neigh_index (set_discard_serving p true) (S (neigh_index p))) ;;
    start_cell_selection E in
  if cs_ret then
    (* successful selection *)
    if cell_selection_criteria E r (rsrp (rrc.serving r)) then
      Info "PHY is in SYNC and cell selection passed" ;;
      launched <- call (serv_cell_cfg_launch (rrc.ue_required_sibs r)) (serv_cell_cfg_launch_ret E) ;;
      if negb launched then ret error
      else
        modify_self (fun p => set_state p cell_config) ;;
        ret yield
    else
      Info "PHY is in SYNC but cell selection did not pass. Go back to select step." ;;
      modify_self (fun p => set_cs_result p no_cell) ;;
      try_next_cell
  else
    Error "Could not camp on serving cell." ;;
    try_next_cell.

Definition step_serv_cell_camp (E : env_t) (cs_ret : bool) : M t proc_outcome_t :=
  (* if we are now camping, the proc was successful *)
  if cs_ret then
    Info "Selected serving cell OK." ;;
    modify_self (fun p => set_cs_result p same_cell) ;;
    ret success
  else
    modify_rrc (fun r => rrc.update_serving r (fun c => set_rsrp c rsrp_neg_inf)) ;;
    Warning "Could not camp on serving cell." ;;
    start_cell_selection E.

Definition step_cell_config (E : env_t) : M t proc_outcome_t :=
  running <- call serv_cell_cfg_run (serv_cell_cfg_run_ret E) ;;
  if running then ret yield
  else if fut_is_success (serv_cfg_fut E) then
    Console "Selected cell: %s" ;;
    Info "All SIBs of serving cell obtained successfully" ;;
    modify_self (fun p => set_cs_result p changed_cell) ;;
    ret success
  else
    Error "While configuring serving cell" ;;
    (* resume cell selection *)
    modify_self (fun p => set_neigh_index p (S (neigh_index p))) ;;
    start_cell_selection E.

Definition step (E : env_t) : M t proc_outcome_t :=
  p <- get_self ;;
  match state p with
  | cell_selection => ret yield     (* this state waits for phy event *)
  | serv_cell_camp => ret yield     (* this state waits for phy event *)
  | cell_config => step_cell_config E
  | cell_search => step_cell_search E
  end.

(** [react(const bool& event)]: the result of a PHY cell selection *)
Definition react (E : env_t) (event : bool) : M t proc_outcome_t :=
  p <- get_self ;;
  match state p with
  | cell_selection => step_cell_selection E event
  | serv_cell_camp => step_serv_cell_camp E event
  | cell_search =>
      (* cell search may call cell_select *)
      ret yield
  | cell_config =>
      Warning "Unexpected cell selection event received" ;;
      ret yield
  end.

(** Cell selection procedure 36.304 5.2.3: select the best cell to camp on
    among the list of known cells *)
Definition init (E : env_t) : M t proc_outcome_t :=
  r <- get_rrc ;;
  if Nat.eqb (nof_neighbours (rrc.meas_cells r)) 0
     && phy_ctrl_is_in_sync E && phy_cell_is_camping E
  then
    (* don't bother with cell selection if there are no neighbours and we are already camping *)
    Debug "Skipping Cell Selection Procedure as there are no neighbour and cell is camping." ;;
    modify_self (fun p => set_cs_result p same_cell) ;;
    ret success
  else
    Info "Starting..." ;;
    Info "Current neighbor cells: [%s]" ;;
    Info "Current PHY state: %s" ;;
    (if has_sib3 (rrc.serving r)
     then Info "Cell selection criteria: Qrxlevmin=%f, Qrxlevminoffset=%f"
     else Info "Cell selection criteria: not available") ;;
    Info "Current serving cell: %s" ;;
    put_self (mk cell_selection 0 no_cell false false) ;;
    start_cell_selection E.

End cell_selection_proc.

(** ** Connection Request Procedure *)

Module connection_request_proc.

Inductive state_t := cell_selection | config_serving_cell | wait_t300.

Definition state_eqb (a b : state_t) : bool :=
  match a, b with
  | cell_selection, cell_selection | config_serving_cell, config_serving_cell
  | wait_t300, wait_t300 => true
  | _, _ => false
  end.

Record t := mk {
  state : state_t;
  cause : Z;
  dedicated_info_nas : option byte_buffer_t;
  cs_ret : cs_result_t
}.

Definition set_state (p : t) (x : state_t) : t := mk x (cause p) (dedicated_info_nas p) (cs_ret p).
Definition set_cause (p : t) (x : Z) : t := mk (state p) x (dedicated_info_nas p) (cs_ret p).
Definition set_dedicated_info_nas (p : t) (x : option byte_buffer_t) : t :=
  mk (state p) (cause p) x (cs_ret p).
Definition set_cs_ret (p : t) (x : cs_result_t) : t := mk (state p) (cause p) (dedicated_info_nas p) x.

Definition init (E : env_t) (A : answers) (cause_ : Z)
           (dedicated_info_nas_ : option byte_buffer_t)
  : M t proc_outcome_t :=
  modify_self (fun p => set_dedicated_info_nas (set_cause p cause_) dedicated_info_nas_) ;;
  r <- get_rrc ;;
  if negb (rrc.plmn_is_selected r) then
    Error "Trying to connect but PLMN not selected." ;;
    ret error
  else if negb (rrc_state_eqb (rrc.state r) RRC_STATE_IDLE) then
    act (Log log_warning "Requested RRC connection establishment while not in IDLE") ;;
    ret error
  else if timer.is_running (rrc.t302 r) then
    Info "Requested RRC connection establishment while T302 is running" ;;
    act nas_set_barring_mo_data ;;
    ret error
  else
    Info "Initiation of Connection establishment procedure" ;;
    modify_self (fun p => set_state (set_cs_ret p no_cell) cell_selection) ;;
    if cell_selector_is_idle E then
      (* No one is running cell selection *)
      act cell_selector_launch ;;
      launched <- through (cell_selector_launch_does A) ;;
      if negb launched then
        Error "Failed to initiate cell selection procedure..." ;;
        ret error
      else
        act callback_list_add_cell_selector ;;
        ret yield
    else
      Info "Cell selection proc already on-going. Wait for its result" ;;
      ret yield.

(** The branch of [step] for the state [wait_t300] *)
Definition step_wait_t300 (E : env_t) : M t proc_outcome_t :=
  r <- get_rrc ;;
  (* Wait until t300 stops due to RRCConnectionSetup/Reject or expiry *)
  if timer.is_running (rrc.t300 r) then ret yield
  else if rrc_state_eqb (rrc.state r) RRC_STATE_CONNECTED then
    (* Received ConnectionSetup *)
    ret success
  else if timer.is_expired (rrc.t300 r) then
    (* T300 is expired: 5.3.3.6 *)
    Warning "Timer T300 expired: ConnectionRequest timed out" ;;
    act mac_reset ;;
    act rrc_set_mac_default ;;
    act rlc_reestablish ;;
    ret error
  else
    (* T300 is stopped but RRC not Connected is because received Reject: Section 5.3.3.8 *)
    Warning "Timer T300 stopped: Received ConnectionReject" ;;
    act mac_reset ;;
    act rrc_set_mac_default ;;
    ret error.

(** The branch of [step] for the state [config_serving_cell] *)
Definition step_config_serving_cell (E : env_t) : M t proc_outcome_t :=
  running <- call serv_cell_cfg_run (serv_cell_cfg_run_ret E) ;;
  if running then ret yield
  else if fut_is_error (serv_cfg_fut E) then
    Error "Configuring serving cell" ;;
    ret error
  else
    modify_rrc (fun r => rrc.set_t300 r (timer.run (rrc.t300 r))) ;;
    (* Send connectionRequest message to lower layers *)
    p <- get_self ;;
    act (rrc_send_con_request (cause p)) ;;
    (* Save dedicatedInfoNAS SDU, if needed *)
    match dedicated_info_nas p with
    | Some sdu =>
        r <- get_rrc ;;
        match rrc.dedicated_info_nas r with
        | Some _ =>
            Warning "Received a new dedicatedInfoNAS SDU but there was one still in queue. Removing it." ;;
            modify_rrc (fun r => rrc.set_dedicated_info_nas r None)
        | None => ret tt
        end ;;
        Debug "Updating dedicatedInfoNAS in RRC" ;;
        modify_rrc (fun r => rrc.set_dedicated_info_nas r (Some sdu)) ;;
        modify_self (fun p => set_dedicated_info_nas p None)
    | None => Debug "dedicatedInfoNAS has already been provided to RRC."
    end ;;
    Info "Waiting for RRCConnectionSetup/Reject or expiry" ;;
    modify_self (fun p => set_state p wait_t300) ;;
    step_wait_t300 E.

Definition step (E : env_t) : M t proc_outcome_t :=
  p <- get_self ;;
  match state p with
  | cell_selection =>
      (* NOTE: cell selection will signal back with an event trigger *)
      ret yield
  | config_serving_cell => step_config_serving_cell E
  | wait_t300 => step_wait_t300 E
  end.

Definition then_ (result : proc_state_t) : M t unit :=
  (if is_error result then
     act (Log log_warning "Could not establish connection. Deallocating dedicatedInfoNAS PDU") ;;
     modify_self (fun p => set_dedicated_info_nas p None) ;;
     modify_rrc (fun r => rrc.set_dedicated_info_nas r None)
   else
     Info "Finished connection request procedure successfully.") ;;
  act (nas_connection_request_completed (is_success result)).

(** [react(const cell_selection_proc::cell_selection_complete_ev& e)] *)
Definition react (E : env_t) (e : proc_result_t cs_result_t) : M t proc_outcome_t :=
  p <- get_self ;;
  if negb (state_eqb (state p) cell_selection) then
    (* ignore if we are not expecting an cell selection result *)
    ret yield
  else
    match e with
    | result_error => ret error
    | result_value v =>
        put_self (set_cs_ret p v) ;;
        (* .. and SI acquisition *)
        if phy_cell_is_camping E then
          (* Set default configurations *)
          act rrc_set_phy_default ;;
          act rrc_set_mac_default ;;
          Info "Configuring serving cell..." ;;
          r <- get_rrc ;;
          launched <- call (serv_cell_cfg_launch (rrc.ue_required_sibs r))
                           (serv_cell_cfg_launch_ret E) ;;
          if negb launched then
            Error "Attach request failed to configure serving cell..." ;;
            ret error
          else
            modify_self (fun p => set_state p config_serving_cell) ;;
            step E
        else
          match v with
          | same_cell =>
              act (Log log_warning "Did not reselect cell but serving cell is out-of-sync.")
          | changed_cell =>
              act (Log log_warning "Selected a new cell but could not camp on. Setting out-of-sync.")
          | no_cell =>
              act (Log log_warning "Could not find any suitable cell to connect")
          end ;;
          ret error
    end.

(** The manager runs [then] when [step] completes the procedure. *)
Definition run (E : env_t) : M t proc_outcome_t :=
  o <- step E ;; complete then_ o.

End connection_request_proc.

(** ** Process PCCH procedure *)

(** A paging message: the S-TMSI of each paging record, and the
    systemInfoModification flag. *)
Record paging_s := mk_paging {
  paging_record_list : list s_tmsi_t;
  sys_info_mod_present : bool
}.

Module process_pcch_proc.

Inductive state_t := next_record | nas_paging | serv_cell_cfg.

Definition state_eqb (a b : state_t) : bool :=
  match a, b with
  | next_record, next_record | nas_paging, nas_paging | serv_cell_cfg, serv_cell_cfg => true
  | _, _ => false
  end.

Record t := mk { paging : paging_s; paging_idx : nat; state : state_t }.

Definition set_paging (p : t) (x : paging_s) : t := mk x (paging_idx p) (state p).
Definition set_paging_idx (p : t) (x : nat) : t := mk (paging p) x (state p).
Definition set_state (p : t) (x : state_t) : t := mk (paging p) (paging_idx p) x.

(** [paging_complete] *)
Record paging_complete := mk_paging_complete { outcome : bool }.

(** The branch of [step] for the state [serv_cell_cfg] *)
Definition step_serv_cell_cfg (E : env_t) : M t proc_outcome_t :=
  running <- call serv_cell_cfg_run (serv_cell_cfg_run_ret E) ;;
  if running then ret yield
  else if fut_is_success (serv_cfg_fut E) then
    Info "All SIBs of serving cell obtained successfully" ;;
    ret success
  else
    Error "While obtaining SIBs of serving cell" ;;
    ret error.

(** The loop of [step] over the paging records, entered with
    [paging_idx = idx] and [rest] the records from position [idx] on.
    [Some o] when the loop body returns [o], [None] when the loop runs out;
    [paging_idx] is written back where the loop is left. *)
Fixpoint walk_records (E : env_t) (rest : list s_tmsi_t) (idx : nat)
  : M t (option proc_outcome_t) :=
  match rest with
  | [] =>
      modify_self (fun p => set_paging_idx p idx) ;;
      ret None
  | s_tmsi_paged :: rest' =>
      Info "Received paging (%d/%d) for UE %lu:%lu" ;;
      r <- get_rrc ;;
      if s_tmsi_eqb (rrc.ue_identity r) s_tmsi_paged then
        if rrc_state_eqb RRC_STATE_IDLE (rrc.state r) then
          modify_self (fun p => set_paging_idx p idx) ;;
          Info "S-TMSI match in paging message" ;;
          Console "S-TMSI match in paging message" ;;
          started <- call (nas_page s_tmsi_paged) (nas_paging_ret E s_tmsi_paged) ;;
          if negb started then
            Error "Unable to start NAS paging proc" ;;
            ret (Some error)
          else
            modify_self (fun p => set_state p nas_paging) ;;
            (* [return step()] in state [nas_paging]: wait for trigger *)
            ret (Some yield)
        else
          Warning "Received paging while in CONNECT" ;;
          walk_records E rest' (S idx)
      else
        Info "Received paging for unknown identity" ;;
        walk_records E rest' (S idx)
  end.

(** The branch of [step] for the state [next_record] *)
Definition step_next_record (E : env_t) : M t proc_outcome_t :=
  p <- get_self ;;
  res <- walk_records E (skipn (paging_idx p) (paging_record_list (paging p))) (paging_idx p) ;;
  match res with
  | Some o => ret o
  | None =>
      if sys_info_mod_present (paging p) then
        Info "Received System Information notification update request." ;;
        (* invalidate and then update all SIBs of serving cell *)
        modify_rrc (fun r => rrc.update_serving r reset_sibs) ;;
        (* create a serving cell config procedure and push it to callback list *)
        r <- get_rrc ;;
        launched <- call (serv_cell_cfg_launch (rrc.ue_required_sibs r))
                         (serv_cell_cfg_launch_ret E) ;;
        if negb launched then
          Error "Failed to initiate a serving cell configuration procedure" ;;
          ret error
        else
          modify_self (fun p => set_state p serv_cell_cfg) ;;
          step_serv_cell_cfg E
      else
        Info "Completed successfully" ;;
        ret success
  end.

Definition step (E : env_t) : M t proc_outcome_t :=
  p <- get_self ;;
  match state p with
  | next_record => step_next_record E
  | nas_paging =>
      (* wait for trigger *)
      ret yield
  | serv_cell_cfg => step_serv_cell_cfg E
  end.

Definition init (E : env_t) (paging_ : paging_s) : M t proc_outcome_t :=
  modify_self (fun p => set_state (set_paging_idx (set_paging p paging_) 0%nat) next_record) ;;
  Info "starting..." ;;
  step E.

Definition react (E : env_t) (e : paging_complete) : M t proc_outcome_t :=
  p <- get_self ;;
  if negb (state_eqb (state p) nas_paging) then
    Warning "Received an unexpected paging complete" ;;
    ret yield
  else if negb (outcome e) then
    Info "NAS Paging has failed" ;;
    ret error
  else
    put_self (set_state (set_paging_idx p (S (paging_idx p))) next_record) ;;
    Info "Received paging complete event" ;;
    step E.

End process_pcch_proc.

(** ** Go Idle procedure *)

Module go_idle_proc.

Record t := mk { rlc_flush_timer : timer.t }.

Definition set_rlc_flush_timer (p : t) (x : timer.t) : t := mk x.

(** [react(bool timeout)]: the flush timer has expired *)
Definition react (E : env_t) (A : answers) (timeout : bool) : M (with_calls t) proc_outcome_t :=
  emit (base rrc_leave_connected) ;;
  modify_rrc (leave_connected A) ;;
  emit_log log_info "Left connected state" ;;
  ret success.

Definition init (E : env_t) : M (with_calls t) proc_outcome_t :=
  emit_log log_info "Starting..." ;;
  modify_proc (fun p => set_rlc_flush_timer p (timer.run (rlc_flush_timer p))) ;;
  (* Do not call step() directly. Instead we defer for one TTI *)
  ret yield.

Definition step (E : env_t) (A : answers) : M (with_calls t) proc_outcome_t :=
  r <- get_rrc ;;
  if rrc_state_eqb (rrc.state r) RRC_STATE_IDLE then
    emit_log log_info "Interrupting as RRC has already became IDLE" ;;
    ret success
  else if srbs_flushed A then
    (* wait for RLC of SRB1 and SRB2 to be flushed *)
    emit (base rrc_leave_connected) ;;
    modify_rrc (leave_connected A) ;;
    emit_log log_info "Left connected state" ;;
    ret success
  else
    emit_log log_debug "Postponing transition to RRC IDLE (%d ms < %d ms)" ;;
    ret yield.

Definition then_ (E : env_t) (A : answers) (result : proc_state_t) : M (with_calls t) unit :=
  if nas_is_attached A then
    emit cell_reselector_launch ;;
    launched <- through (cell_reselector_launch_does A) ;;
    if negb launched then
      emit_log log_error "Failed to initiate a Cell Reselection procedure..."
    else emit callback_list_add_cell_reselector
  else emit callback_list_add_cell_reselector.

(** The manager runs [then] when [step] completes the procedure. *)
Definition run (E : env_t) (A : answers) : M (with_calls t) proc_outcome_t :=
  o <- step E A ;; complete (then_ E A) o.

End go_idle_proc.

(** ** Handover Preparation Procedure *)

(** The fields of [RRCConnectionReconfiguration-r8] the procedure reads. *)
Record mob_ctrl_info_s := mk_mob_ctrl_info {
  target_pci : Z;
  carrier_freq_present : bool;
  dl_carrier_freq : Z;
  t304_ms : Z;
  new_ue_id : Z;
  rach_cfg_ded_present : bool;
  ra_preamb_idx : Z;
  ra_prach_mask_idx : Z
}.

Record security_cfg_ho_s := mk_security_cfg_ho {
  next_hop_chaining_count : Z;
  key_change_ind : bool;
  security_algorithm_cfg_present : bool;
  ciphering_algorithm : Z;
  integrity_prot_algorithm : Z
}.

Record rrc_conn_recfg_r8_ies_s := mk_recfg_r8 {
  mob_ctrl_info : mob_ctrl_info_s;
  rr_cfg_ded_present : bool;
  security_cfg_ho_present : bool;
  security_cfg_ho : security_cfg_ho_s
}.

Definition ho_interrupted : string :=
  "HO interrupted, since RRC is no longer in connected state".

Module ho_proc.

Inductive state_t := launch_phy_cell_select | wait_phy_cell_select_complete | wait_ra_completion.

Definition state_eqb (a b : state_t) : bool :=
  match a, b with
  | launch_phy_cell_select, launch_phy_cell_select
  | wait_phy_cell_select_complete, wait_phy_cell_select_complete
  | wait_ra_completion, wait_ra_completion => true
  | _, _ => false
  end.

Record t := mk {
  state : state_t;
  recfg_r8 : rrc_conn_recfg_r8_ies_s;
  target_earfcn : Z;
  ho_src_cell : cell_t;
  ho_src_rnti : Z
}.

Definition set_state (p : t) (x : state_t) : t :=
  mk x (recfg_r8 p) (target_earfcn p) (ho_src_cell p) (ho_src_rnti p).

Record ra_completed_ev := mk_ra_completed { ra_success : bool }.

(** [react(const bool& cs_ret)]: the result of the PHY cell selection *)
Definition react_cell_select (E : env_t) (cs_ret : bool) : M t proc_outcome_t :=
  p <- get_self ;;
  if negb (state_eqb (state p) wait_phy_cell_select_complete) then
    Warning "Received unexpected PHY Cell Selection event" ;;
    ret yield
  else
    r <- get_rrc ;;
    let mci := mob_ctrl_info (recfg_r8 p) in
    (* Check if cell has not been deleted in the meantime *)
    match find_neighbour (neighbours (rrc.meas_cells r)) (target_earfcn p) (target_pci mci) with
    | None =>
        Error "Cell removed from list of neighbours. Aborting handover preparation" ;;
        ret error
    | Some i =>
        match nth_error (neighbours (rrc.meas_cells r)) i with
        | None => undefined
        | Some target_cell =>
            if negb cs_ret then
              Error "Could not synchronize with target cell %s. Removing cell and trying to return to source %s" ;;
              (* Remove cell from list to avoid cell re-selection, picking the same cell *)
              put_rrc (rrc.set_meas_cells r
                         (mk_meas_cells (rrc.serving r)
                            (update_nth (neighbours (rrc.meas_cells r)) i
                                        (fun c => set_rsrp c rsrp_neg_inf)))) ;;
              ret error
            else
              put_rrc (rrc_set_serving_cell E r (phy_cell target_cell) false) ;;
              (* Extract and apply scell config if any *)
              act rrc_apply_scell_config ;;
              (if rach_cfg_ded_present mci then
                 Info "Starting non-contention based RA with preamble_idx=%d, mask_idx=%d" ;;
                 act (mac_start_noncont_ho (ra_preamb_idx mci) (ra_prach_mask_idx mci))
               else
                 Info "Starting contention-based RA" ;;
                 act mac_start_cont_ho) ;;
              let sec := security_cfg_ho (recfg_r8 p) in
              let ncc := if security_cfg_ho_present (recfg_r8 p)
                         then next_hop_chaining_count sec else -1 in
              if security_cfg_ho_present (recfg_r8 p) && key_change_ind sec then
                Console "keyChangeIndicator in securityConfigHO not supported" ;;
                ret error
              else
                when (security_cfg_ho_present (recfg_r8 p) && security_algorithm_cfg_present sec)
                     (modify_rrc (fun r => rrc.set_sec_cfg r
                                    (mk_sec_cfg (ciphering_algorithm sec)
                                                (integrity_prot_algorithm sec))) ;;
                      Info "Changed Ciphering to %s and Integrity to %s") ;;
                r' <- get_rrc ;;
                act (usim_generate_as_keys_ho (target_pci mci)
                       (earfcn (phy_cell (rrc.serving r'))) ncc) ;;
                act (pdcp_config_security_all (rrc.sec_cfg r')) ;;
                (* Have RRCReconfComplete message ready when Msg3 is sent *)
                act rrc_send_rrc_con_reconfig_complete ;;
                modify_self (fun p => set_state p wait_ra_completion) ;;
                ret yield
        end
    end.

(** [target_cell->to_string()] through a null handle is undefined. *)
Definition step (E : env_t) : M t proc_outcome_t :=
  p <- get_self ;;
  r <- get_rrc ;;
  if negb (rrc_state_eqb (rrc.state r) RRC_STATE_CONNECTED) then
    Info ho_interrupted ;;
    ret error
  else if state_eqb (state p) launch_phy_cell_select then
    let mci := mob_ctrl_info (recfg_r8 p) in
    (* Reset/Reestablish stack *)
    act pdcp_reestablish ;;
    act rlc_reestablish ;;
    act mac_wait_uplink ;;
    act mac_clear_rntis ;;
    act mac_reset ;;
    act phy_reset ;;
    act (mac_set_ho_rnti (new_ue_id mci) (target_pci mci)) ;;
    (* Apply common config, but do not send to lower layers if Dedicated is present *)
    act (rrc_apply_rr_config_common (negb (rr_cfg_ded_present (recfg_r8 p)))) ;;
    when (rr_cfg_ded_present (recfg_r8 p)) (act rrc_apply_rr_config_dedicated) ;;
    match find_neighbour (neighbours (rrc.meas_cells r)) (target_earfcn p) (target_pci mci) with
    | None => undefined
    | Some i =>
        match nth_error (neighbours (rrc.meas_cells r)) i with
        | None => undefined
        | Some target_cell =>
            Info "Starting cell selection of target cell %s" ;;
            started <- call (phy_start_cell_select (phy_cell target_cell))
                            (phy_ctrl_start_cell_select E (phy_cell target_cell)) ;;
            if negb started then
              Error "Failed to launch the selection of target cell %s" ;;
              ret error
            else
              modify_self (fun p => set_state p wait_phy_cell_select_complete) ;;
              ret yield
        end
    end
  else ret yield.

Definition react_t304_expiry (E : env_t) : M t proc_outcome_t :=
  Info "HO preparation timed out." ;;
  ret error.

Definition react_ra_completed (E : env_t) (ev : ra_completed_ev) : M t proc_outcome_t :=
  p <- get_self ;;
  if negb (state_eqb (state p) wait_ra_completion) then
    Warning "Received unexpected RA Complete Event" ;;
    ret yield
  else
    (if ra_success ev then
       parsed <- call meas_parse_meas_config (parse_meas_config_ret E) ;;
       when (negb parsed) (Error "Parsing measurementConfig. TODO: Send ReconfigurationReject")
     else ret tt) ;;
    Info "HO %ssuccessful" ;;
    Console "HO %ssuccessful" ;;
    ret (if ra_success ev then success else error).

Definition then_ (result : proc_state_t) : M t unit :=
  Info "Finished HO Preparation %s" ;;
  r <- get_rrc ;;
  if is_success result then
    put_rrc (rrc.set_t304 r (timer.stop (rrc.t304 r)))
  else
    when (timer.is_running (rrc.t304 r))
         (Info "Waiting for t304 to expire to start the Reestablishment procedure").

Definition set_handover (p : t) (recfg : rrc_conn_recfg_r8_ies_s) : t :=
  mk (state p) recfg (target_earfcn p) (ho_src_cell p) (ho_src_rnti p).
Definition set_target_earfcn (p : t) (x : Z) : t :=
  mk (state p) (recfg_r8 p) x (ho_src_cell p) (ho_src_rnti p).
Definition set_ho_src (p : t) (cell : cell_t) (rnti : Z) : t :=
  mk (state p) (recfg_r8 p) (target_earfcn p) cell rnti.

(** [init(const asn1::rrc::rrc_conn_recfg_s& rrc_reconf)], on the r8
    information elements of the message.  [has_neighbour_cell] is the
    membership test of [get_neighbour_cell_handle]. *)
Definition init (E : env_t) (A : answers) (rrc_reconf : rrc_conn_recfg_r8_ies_s)
  : M (with_calls t) proc_outcome_t :=
  emit_log log_info "Starting..." ;;
  modify_proc (fun p => set_handover p rrc_reconf) ;;
  let mci := mob_ctrl_info rrc_reconf in
  r <- get_rrc ;;
  if target_pci mci =? pci (phy_cell (rrc.serving r)) then
    emit_log log_console "Warning: Received HO command to own cell" ;;
    emit_log log_warning "Received HO command to own cell" ;;
    emit rrc_con_reconfig_failed ;;
    ret error
  else
    emit_log log_info "Received HO command to target PCell=%d" ;;
    emit_log log_console "Received HO command to target PCell=%d, NCC=%d" ;;
    let target := if carrier_freq_present mci then dl_carrier_freq mci
                  else earfcn (phy_cell (rrc.serving r)) in
    modify_proc (fun p => set_target_earfcn p target) ;;
    match find_neighbour (neighbours (rrc.meas_cells r)) target (target_pci mci) with
    | None =>
        emit_log log_console "Received HO command to unknown PCI=%d" ;;
        emit_log log_error "Could not find target cell earfcn=%d, pci=%d" ;;
        emit rrc_con_reconfig_failed ;;
        ret error
    | Some _ =>
        (* Save serving cell and current configuration *)
        emit mac_get_rntis ;;
        modify_proc (fun p => set_ho_src p (rrc.serving r) (crnti A)) ;;
        (* Section 5.3.5.4 *)
        put_rrc (rrc.set_t304 (rrc.set_t310 r (timer.stop (rrc.t310 r)))
                              (timer.run (timer.set (rrc.t304 r) (t304_ms mci)))) ;;
        modify_proc (fun p => set_state p launch_phy_cell_select) ;;
        ret yield
    end.

(** The events the handover procedure reacts to *)
Inductive event :=
| ev_cell_select (cs_ret : bool)
| ev_t304_expiry
| ev_ra_completed (ev : ra_completed_ev).

(** One invocation of a handler of the running procedure: [step] on a tick,
    or the [react] overload of a delivered event. *)
Inductive invocation := do_step | do_react (ev : event).

Definition invoke (E : env_t) (i : invocation) : M t proc_outcome_t :=
  match i with
  | do_step => step E
  | do_react (ev_cell_select cs_ret) => react_cell_select E cs_ret
  | do_react ev_t304_expiry => react_t304_expiry E
  | do_react (ev_ra_completed ev) => react_ra_completed E ev
  end.

End ho_proc.

(** Kinds of calls: a PHY cell-select request, a reset or reestablishment
    of a layer of the stack, the start of a random access, a line in the
    log, NAS paging, the launch of the serving-cell configuration. *)
Definition is_phy_cell_select (a : action) : bool :=
  match a with phy_start_cell_select _ => true | _ => false end.

Definition is_stack_reset (a : action) : bool :=
  match a with
  | pdcp_reestablish | rlc_reestablish | mac_reset | phy_reset | mac_clear_rntis => true
  | _ => false
  end.

Definition is_random_access (a : action) : bool :=
  match a with mac_start_cont_ho | mac_start_noncont_ho _ _ => true | _ => false end.

Definition is_log (a : action) : bool :=
  match a with Log _ _ => true | _ => false end.

Definition is_nas_paging (a : action) : bool :=
  match a with nas_page _ => true | _ => false end.

Definition is_serv_cell_cfg_launch (a : action) : bool :=
  match a with serv_cell_cfg_launch _ => true | _ => false end.

(** The context [c] after one more line in the log. *)
Definition logged {P} (c : ctx P) (l : log_level) (msg : string) : ctx P :=
  mk_ctx (self c) (rrc_ptr c) (trace c ++ [Log l msg]).

(** The context [c] after the calls [new]. *)
Definition after {P} (c : ctx P) (new : list action) : ctx P :=
  mk_ctx (self c) (rrc_ptr c) (trace c ++ new).

(** ** Cell Reselection procedure *)

Module cell_reselection_proc.

Record t := mk { reselection_timer : timer.t }.

Definition init (E : env_t) (A : answers) : M (with_calls t) proc_outcome_t :=
  r <- get_rrc ;;
  if Nat.eqb (nof_neighbours (rrc.meas_cells r)) 0
     && phy_ctrl_is_in_sync E && phy_cell_is_camping E
  then
    (* don't bother with cell selection if there are no neighbours and we are already camping *)
    ret success
  else
    emit_log log_info "Starting..." ;;
    emit cell_selector_launch_fut ;;
    launched <- through (cell_selector_launch_does A) ;;
    if negb launched then
      emit_log log_error "Failed to initiate a Cell Selection procedure..." ;;
      ret error
    else ret yield.

(** [*cell_selection_fut.value()] on a future without a value is undefined.
    The future, the RRC state and the answer of PHY are read after the cell
    selection has been run. *)
Definition step (E : env_t) (A : answers) : M (with_calls t) proc_outcome_t :=
  emit cell_selector_run ;;
  running <- through (cell_selector_run_does A) ;;
  if running then ret yield
  else
    match cell_selection_fut A with
    | fut_error =>
        emit_log log_error "Error while selecting a cell" ;;
        ret error
    | fut_pending => undefined
    | fut_value v =>
        emit_log log_info "Cell Selection completed. Handling its result..." ;;
        r <- get_rrc ;;
        match v with
        | changed_cell =>
            if rrc_state_eqb (rrc.state r) RRC_STATE_IDLE then
              emit_log log_info "New cell has been selected, start receiving PCCH" ;;
              emit mac_pcch_start_rx
            else ret tt
        | no_cell => emit_log log_warning "Could not find any cell to camp on"
        | same_cell =>
            if negb (phy_cell_is_camping E) then
              emit_log log_warning "Did not reselect cell but serving cell is out-of-sync."
            else ret tt
        end ;;
        emit_log log_info "Finished successfully" ;;
        ret success
    end.

(** Modelled from the spec: [rrc::is_connected()] (rrc.cc is not among the
    source files) is the test that the RRC state is CONNECTED; the timer is
    run "while the UE is idle and NAS is attached". *)
Definition then_ (A : answers) (result : proc_state_t) : M (with_calls t) unit :=
  r <- get_rrc ;;
  (* Schedule cell reselection periodically, while rrc is idle *)
  if negb (rrc_state_eqb (rrc.state r) RRC_STATE_CONNECTED) && nas_is_attached A then
    modify_proc (fun p => mk (timer.run (reselection_timer p)))
  else ret tt.

(** The manager runs [then] when [step] completes the procedure. *)
Definition run (E : env_t) (A : answers) : M (with_calls t) proc_outcome_t :=
  o <- step E A ;; complete (then_ A) o.

End cell_reselection_proc.

(** ** RRC Connection Re-establishment procedure *)

Module connection_reest_proc.

Inductive state_t := cell_reselection | cell_configuration.

Record t := mk {
  state : state_t;
  reest_rnti : Z;
  reest_cause : Z;
  reest_source_pci : Z;
  reest_source_freq : Z
}.

Definition set_state (p : t) (x : state_t) : t :=
  mk x (reest_rnti p) (reest_cause p) (reest_source_pci p) (reest_source_freq p).
Definition set_saved (p : t) (rnti cause pci freq : Z) : t :=
  mk (state p) rnti cause pci freq.

(** The loop of [init] over the radio bearers [lcids]. *)
Fixpoint suspend_bearers (A : answers) (lcids : list nat) : M (with_calls t) unit :=
  match lcids with
  | [] => ret tt
  | i :: rest =>
      (if rlc_has_bearer A i then emit (rlc_suspend_bearer i) else ret tt) ;;
      suspend_bearers A rest
  end.

Definition init (E : env_t) (A : answers) (cause : Z) : M (with_calls t) proc_outcome_t :=
  emit_log log_info "Starting... Cause: %s" ;;
  (* Save Current RNTI before MAC Reset *)
  emit mac_get_rntis ;;
  r <- get_rrc ;;
  (* If security is activated, RRC connected and C-RNTI available *)
  if rrc.security_is_activated r
     && rrc_state_eqb (rrc.state r) RRC_STATE_CONNECTED
     && negb (crnti A =? 0)
  then
    (* Save reestablishment cause and current C-RNTI *)
    modify_proc (fun p => set_saved p (crnti A) cause (pci (phy_cell (rrc.serving r)))
                                    (earfcn (phy_cell (rrc.serving r)))) ;;
    emit_log log_info "Conditions are met. Initiating RRC Connection Reestablishment Procedure" ;;
    (* stop timer T310, if running; *)
    modify_rrc (fun r => rrc.set_t310 r (timer.stop (rrc.t310 r))) ;;
    (* start timer T311; *)
    modify_rrc (fun r => rrc.set_t311 r (timer.run (rrc.t311 r))) ;;
    (* Suspend all RB except SRB0 *)
    suspend_bearers A (seq 1 (n_radio_bearers A - 1)) ;;
    (* reset MAC; *)
    emit (base mac_reset) ;;
    (* apply the default physical channel configuration as specified in 9.2.4; *)
    emit rrc_set_phy_default_pucch_srs ;;
    (* apply the default MAC main configuration as specified in 9.2.2; *)
    emit rrc_apply_mac_config_dedicated_default ;;
    (* Launch cell reselection *)
    emit cell_reselector_launch ;;
    launched <- through (cell_reselector_launch_does A) ;;
    if negb launched then
      emit_log log_error "Failed to initiate a Cell re-selection procedure..." ;;
      ret error
    else
      modify_proc (fun p => set_state p cell_reselection) ;;
      ret yield
  else
    (* 3GPP 36.331 Section 5.3.7.1: the UE does not initiate the procedure but instead
       moves to RRC_IDLE directly *)
    emit_log log_info "Conditions are NOT met" ;;
    emit rrc_start_go_idle ;;
    ret success.

Definition cell_criteria (E : env_t) (A : answers) : M (with_calls t) proc_outcome_t :=
  p <- get_proc ;;
  r <- get_rrc ;;
  (* Perform cell selection in accordance to 36.304 *)
  if cell_selection_criteria E r (rsrp (rrc.serving r)) then
    (* Actions following cell reselection while T311 is running 5.3.7.3 *)
    emit_log log_info
      "Cell Selection criteria passed after %dms. Sending RRC Connection Reestablishment Request" ;;
    (* stop timer T311; *)
    modify_rrc (fun r => rrc.set_t311 r (timer.stop (rrc.t311 r))) ;;
    (* start timer T301; *)
    modify_rrc (fun r => rrc.set_t301 r (timer.run (rrc.t301 r))) ;;
    (* initiate transmission of the RRCConnectionReestablishmentRequest message *)
    emit (rrc_send_con_restablish_request (reest_cause p) (reest_rnti p) (reest_source_pci p)) ;;
    ret success
  else if timer.is_running (rrc.t311 r) then
    (* Upon selecting an inter-RAT cell *)
    emit_log log_info "Reestablishment Cell Selection criteria failed." ;;
    (* Launch cell reselection *)
    emit cell_reselector_launch ;;
    launched <- through (cell_reselector_launch_does A) ;;
    if negb launched then
      emit_log log_error "Failed to initiate a Cell re-selection procedure..." ;;
      ret error
    else
      modify_proc (fun p => set_state p cell_reselection) ;;
      ret yield
  else ret success.

Definition has_sibs_1_2_3 (r : rrc.t) : bool :=
  has_sib1 (rrc.serving r) && has_sib2 (rrc.serving r) && has_sib3 (rrc.serving r).

(** The timers, the SIBs of the serving cell and the answer of PHY are read
    after the cell reselection has been run. *)
Definition step_cell_reselection (E : env_t) (A : answers) : M (with_calls t) proc_outcome_t :=
  (* Run cell reselection *)
  emit cell_reselector_run ;;
  running <- through (cell_reselector_run_does A) ;;
  if running then ret yield
  else
    r <- get_rrc ;;
    (* Check T311 *)
    if negb (timer.is_running (rrc.t311 r)) then
      (* Abort procedure if T311 expires *)
      emit_log log_info "T311 expired during cell reselection. Going to IDLE." ;;
      emit rrc_start_go_idle ;;
      ret success
    else if phy_ctrl_is_in_sync E then
      (* In-sync, check SIBs *)
      if has_sibs_1_2_3 r then
        emit_log log_info "In-sync, SIBs available. Going to cell criteria" ;;
        cell_criteria E A
      else
        emit_log log_info
          "SIBs missing (%d, %d, %d), launching serving cell configuration procedure" ;;
        emit (serv_cell_cfg_launch_no_future [0; 1; 2]) ;;
        launched <- through (serv_cell_cfg_launch_does A [0; 1; 2]) ;;
        if negb launched then
          emit_log log_error "Failed to initiate configure serving cell" ;;
          ret error
        else
          modify_proc (fun p => set_state p cell_configuration) ;;
          ret yield
    else
      (* Out-of-sync, relaunch reselection *)
      emit_log log_info
        "Serving cell is out-of-sync, re-launching re-selection procedure. T311: %d/%d ms" ;;
      emit cell_reselector_launch ;;
      launched <- through (cell_reselector_launch_does A) ;;
      if negb launched then ret error else ret yield.

(** As above, after the serving cell configuration has been run. *)
Definition step_cell_configuration (E : env_t) (A : answers) : M (with_calls t) proc_outcome_t :=
  emit (base serv_cell_cfg_run) ;;
  running <- through (serv_cell_cfg_run_does A) ;;
  if running then ret yield
  else
    r <- get_rrc ;;
    (* Check T311 *)
    if negb (timer.is_running (rrc.t311 r)) then
      (* Abort procedure if T311 expires *)
      emit_log log_info "T311 expired during cell configuration. Going to IDLE." ;;
      emit rrc_start_go_idle ;;
      ret success
    else if phy_ctrl_is_in_sync E then
      (* In-sync *)
      if has_sibs_1_2_3 r then
        (* All SIBs are available *)
        cell_criteria E A
      else
        (* Required SIBs are not available *)
        emit_log log_error "Failed to configure serving cell. Couldn't acquire SIBs." ;;
        ret error
    else
      (* Out-of-sync, relaunch reselection *)
      emit_log log_info "Serving cell is out-of-sync, re-launching re-selection procedure" ;;
      emit cell_reselector_launch ;;
      launched <- through (cell_reselector_launch_does A) ;;
      if negb launched then
        emit_log log_error "Failed to initiate a Cell re-selection procedure..." ;;
        ret error
      else
        modify_proc (fun p => set_state p cell_reselection) ;;
        ret yield.

Definition step (E : env_t) (A : answers) : M (with_calls t) proc_outcome_t :=
  p <- get_proc ;;
  match state p with
  | cell_reselection => step_cell_reselection E A
  | cell_configuration => step_cell_configuration E A
  end.

End connection_reest_proc.

(** Kinds of calls of the re-establishment. *)
Definition is_reest_request (x : stack_call) : bool :=
  match x with rrc_send_con_restablish_request _ _ _ => true | _ => false end.

(** ** Calls expected of the handlers *)

(** What [connection_request_proc] does when T300 has expired, when T300 was
    stopped by a Reject, and in its [then] hook on error. *)
Definition t300_expired_calls : list action :=
  [Log log_warning "Timer T300 expired: ConnectionRequest timed out";
   mac_reset; rrc_set_mac_default; rlc_reestablish].

Definition t300_stopped_calls : list action :=
  [Log log_warning "Timer T300 stopped: Received ConnectionReject";
   mac_reset; rrc_set_mac_default].

Definition conn_req_error_calls : list action :=
  [Log log_warning "Could not establish connection. Deallocating dedicatedInfoNAS PDU";
   nas_connection_request_completed false].


(** The line [start_si_acquire] logs once MAC has been instructed. *)
Definition si_acquire_instructed : string :=
  "Instructed MAC to search for SIB%d, win_start=%d, win_len=%d, period=%d, sched_index=%d".


(** Further kinds of calls. *)
Definition is_cell_selector_launch (a : action) : bool :=
  match a with cell_selector_launch => true | _ => false end.

Definition is_send_con_request (a : action) : bool :=
  match a with rrc_send_con_request _ => true | _ => false end.

Definition is_usim_call (a : action) : bool :=
  match a with usim_generate_as_keys_ho _ _ _ => true | _ => false end.

(** ** A concrete cell, UE and environment, used to run the handlers *)

Module sample.

(** SIB1 scheduling SIB2 every 16 frames and SIB3 every 512 frames, with
    windows of one subframe. *)
Definition sib1 : sib_type1_s :=
  mk_sib1 [mk_sched_info 16 []; mk_sched_info 512 [3]] 1.

Definition cell : cell_t := mk_cell (mk_phy_cell 1 2850) (rsrp_dbm (-85)) (Some sib1) [1] false.

Definition neighbour : cell_t := mk_cell (mk_phy_cell 2 2850) (rsrp_dbm (-90)) None [] false.

Definition idle_timer (i : nat) : timer.t := timer.mk i 1000 false false.

Definition ue : rrc.t :=
  rrc.mk RRC_STATE_IDLE true (mk_s_tmsi 1 42) [0; 1; 2]
         (idle_timer 300) (idle_timer 302) (idle_timer 304) (idle_timer 310)
         None (mk_sec_cfg 0 0) (mk_meas_cells cell [neighbour])
         (idle_timer 301) (idle_timer 311) true.

Definition connected_ue : rrc.t :=
  rrc.mk RRC_STATE_CONNECTED true (mk_s_tmsi 1 42) [0; 1; 2]
         (idle_timer 300) (idle_timer 302) (idle_timer 304) (idle_timer 310)
         None (mk_sec_cfg 0 0) (mk_meas_cells cell [neighbour])
         (idle_timer 301) (idle_timer 311) true.

(** Every request is accepted, the procedures polled are still running,
    the SIBs of the scheduling list count as scheduled, and the store
    makes the cell asked for the serving cell. *)
Definition env : env_t :=
  mk_env 0 true true true (fun _ => true) (fun _ => true)
         (fun _ => true) fut_pending
         true true fut_pending
         true true fut_pending
         true true
         (fun c i => i =? 2)
         (fun _ r => isnormal r)
         (fun mc c => (true, mk_meas_cells (serving_cell mc) (c :: neighbours mc)))
         (fun mc pc _ => mk_meas_cells (new_cell_t pc) (neighbours mc))
         (fun r pc _ => rrc.set_meas_cells r
                          (mk_meas_cells (new_cell_t pc) (neighbours (rrc.meas_cells r))))
         true.

(** The same environment with the SI acquisition polled complete, in error. *)
Definition env_si_failed : env_t :=
  mk_env 0 true true true (fun _ => true) (fun _ => true)
         (fun _ => true) fut_error
         true true fut_pending
         true true fut_pending
         true true
         (fun c i => i =? 2)
         (fun _ r => isnormal r)
         (fun mc c => (true, mk_meas_cells (serving_cell mc) (c :: neighbours mc)))
         (fun mc pc _ => mk_meas_cells (new_cell_t pc) (neighbours mc))
         (fun r pc _ => rrc.set_meas_cells r
                          (mk_meas_cells (new_cell_t pc) (neighbours (rrc.meas_cells r))))
         true.

(** An SI acquisition of SIB3 (index 2) under way: period 512 frames,
    second entry of the scheduling list, timeout running, retry timer not. *)
Definition si_acquire : ctx si_acquire_proc.t :=
  mk_ctx (si_acquire_proc.mk 2 512 1 (timer.mk 1 5000 true false) (timer.mk 2 1 false false))
         ue [].

(** The SI acquisition as constructed: timers 1 (timeout) and 2 (retry),
    neither running. *)
Definition si_acquire_new : ctx si_acquire_proc.t :=
  mk_ctx (si_acquire_proc.mk 0 0 0 (timer.mk 1 5000 false false) (timer.mk 2 1 false false))
         ue [].

(** The UE once SIB3 has reached the serving cell. *)
Definition ue_with_sib3 : rrc.t :=
  rrc.update_serving ue (fun c => match c with
                                  | mk_cell pc r s1 _ mcch => mk_cell pc r s1 [1; 2] mcch
                                  end).

Definition recfg : rrc_conn_recfg_r8_ies_s :=
  mk_recfg_r8 (mk_mob_ctrl_info 2 false 0 1000 70 false 0 0) false false
              (mk_security_cfg_ho 0 false false 0 0).

(** The collaborators of the remaining procedures: SRBs flushed, NAS
    attached, C-RNTI 70, bearers 1 and 3 set up out of 11.  Every launch is
    accepted.  The cell selection, when run, completes having changed to
    the neighbour cell; the launches and the other runs leave the rrc
    object as it is, the procedures run being complete. *)
Definition stack : answers :=
  mk_answers true true (fun r => r)
             (fun r => (true, r))
             (fun r => (false, rrc.set_meas_cells r (mk_meas_cells neighbour [cell])))
             (fut_value changed_cell)
             (fun r => (true, r)) (fun r => (false, r))
             (fun _ r => (true, r)) (fun r => (false, r))
             70 (fun i => Nat.eqb i 1 || Nat.eqb i 3) 11.

Definition cell_reselection : ctx (with_calls cell_reselection_proc.t) :=
  mk_ctx (mk_with_calls (cell_reselection_proc.mk (idle_timer 6)) []) ue [].

End sample.
Lemma u32_small (z : Z) : 0 <= z < 4294967296 -> u32 z = z.
Proof. intros H. unfold u32. now apply Z.mod_small. Qed.

(** ** Properties of the scheduling arithmetic *)

Example sib_start_tti_sib2 : sib_start_tti 79 8 0 0 = Some 80.
Proof. reflexivity. Qed.

Example sib_start_tti_wraps : sib_start_tti 10239 16 1 2 = Some 12.
Proof. reflexivity. Qed.

Example compute_si_window_sib1_last_tti : compute_si_window 10239 0 0 20 None = Some (5, 1).
Proof. reflexivity. Qed.

Example compute_si_periodicity_sib3 :
  compute_si_periodicity_and_idx 2 (Some sample.sib1) = Some (512, 1).
Proof. reflexivity. Qed.

Example compute_si_periodicity_not_scheduled :
  compute_si_periodicity_and_idx 4 (Some sample.sib1) = Some (0, -1).
Proof. reflexivity. Qed.

Example tti_sub_across_wrap : tti_point.sub 12 10239 = 13.
Proof. reflexivity. Qed.

Lemma sib_start_tti_range (tti T offset a s : Z) :
  sib_start_tti tti T offset a = Some s -> 0 <= s < 10240.
Proof.
  unfold sib_start_tti. destruct (u32 (T * 10) =? 0); [discriminate|].
  intros H. injection H as <-. apply Z.mod_pos_bound. lia.
Qed.

Lemma sib1_start_value (tti : Z) :
  0 <= tti < 10240 ->
  sib_start_tti tti 2 0 5 = Some ((20 * (1 + tti / 20) + 5) mod 10240).
Proof.
  intros Htti. unfold sib_start_tti.
  change (u32 (2 * 10)) with 20. change (20 =? 0) with false. cbv iota.
  assert (Hq : 0 <= tti / 20 <= 511).
  { split; [apply Z.div_pos; lia|].
    assert (tti / 20 < 512) by (apply Z.div_lt_upper_bound; lia). lia. }
  change (u32 (0 * 10)) with 0.
  rewrite (u32_small (1 + tti / 20)) by lia.
  rewrite (u32_small (20 * (1 + tti / 20))) by lia.
  rewrite Z.add_0_r.
  rewrite (u32_small (20 * (1 + tti / 20))) by lia.
  rewrite (u32_small (20 * (1 + tti / 20) + 5)) by lia.
  reflexivity.
Qed.

(** C7: for a TTI of the ring, the SI-window of SIB1 (index 0) has length 1,
    starts in subframe 5 of an even frame ([start mod 20 = 5]), and does not
    depend on [n], [T] or [sib1]. *)
Theorem compute_si_window_sib1 (tti n T : Z) (sib1 : option sib_type1_s) :
  0 <= tti < 10240 ->
  exists start,
    compute_si_window tti 0 n T sib1 = Some (start, 1) /\
    start mod 20 = 5 /\
    forall n' T' sib1',
      compute_si_window tti 0 n' T' sib1' = compute_si_window tti 0 n T sib1.
Proof.
  intros Htti.
  exists ((20 * (1 + tti / 20) + 5) mod 10240).
  unfold compute_si_window. change (0 =? 0) with true. cbv iota.
  rewrite (sib1_start_value tti Htti).
  split; [reflexivity|]. split; [|reflexivity].
  rewrite Z.mod_mod_divide by (exists 512; reflexivity).
  replace (20 * (1 + tti / 20) + 5) with (5 + (1 + tti / 20) * 20) by lia.
  rewrite Z.mod_add by lia. reflexivity.
Qed.

Lemma compute_si_window_sib1_witness :
  exists start,
    compute_si_window 10239 0 7 512 None = Some (start, 1) /\
    start mod 20 = 5 /\
    forall n' T' sib1',
      compute_si_window 10239 0 n' T' sib1' = compute_si_window 10239 0 7 512 None.
Proof. apply (compute_si_window_sib1 10239 7 512 None). lia. Defined.

(** Distance from [tti] to the window start that [sib_start_tti] returns:
    the rest of the current period plus the window offset [x]. *)
Lemma sib_start_tti_distance (tti T x : Z) :
  0 <= tti < 10240 -> 0 < T <= 512 -> 0 <= x <= 1240 ->
  exists s d,
    sib_start_tti tti T (x / 10) (x mod 10) = Some s /\
    d = T * 10 - tti mod (T * 10) + x /\
    s = (tti + d) mod 10240.
Proof.
  intros Htti HT Hx.
  set (T10 := T * 10).
  assert (HT10 : 0 < T10 <= 5120) by (unfold T10; lia).
  pose proof (Z.div_mod tti T10 ltac:(lia)) as Hdm.
  pose proof (Z.mod_pos_bound tti T10 ltac:(lia)) as Hm.
  assert (Hq : 0 <= tti / T10) by (apply Z.div_pos; lia).
  set (p := T10 * (tti / T10)) in *.
  assert (Hp : 0 <= p <= tti) by lia.
  pose proof (Z.div_mod x 10 ltac:(lia)) as Hxdm.
  pose proof (Z.mod_pos_bound x 10 ltac:(lia)) as Hxm.
  assert (Hxq : 0 <= x / 10 <= 124).
  { split; [apply Z.div_pos; lia|]. assert (x / 10 < 125) by (apply Z.div_lt_upper_bound; lia). lia. }
  assert (Hq' : tti / T10 <= tti).
  { apply Z.div_le_upper_bound; [lia|]. nia. }
  exists ((tti + (T10 - tti mod T10 + x)) mod 10240), (T10 - tti mod T10 + x).
  split; [|split; reflexivity].
  unfold sib_start_tti. fold T10.
  rewrite (u32_small T10) by lia.
  destruct (T10 =? 0) eqn:E0; [lia|].
  rewrite (u32_small (1 + tti / T10)) by lia.
  replace (T10 * (1 + tti / T10)) with (p + T10) by (unfold p; lia).
  rewrite (u32_small (p + T10)) by lia.
  rewrite (u32_small (x / 10 * 10)) by lia.
  rewrite (u32_small (p + T10 + x / 10 * 10)) by lia.
  rewrite (u32_small (p + T10 + x / 10 * 10 + x mod 10)) by lia.
  f_equal. f_equal. lia.
Qed.

(** For the periodicities up to 256 frames the returned TTI lies in the
    ring and is strictly later than [tti] in the wrap-aware order. *)
Lemma sib_start_tti_later (tti T n w : Z) :
  0 <= tti < 10240 -> In T si_periods -> T <> 512 ->
  0 <= n < 32 -> In w si_window_lengths ->
  exists s,
    sib_start_tti tti T (n * w / 10) ((n * w) mod 10) = Some s /\
    0 <= s < 10240 /\ 0 < tti_point.sub s tti /\ tti_point.lt s tti = false.
Proof.
  intros Htti HT HT512 Hn Hw.
  assert (Hx : 0 <= n * w <= 1240).
  { unfold si_window_lengths in Hw. simpl in Hw.
    repeat (destruct Hw as [<- | Hw]; [lia|]). contradiction. }
  assert (HT' : 0 < T <= 256).
  { unfold si_periods in HT. simpl in HT.
    repeat (destruct HT as [<- | HT]; [lia|]). contradiction. }
  destruct (sib_start_tti_distance tti T (n * w) Htti ltac:(lia) Hx) as (s & d & Hs & Hd & Hsd).
  exists s. split; [exact Hs|].
  pose proof (Z.mod_pos_bound tti (T * 10) ltac:(lia)) as Hm.
  assert (Hdr : 0 < d <= 3800) by lia.
  assert (Hsr : 0 <= s < 10240) by (subst s; apply Z.mod_pos_bound; lia).
  split; [exact Hsr|].
  assert (Hsub : tti_point.sub s tti = d).
  { unfold tti_point.sub.
    assert (Hcase : s = tti + d \/ s = tti + d - 10240).
    { subst s. destruct (Z_lt_ge_dec (tti + d) 10240).
      - left. apply Z.mod_small. lia.
      - right. symmetry. apply Z.mod_unique with (q := 1); lia. }
    destruct Hcase as [-> | ->].
    - destruct (tti + d - tti >? 5120) eqn:E1; [lia|].
      destruct (tti + d - tti <? -5120) eqn:E2; lia.
    - assert (Hge : 10240 <= tti + d).
      { lia. }
      destruct (tti + d - 10240 - tti >? 5120) eqn:E1; [lia|].
      destruct (tti + d - 10240 - tti <? -5120) eqn:E2; lia. }
  unfold tti_point.lt. rewrite Hsub. split; [lia|]. apply Z.ltb_ge. lia.
Qed.

(** C2 at tti = 0 with an SI message of periodicity rf512 in the second
    entry of the scheduling list and si-WindowLength ms1: the window start
    returned is TTI 5121, in the ring but 5121 subframes ahead, which the
    wrap-aware order places before the current TTI; [start_si_acquire] then
    reports the start as incorrectly calculated and asks MAC for nothing. *)
Theorem sib_start_tti_rf512_earlier :
  compute_si_periodicity_and_idx 2 (Some sample.sib1) = Some (512, 1) /\
  compute_si_window 0 2 1 512 (Some sample.sib1) = Some (5121, 1) /\
  sib_start_tti 0 512 0 1 = Some 5121 /\
  tti_point.sub 5121 0 = -5119 /\
  tti_point.lt 5121 0 = true /\
  si_acquire_proc.start_si_acquire sample.env sample.si_acquire
  = Some (tt, logged sample.si_acquire log_error si_window_error).
Proof. repeat split; reflexivity. Qed.

(** ** Reasoning about handlers *)

(** Unfolds the monad so that a handler applied to a context computes. *)
Ltac run_monad :=
  cbv [bind ret undefined get_self put_self get_rrc put_rrc act modify_self modify_rrc
       when call Error Warning Info Debug Console complete logged after] in *;
  cbn [self rrc_ptr trace fst snd] in *.

(** ** SI acquisition *)

Lemma si_acquire_then_total (result : proc_state_t) (c : ctx si_acquire_proc.t) :
  exists c',
    si_acquire_proc.then_ result c = Some (tt, c') /\
    timer.is_running (si_acquire_proc.si_acq_retry_timer (self c')) = false /\
    timer.is_running (si_acquire_proc.si_acq_timeout (self c')) = false /\
    rrc_ptr c' = rrc_ptr c /\
    exists l msg, trace c' = trace c ++ [Log l msg].
Proof.
  unfold si_acquire_proc.then_. run_monad.
  destruct (is_success result); run_monad; eexists; (split; [reflexivity|]);
    cbn; repeat split; eauto.
Qed.

(** C8: the [then] hook of the SI acquisition stops the retry timer and the
    timeout timer, whatever the result; hence when a launch or a triggered
    event completes the procedure, with success or with error, neither
    timer is left running. *)
Theorem si_acquire_completion_stops_timers :
  (forall (result : proc_state_t) (c : ctx si_acquire_proc.t),
      exists c',
        si_acquire_proc.then_ result c = Some (tt, c') /\
        timer.is_running (si_acquire_proc.si_acq_retry_timer (self c')) = false /\
        timer.is_running (si_acquire_proc.si_acq_timeout (self c')) = false) /\
  (forall E sib_index_ c o c',
      si_acquire_proc.launch E sib_index_ c = Some (o, c') -> o <> yield ->
      timer.is_running (si_acquire_proc.si_acq_retry_timer (self c')) = false /\
      timer.is_running (si_acquire_proc.si_acq_timeout (self c')) = false) /\
  (forall E ev c o c',
      si_acquire_proc.trigger E ev c = Some (o, c') -> o <> yield ->
      timer.is_running (si_acquire_proc.si_acq_retry_timer (self c')) = false /\
      timer.is_running (si_acquire_proc.si_acq_timeout (self c')) = false).
Proof.
  assert (Hcomplete : forall (m : M si_acquire_proc.t proc_outcome_t) c o c',
             (o1 <- m ;; complete si_acquire_proc.then_ o1) c = Some (o, c') -> o <> yield ->
             timer.is_running (si_acquire_proc.si_acq_retry_timer (self c')) = false /\
             timer.is_running (si_acquire_proc.si_acq_timeout (self c')) = false).
  { intros m c o c' H Ho. unfold bind at 1 in H.
    destruct (m c) as [[o1 c1]|]; [|discriminate].
    destruct o1; unfold complete in H.
    - unfold ret in H. injection H as <- <-. congruence.
    - unfold bind in H.
      destruct (si_acquire_then_total (result_value tt) c1) as (c2 & Hthen & Hr & Ht & _).
      rewrite Hthen in H. unfold ret in H. injection H as <- <-. auto.
    - unfold bind in H.
      destruct (si_acquire_then_total result_error c1) as (c2 & Hthen & Hr & Ht & _).
      rewrite Hthen in H. unfold ret in H. injection H as <- <-. auto. }
  split; [|split].
  - intros result c.
    destruct (si_acquire_then_total result c) as (c' & H1 & H2 & H3 & _). eauto.
  - intros E sib_index_ c o c'. apply Hcomplete.
  - intros E ev c o c'. apply Hcomplete.
Qed.

Lemma si_acquire_completion_stops_timers_witness :
  (exists o c',
      si_acquire_proc.trigger sample.env (si_acquire_proc.si_acq_timer_expired 1)
                              sample.si_acquire = Some (o, c') /\
      o = error /\
      timer.is_running (si_acquire_proc.si_acq_retry_timer (self c')) = false /\
      timer.is_running (si_acquire_proc.si_acq_timeout (self c')) = false) /\
  (exists o c',
      si_acquire_proc.launch sample.env 0 sample.si_acquire = Some (o, c') /\
      o = success /\
      timer.is_running (si_acquire_proc.si_acq_retry_timer (self c')) = false /\
      timer.is_running (si_acquire_proc.si_acq_timeout (self c')) = false).
Proof.
  destruct si_acquire_completion_stops_timers as (_ & Hlaunch & Htrigger).
  split.
  - eexists. eexists. split; [vm_compute; reflexivity|]. split; [reflexivity|].
    eapply (Htrigger sample.env (si_acquire_proc.si_acq_timer_expired 1) sample.si_acquire).
    + vm_compute. reflexivity.
    + discriminate.
  - eexists. eexists. split; [vm_compute; reflexivity|]. split; [reflexivity|].
    eapply (Hlaunch sample.env 0 sample.si_acquire).
    + vm_compute. reflexivity.
    + discriminate.
Defined.

Lemma start_si_acquire_early_return (E : env_t) (c : ctx si_acquire_proc.t) (start len : Z) :
  compute_si_window (current_tti E) (si_acquire_proc.sib_index (self c))
                    (u32 (si_acquire_proc.sched_index (self c)))
                    (si_acquire_proc.period (self c))
                    (sib1ptr (rrc.serving (rrc_ptr c))) = Some (start, len) ->
  tti_point.lt (tti_point.make start) (current_tti E) = true ->
  si_acquire_proc.start_si_acquire E c = Some (tt, logged c log_error si_window_error).
Proof.
  intros Hwin Hlt. unfold si_acquire_proc.start_si_acquire. run_monad.
  rewrite Hwin, Hlt. reflexivity.
Qed.

(** [start_si_acquire], when it returns, has either found the window start
    in the past and only logged it, or asked MAC for the window and armed
    the retry timer; it keeps the ids of the timers. *)
Lemma start_si_acquire_shape (E : env_t) (c c' : ctx si_acquire_proc.t) :
  si_acquire_proc.start_si_acquire E c = Some (tt, c') ->
  rrc_ptr c' = rrc_ptr c /\
  si_acquire_proc.sib_index (self c') = si_acquire_proc.sib_index (self c) /\
  si_acquire_proc.period (self c') = si_acquire_proc.period (self c) /\
  si_acquire_proc.sched_index (self c') = si_acquire_proc.sched_index (self c) /\
  si_acquire_proc.si_acq_timeout (self c') = si_acquire_proc.si_acq_timeout (self c) /\
  timer.id (si_acquire_proc.si_acq_retry_timer (self c'))
  = timer.id (si_acquire_proc.si_acq_retry_timer (self c)) /\
  (if si_acquire_proc.window_in_past E c
   then self c' = self c /\ trace c' = trace c ++ [Log log_error si_window_error]
   else timer.running (si_acquire_proc.si_acq_retry_timer (self c')) = true /\
        exists s len,
          trace c' = trace c ++ [mac_bcch_start_rx s len; Log log_info si_acquire_instructed]).
Proof.
  destruct c as [p r tr]. unfold si_acquire_proc.start_si_acquire, si_acquire_proc.window_in_past.
  run_monad.
  destruct (compute_si_window (current_tti E) (si_acquire_proc.sib_index p)
              (u32 (si_acquire_proc.sched_index p)) (si_acquire_proc.period p)
              (sib1ptr (rrc.serving r))) as [[first second]|]; [|discriminate].
  destruct (tti_point.lt (tti_point.make first) (current_tti E)).
  - intros H. injection H as <-. cbn. repeat split.
  - cbv beta iota. cbn [self rrc_ptr trace]. intros H. injection H as <-.
    cbn [self rrc_ptr trace]. rewrite <- app_assoc.
    repeat (split; [reflexivity|]).
    eexists. eexists. reflexivity.
Qed.

Lemma window_in_past_same (E : env_t) (c c' : ctx si_acquire_proc.t) :
  rrc_ptr c' = rrc_ptr c ->
  si_acquire_proc.sib_index (self c') = si_acquire_proc.sib_index (self c) ->
  si_acquire_proc.period (self c') = si_acquire_proc.period (self c) ->
  si_acquire_proc.sched_index (self c') = si_acquire_proc.sched_index (self c) ->
  si_acquire_proc.window_in_past E c' = si_acquire_proc.window_in_past E c.
Proof.
  intros Hr Hi Hp Hs. unfold si_acquire_proc.window_in_past.
  rewrite Hr, Hi, Hp, Hs. reflexivity.
Qed.

(** When [init] yields it has run [start_si_acquire] and then the timeout
    timer. *)
Lemma si_acquire_init_yield (E : env_t) (sib_index_ : Z) (c c' : ctx si_acquire_proc.t) :
  si_acquire_proc.init E sib_index_ c = Some (yield, c') ->
  rrc_ptr c' = rrc_ptr c /\
  timer.id (si_acquire_proc.si_acq_timeout (self c'))
  = timer.id (si_acquire_proc.si_acq_timeout (self c)) /\
  timer.id (si_acquire_proc.si_acq_retry_timer (self c'))
  = timer.id (si_acquire_proc.si_acq_retry_timer (self c)) /\
  timer.running (si_acquire_proc.si_acq_timeout (self c')) = true /\
  (if si_acquire_proc.window_in_past E c'
   then si_acquire_proc.si_acq_retry_timer (self c')
        = si_acquire_proc.si_acq_retry_timer (self c) /\
        trace c' = trace c ++ [Log log_info "Starting SI Acquisition procedure for SIB%d";
                               Log log_error si_window_error]
   else timer.running (si_acquire_proc.si_acq_retry_timer (self c')) = true).
Proof.
  destruct c as [p r tr]. unfold si_acquire_proc.init. run_monad.
  destruct (has_sib (rrc.serving r) sib_index_); [discriminate|].
  cbv beta iota. cbn [self rrc_ptr trace].
  destruct ((sib_index_ >? 0) && negb (has_sib1 (rrc.serving r))); [discriminate|].
  destruct (compute_si_periodicity_and_idx sib_index_ (sib1ptr (rrc.serving r)))
    as [[first second]|]; [|discriminate].
  destruct (second <? 0); [discriminate|].
  cbv beta iota. cbn [self rrc_ptr trace].
  match goal with
  | |- context [si_acquire_proc.start_si_acquire E ?c0] =>
      destruct (si_acquire_proc.start_si_acquire E c0) as [[[] c1]|] eqn:Hstart;
        [|discriminate];
      pose proof (start_si_acquire_shape E c0 c1 Hstart)
        as (Hr & Hi & Hp & Hs & Ht & Hid & Hcase);
      pose proof (window_in_past_same E c0 c1 Hr Hi Hp Hs) as Hsame
  end.
  intros H. injection H as <-. cbn [self rrc_ptr trace] in *.
  unfold si_acquire_proc.set_si_acq_timeout, si_acquire_proc.set_sched_index,
    si_acquire_proc.set_period, si_acquire_proc.set_sib_index in *.
  cbn [si_acquire_proc.si_acq_timeout si_acquire_proc.si_acq_retry_timer
       si_acquire_proc.sib_index si_acquire_proc.period si_acquire_proc.sched_index
       timer.run timer.id timer.running] in *.
  split; [exact Hr|]. split; [rewrite Ht; reflexivity|]. split; [exact Hid|].
  split; [reflexivity|].
  match goal with
  | |- context [si_acquire_proc.window_in_past E ?c2] =>
      replace (si_acquire_proc.window_in_past E c2)
        with (si_acquire_proc.window_in_past E c1)
        by (apply window_in_past_same; reflexivity)
  end.
  rewrite Hsame.
  destruct (si_acquire_proc.window_in_past E _).
  - destruct Hcase as [Hself Htr]. rewrite Hself, Htr. cbn [si_acquire_proc.si_acq_retry_timer].
    rewrite <- app_assoc. split; reflexivity.
  - destruct Hcase as [Hrun _]. exact Hrun.
Qed.

(** The handlers keep the ids of the two timers. *)
Lemma si_acquire_init_ids (E : env_t) (sib_index_ : Z) (c : ctx si_acquire_proc.t) o c' :
  si_acquire_proc.init E sib_index_ c = Some (o, c') ->
  timer.id (si_acquire_proc.si_acq_timeout (self c'))
  = timer.id (si_acquire_proc.si_acq_timeout (self c)) /\
  timer.id (si_acquire_proc.si_acq_retry_timer (self c'))
  = timer.id (si_acquire_proc.si_acq_retry_timer (self c)).
Proof.
  destruct c as [p r tr]. unfold si_acquire_proc.init. run_monad.
  destruct (has_sib (rrc.serving r) sib_index_).
  { intros H. injection H as <- <-. split; reflexivity. }
  cbv beta iota. cbn [self rrc_ptr trace].
  destruct ((sib_index_ >? 0) && negb (has_sib1 (rrc.serving r))).
  { intros H. injection H as <- <-. split; reflexivity. }
  destruct (compute_si_periodicity_and_idx sib_index_ (sib1ptr (rrc.serving r)))
    as [[first second]|]; [|discriminate].
  destruct (second <? 0).
  { intros H. injection H as <- <-. split; reflexivity. }
  cbv beta iota. cbn [self rrc_ptr trace].
  match goal with
  | |- context [si_acquire_proc.start_si_acquire E ?c0] =>
      destruct (si_acquire_proc.start_si_acquire E c0) as [[[] c1]|] eqn:Hstart;
        [|discriminate];
      pose proof (start_si_acquire_shape E c0 c1 Hstart)
        as (_ & _ & _ & _ & Ht & Hid & _)
  end.
  intros H. injection H as <- <-. cbn [self rrc_ptr trace] in *.
  unfold si_acquire_proc.set_si_acq_timeout. 
  cbn [si_acquire_proc.si_acq_timeout si_acquire_proc.si_acq_retry_timer timer.run timer.id].
  rewrite Ht, Hid. split; reflexivity.
Qed.

Lemma si_acquire_then_shape (result : proc_state_t) (c : ctx si_acquire_proc.t) :
  exists l msg,
    si_acquire_proc.then_ result c
    = Some (tt, mk_ctx (si_acquire_proc.mk (si_acquire_proc.sib_index (self c))
                          (si_acquire_proc.period (self c))
                          (si_acquire_proc.sched_index (self c))
                          (timer.stop (si_acquire_proc.si_acq_timeout (self c)))
                          (timer.stop (si_acquire_proc.si_acq_retry_timer (self c))))
                       (rrc_ptr c) (trace c ++ [Log l msg])).
Proof.
  destruct c as [p r tr]. unfold si_acquire_proc.then_. run_monad.
  destruct (is_success result); eexists; eexists; reflexivity.
Qed.

(** A handler under the manager: on yield nothing more happens, and on
    completion [then] stops both timers and adds one line to the log. *)
Lemma si_acquire_complete_shape (m : M si_acquire_proc.t proc_outcome_t)
      (c : ctx si_acquire_proc.t) o c' :
  (o1 <- m ;; complete si_acquire_proc.then_ o1) c = Some (o, c') ->
  exists c1,
    m c = Some (o, c1) /\
    (o = yield -> c' = c1) /\
    (o <> yield ->
     exists l msg,
       c' = mk_ctx (si_acquire_proc.mk (si_acquire_proc.sib_index (self c1))
                      (si_acquire_proc.period (self c1))
                      (si_acquire_proc.sched_index (self c1))
                      (timer.stop (si_acquire_proc.si_acq_timeout (self c1)))
                      (timer.stop (si_acquire_proc.si_acq_retry_timer (self c1))))
                   (rrc_ptr c1) (trace c1 ++ [Log l msg])).
Proof.
  intros H. unfold bind at 1 in H.
  destruct (m c) as [[o1 c1]|]; [|discriminate].
  exists c1. destruct o1; unfold complete in H.
  - unfold ret in H. injection H as <- <-. split; [reflexivity|]. split; [auto|congruence].
  - destruct (si_acquire_then_shape (result_value tt) c1) as (l & msg & Hthen).
    unfold bind in H. rewrite Hthen in H. unfold ret in H. injection H as <- <-.
    split; [reflexivity|]. split; [discriminate|]. intros _. eauto.
  - destruct (si_acquire_then_shape result_error c1) as (l & msg & Hthen).
    unfold bind in H. rewrite Hthen in H. unfold ret in H. injection H as <- <-.
    split; [reflexivity|]. split; [discriminate|]. intros _. eauto.
Qed.

(** What [react] does with the expiry of a timer and with a received SIB. *)
Lemma si_acquire_react_shape (E : env_t) (ev : si_acquire_proc.event)
      (c : ctx si_acquire_proc.t) o c' :
  si_acquire_proc.react E ev c = Some (o, c') ->
  if has_sib (rrc.serving (rrc_ptr c)) (si_acquire_proc.sib_index (self c))
  then o = success /\ c' = c
  else match ev with
       | si_acquire_proc.sib_received_ev => o = yield /\ c' = c
       | si_acquire_proc.si_acq_timer_expired tid =>
           if Nat.eqb tid (timer.id (si_acquire_proc.si_acq_retry_timer (self c)))
           then o = yield /\
                si_acquire_proc.start_si_acquire E
                  (logged c log_info "SI Acquire Retry Timeout for SIB%d") = Some (tt, c')
           else o = error /\ exists msg, c' = logged c log_error msg
       end.
Proof.
  destruct c as [p r tr]. destruct ev as [|tid];
    unfold si_acquire_proc.react, si_acquire_proc.react_sib_received_ev,
      si_acquire_proc.react_si_acq_timer_expired; run_monad;
    destruct (has_sib (rrc.serving r) (si_acquire_proc.sib_index p)).
  - intros H. injection H as <- <-. auto.
  - intros H. injection H as <- <-. auto.
  - intros H. injection H as <- <-. auto.
  - destruct (Nat.eqb tid (timer.id (si_acquire_proc.si_acq_retry_timer p))).
    + cbv beta iota. cbn [self rrc_ptr trace].
      match goal with
      | |- context [si_acquire_proc.start_si_acquire E ?c0] =>
          destruct (si_acquire_proc.start_si_acquire E c0) as [[[] c1]|]; [|discriminate]
      end.
      intros H. injection H as <- <-. auto.
    + destruct (Nat.eqb tid (timer.id (si_acquire_proc.si_acq_timeout p)));
        cbv beta iota; cbn [self rrc_ptr trace];
        intros H; injection H as <- <-; split; eauto.
Qed.

Lemma si_acquire_expire_shape (tid : nat) (c c' : ctx si_acquire_proc.t) :
  si_acquire_proc.expire_timer tid c = Some (tt, c') ->
  rrc_ptr c' = rrc_ptr c /\ trace c' = trace c /\
  si_acquire_proc.sib_index (self c') = si_acquire_proc.sib_index (self c) /\
  si_acquire_proc.period (self c') = si_acquire_proc.period (self c) /\
  si_acquire_proc.sched_index (self c') = si_acquire_proc.sched_index (self c) /\
  ((tid = timer.id (si_acquire_proc.si_acq_retry_timer (self c)) /\
    timer.running (si_acquire_proc.si_acq_retry_timer (self c)) = true /\
    si_acquire_proc.si_acq_retry_timer (self c')
    = timer.expire (si_acquire_proc.si_acq_retry_timer (self c)) /\
    si_acquire_proc.si_acq_timeout (self c') = si_acquire_proc.si_acq_timeout (self c)) \/
   (tid = timer.id (si_acquire_proc.si_acq_timeout (self c)) /\
    timer.running (si_acquire_proc.si_acq_timeout (self c)) = true /\
    si_acquire_proc.si_acq_timeout (self c')
    = timer.expire (si_acquire_proc.si_acq_timeout (self c)) /\
    si_acquire_proc.si_acq_retry_timer (self c')
    = si_acquire_proc.si_acq_retry_timer (self c))).
Proof.
  destruct c as [p r tr]. unfold si_acquire_proc.expire_timer. run_monad.
  destruct (Nat.eqb tid (timer.id (si_acquire_proc.si_acq_retry_timer p))
            && timer.running (si_acquire_proc.si_acq_retry_timer p)) eqn:Hretry.
  - apply andb_true_iff in Hretry. destruct Hretry as [Hid Hrun].
    apply Nat.eqb_eq in Hid.
    intros H. injection H as <-. cbn. repeat (split; [reflexivity|]). left. auto.
  - destruct (Nat.eqb tid (timer.id (si_acquire_proc.si_acq_timeout p))
              && timer.running (si_acquire_proc.si_acq_timeout p)) eqn:Htimeout;
      [|discriminate].
    apply andb_true_iff in Htimeout. destruct Htimeout as [Hid Hrun].
    apply Nat.eqb_eq in Hid.
    intros H. injection H as <-. cbn. repeat (split; [reflexivity|]). right. auto.
Qed.

(** A launch and a delivery keep the ids of the timers, and leave both
    timers stopped when they complete the procedure. *)
Lemma si_acquire_launch_inv (E : env_t) (sib_index_ : Z) (c : ctx si_acquire_proc.t) o c' :
  si_acquire_proc.launch E sib_index_ c = Some (o, c') ->
  timer.id (si_acquire_proc.si_acq_timeout (self c'))
  = timer.id (si_acquire_proc.si_acq_timeout (self c)) /\
  timer.id (si_acquire_proc.si_acq_retry_timer (self c'))
  = timer.id (si_acquire_proc.si_acq_retry_timer (self c)) /\
  (o <> yield ->
   timer.running (si_acquire_proc.si_acq_timeout (self c')) = false /\
   timer.running (si_acquire_proc.si_acq_retry_timer (self c')) = false).
Proof.
  intros H. unfold si_acquire_proc.launch in H.
  destruct (si_acquire_complete_shape _ _ _ _ H) as (c1 & Hinit & Hy & Hn).
  destruct (si_acquire_init_ids _ _ _ _ _ Hinit) as [Ht Hr].
  destruct o.
  - rewrite (Hy eq_refl). split; [exact Ht|]. split; [exact Hr|]. congruence.
  - destruct (Hn ltac:(discriminate)) as (l & msg & ->). cbn. auto.
  - destruct (Hn ltac:(discriminate)) as (l & msg & ->). cbn. auto.
Qed.

Lemma si_acquire_react_ids (E : env_t) (ev : si_acquire_proc.event)
      (c : ctx si_acquire_proc.t) o c' :
  si_acquire_proc.react E ev c = Some (o, c') ->
  timer.id (si_acquire_proc.si_acq_timeout (self c'))
  = timer.id (si_acquire_proc.si_acq_timeout (self c)) /\
  timer.id (si_acquire_proc.si_acq_retry_timer (self c'))
  = timer.id (si_acquire_proc.si_acq_retry_timer (self c)).
Proof.
  intros H. apply si_acquire_react_shape in H.
  destruct (has_sib (rrc.serving (rrc_ptr c)) (si_acquire_proc.sib_index (self c))).
  { destruct H as [_ ->]. auto. }
  destruct ev as [|tid].
  { destruct H as [_ ->]. auto. }
  destruct (Nat.eqb tid (timer.id (si_acquire_proc.si_acq_retry_timer (self c)))).
  - destruct H as [_ H]. apply start_si_acquire_shape in H.
    destruct H as (_ & _ & _ & _ & Ht & Hid & _). cbn [logged self] in *.
    rewrite Ht, Hid. auto.
  - destruct H as [_ [msg ->]]. auto.
Qed.

Lemma si_acquire_deliver_inv (i : si_acquire_proc.input) (c : ctx si_acquire_proc.t) o c' :
  si_acquire_proc.deliver i c = Some (o, c') ->
  timer.id (si_acquire_proc.si_acq_timeout (self c'))
  = timer.id (si_acquire_proc.si_acq_timeout (self c)) /\
  timer.id (si_acquire_proc.si_acq_retry_timer (self c'))
  = timer.id (si_acquire_proc.si_acq_retry_timer (self c)) /\
  (o <> yield ->
   timer.running (si_acquire_proc.si_acq_timeout (self c')) = false /\
   timer.running (si_acquire_proc.si_acq_retry_timer (self c')) = false).
Proof.
  intros H. unfold si_acquire_proc.deliver in H.
  unfold bind at 1 in H. unfold put_rrc in H. cbn [self rrc_ptr trace] in H.
  assert (Hgen : forall ev (c0 : ctx si_acquire_proc.t),
             si_acquire_proc.trigger (si_acquire_proc.in_env i) ev c0 = Some (o, c') ->
             timer.id (si_acquire_proc.si_acq_timeout (self c'))
             = timer.id (si_acquire_proc.si_acq_timeout (self c0)) /\
             timer.id (si_acquire_proc.si_acq_retry_timer (self c'))
             = timer.id (si_acquire_proc.si_acq_retry_timer (self c0)) /\
             (o <> yield ->
              timer.running (si_acquire_proc.si_acq_timeout (self c')) = false /\
              timer.running (si_acquire_proc.si_acq_retry_timer (self c')) = false)).
  { intros ev c0 Htr. unfold si_acquire_proc.trigger in Htr.
    destruct (si_acquire_complete_shape _ _ _ _ Htr) as (c1 & Hreact & Hy & Hn).
    destruct (si_acquire_react_ids _ _ _ _ _ Hreact) as [Ht Hr].
    destruct o.
    - rewrite (Hy eq_refl). split; [exact Ht|]. split; [exact Hr|]. congruence.
    - destruct (Hn ltac:(discriminate)) as (l & msg & ->). cbn. auto.
    - destruct (Hn ltac:(discriminate)) as (l & msg & ->). cbn. auto. }
  destruct (si_acquire_proc.in_event i) as [|tid].
  - exact (Hgen _ _ H).
  - unfold bind at 1 in H.
    destruct (si_acquire_proc.expire_timer tid _) as [[[] c0]|] eqn:Hexp; [|discriminate].
    destruct (si_acquire_expire_shape _ _ _ Hexp) as (_ & _ & _ & _ & _ & Hcase).
    destruct (Hgen _ _ H) as (Ht & Hr & Hstop). cbn [self] in Hcase.
    destruct Hcase as [(_ & _ & Hre & Hto) | (_ & _ & Hto & Hre)];
      rewrite Hre, Hto in *; cbn [timer.expire timer.id] in *; auto.
Qed.

Lemma si_acquire_reachable_inv (ph : si_acquire_proc.phase) (c : ctx si_acquire_proc.t) :
  si_acquire_proc.reachable ph c ->
  timer.id (si_acquire_proc.si_acq_retry_timer (self c))
  <> timer.id (si_acquire_proc.si_acq_timeout (self c)) /\
  (ph = si_acquire_proc.idle ->
   timer.running (si_acquire_proc.si_acq_timeout (self c)) = false /\
   timer.running (si_acquire_proc.si_acq_retry_timer (self c)) = false).
Proof.
  induction 1 as [p r Ht Hr Hids | ph c r _ IH | E idx c o c' _ IH Hl | i c o c' _ IH Hd].
  - cbn. auto.
  - exact IH.
  - destruct IH as [Hids _].
    destruct (si_acquire_launch_inv _ _ _ _ _ Hl) as (Ht & Hr & Hstop).
    rewrite Ht, Hr. split; [exact Hids|].
    destruct o; cbn; intros Hph; try discriminate; apply Hstop; discriminate.
  - destruct IH as [Hids _].
    destruct (si_acquire_deliver_inv _ _ _ _ Hd) as (Ht & Hr & Hstop).
    rewrite Ht, Hr. split; [exact Hids|].
    destruct o; cbn; intros Hph; try discriminate; apply Hstop; discriminate.
Qed.

(** The two places [start_si_acquire] is called from.  When it finds the
    window start in the past during a launch, the launch has only written
    to the log and the retry timer is as the idle procedure held it. *)
Lemma si_acquire_launch_stalled (E : env_t) (sib_index_ : Z) (c c' : ctx si_acquire_proc.t) :
  si_acquire_proc.launch E sib_index_ c = Some (yield, c') ->
  si_acquire_proc.window_in_past E c' = true ->
  trace c' = trace c ++ [Log log_info "Starting SI Acquisition procedure for SIB%d";
                         Log log_error si_window_error] /\
  si_acquire_proc.si_acq_retry_timer (self c') = si_acquire_proc.si_acq_retry_timer (self c) /\
  timer.running (si_acquire_proc.si_acq_timeout (self c')) = true.
Proof.
  intros H Hwin. unfold si_acquire_proc.launch in H.
  destruct (si_acquire_complete_shape _ _ _ _ H) as (c1 & Hinit & Hy & _).
  rewrite (Hy eq_refl) in *.
  destruct (si_acquire_init_yield _ _ _ _ Hinit) as (_ & _ & _ & Hrun & Hcase).
  rewrite Hwin in Hcase. destruct Hcase as [Hretry Htr]. auto.
Qed.

(** When it finds the window start in the past on the expiry of the retry
    timer, the handler has only written to the log and the retry timer is
    left expired. *)
Lemma si_acquire_retry_stalled (i : si_acquire_proc.input) (c c' : ctx si_acquire_proc.t) :
  timer.id (si_acquire_proc.si_acq_retry_timer (self c))
  <> timer.id (si_acquire_proc.si_acq_timeout (self c)) ->
  si_acquire_proc.in_event i
  = si_acquire_proc.si_acq_timer_expired (timer.id (si_acquire_proc.si_acq_retry_timer (self c))) ->
  si_acquire_proc.deliver i c = Some (yield, c') ->
  si_acquire_proc.window_in_past (si_acquire_proc.in_env i) c' = true ->
  trace c' = trace c ++ [Log log_info "SI Acquire Retry Timeout for SIB%d";
                         Log log_error si_window_error] /\
  timer.running (si_acquire_proc.si_acq_retry_timer (self c)) = true /\
  si_acquire_proc.si_acq_retry_timer (self c')
  = timer.expire (si_acquire_proc.si_acq_retry_timer (self c)) /\
  si_acquire_proc.si_acq_timeout (self c') = si_acquire_proc.si_acq_timeout (self c).
Proof.
  intros Hids Hev H Hwin. unfold si_acquire_proc.deliver in H. rewrite Hev in H.
  unfold bind at 1 in H. unfold put_rrc in H. cbn [self rrc_ptr trace] in H.
  unfold bind at 1 in H.
  destruct (si_acquire_proc.expire_timer _ _) as [[[] c0]|] eqn:Hexp; [|discriminate].
  destruct (si_acquire_expire_shape _ _ _ Hexp) as (Hr0 & Htr0 & Hi0 & Hp0 & Hs0 & Hcase).
  cbn [self rrc_ptr trace] in *.
  destruct Hcase as [(_ & Hrun & Hre & Hto) | (Heq & _)]; [|congruence].
  unfold si_acquire_proc.trigger in H.
  destruct (si_acquire_complete_shape _ _ _ _ H) as (c1 & Hreact & Hy & _).
  rewrite <- (Hy eq_refl) in Hreact. clear Hy c1.
  apply si_acquire_react_shape in Hreact.
  destruct (has_sib (rrc.serving (rrc_ptr c0)) (si_acquire_proc.sib_index (self c0))).
  { destruct Hreact as [Ho _]. discriminate. }
  rewrite Hre in Hreact. cbn [timer.expire timer.id] in Hreact.
  rewrite Nat.eqb_refl in Hreact. destruct Hreact as [_ Hstart].
  destruct (start_si_acquire_shape _ _ _ Hstart) as (Hr & Hi & Hp & Hs & Ht & _ & Hshape).
  rewrite <- (window_in_past_same _ _ _ Hr Hi Hp Hs), Hwin in Hshape.
  destruct Hshape as [Hself Htr]. cbn [logged self rrc_ptr trace] in *.
  rewrite Htr, Htr0, <- app_assoc. split; [reflexivity|]. split; [exact Hrun|].
  rewrite Hself. auto.
Qed.

Lemma si_acquire_stalled_state (c : ctx si_acquire_proc.t) :
  si_acquire_proc.stalled c ->
  timer.running (si_acquire_proc.si_acq_retry_timer (self c)) = false /\
  timer.id (si_acquire_proc.si_acq_retry_timer (self c))
  <> timer.id (si_acquire_proc.si_acq_timeout (self c)).
Proof.
  intros [E idx c0 c1 Hreach Hl Hwin | i c0 c1 Hreach Hev Hd Hwin].
  - destruct (si_acquire_reachable_inv _ _ Hreach) as [Hids Hidle].
    destruct (Hidle eq_refl) as [_ Hstopped].
    destruct (si_acquire_launch_inv _ _ _ _ _ Hl) as (Ht & Hr & _).
    destruct (si_acquire_launch_stalled _ _ _ _ Hl Hwin) as (_ & Hsame & _).
    rewrite Ht, Hr. split; [rewrite Hsame; exact Hstopped|exact Hids].
  - destruct (si_acquire_reachable_inv _ _ Hreach) as [Hids _].
    destruct (si_acquire_deliver_inv _ _ _ _ Hd) as (Ht & Hr & _).
    destruct (si_acquire_retry_stalled _ _ _ Hids Hev Hd Hwin) as (_ & _ & Hexp & _).
    rewrite Ht, Hr. split; [rewrite Hexp; reflexivity|exact Hids].
Qed.

(** With the retry timer not running, a delivered input asks MAC for
    nothing; it leaves the procedure waiting as it was, or ends it: with
    success when its SIB is in the serving cell, and otherwise in error,
    the input being the expiry of the timeout timer. *)
Lemma si_acquire_deliver_stalled (i : si_acquire_proc.input) (c : ctx si_acquire_proc.t) o c' :
  timer.running (si_acquire_proc.si_acq_retry_timer (self c)) = false ->
  timer.id (si_acquire_proc.si_acq_retry_timer (self c))
    <> timer.id (si_acquire_proc.si_acq_timeout (self c)) ->
  si_acquire_proc.deliver i c = Some (o, c') ->
  let present := has_sib (rrc.serving (si_acquire_proc.world i))
                         (si_acquire_proc.sib_index (self c)) in
  (exists new, trace c' = trace c ++ new /\ existsb is_bcch_start_rx new = false) /\
  (o = yield -> self c' = self c /\ present = false) /\
  (o = success -> present = true) /\
  (o = error ->
   present = false /\
   si_acquire_proc.in_event i
   = si_acquire_proc.si_acq_timer_expired (timer.id (si_acquire_proc.si_acq_timeout (self c))) /\
   timer.running (si_acquire_proc.si_acq_timeout (self c)) = true).
Proof.
  intros Hretry Hids H. cbv zeta.
  unfold si_acquire_proc.deliver in H.
  unfold bind at 1 in H. unfold put_rrc in H. cbn [self rrc_ptr trace] in H.
  assert (Hexp : exists c0,
             rrc_ptr c0 = si_acquire_proc.world i /\ trace c0 = trace c /\
             si_acquire_proc.sib_index (self c0) = si_acquire_proc.sib_index (self c) /\
             timer.id (si_acquire_proc.si_acq_retry_timer (self c0))
             = timer.id (si_acquire_proc.si_acq_retry_timer (self c)) /\
             (match si_acquire_proc.in_event i with
              | si_acquire_proc.sib_received_ev => self c0 = self c
              | si_acquire_proc.si_acq_timer_expired tid =>
                  tid = timer.id (si_acquire_proc.si_acq_timeout (self c)) /\
                  timer.running (si_acquire_proc.si_acq_timeout (self c)) = true
              end) /\
             si_acquire_proc.trigger (si_acquire_proc.in_env i) (si_acquire_proc.in_event i) c0
             = Some (o, c')).
  { destruct (si_acquire_proc.in_event i) as [|tid].
    - exists (mk_ctx (self c) (si_acquire_proc.world i) (trace c)).
      repeat (split; [reflexivity|]). exact H.
    - unfold bind at 1 in H.
      destruct (si_acquire_proc.expire_timer tid _) as [[[] c0]|] eqn:Hexp; [|discriminate].
      destruct (si_acquire_expire_shape _ _ _ Hexp) as (Hr0 & Htr0 & Hi0 & _ & _ & Hcase).
      cbn [self rrc_ptr trace] in *.
      destruct Hcase as [(_ & Hrun & _) | (Heq & Hrun & _ & Hre)]; [congruence|].
      exists c0. rewrite Hre. auto 10. }
  destruct Hexp as (c0 & Hr0 & Htr0 & Hi0 & Hid0 & Hev & Htrig).
  unfold si_acquire_proc.trigger in Htrig.
  destruct (si_acquire_complete_shape _ _ _ _ Htrig) as (c1 & Hreact & Hy & Hn).
  apply si_acquire_react_shape in Hreact. rewrite Hr0, Hi0, Hid0 in Hreact.
  destruct (has_sib (rrc.serving (si_acquire_proc.world i))
                    (si_acquire_proc.sib_index (self c))) eqn:Hsib.
  - destruct Hreact as [-> ->].
    destruct (Hn ltac:(discriminate)) as (l & msg & ->). cbn [trace].
    split; [rewrite Htr0; eexists; split; [reflexivity|reflexivity]|].
    split; [discriminate|]. split; [reflexivity|discriminate].
  - destruct (si_acquire_proc.in_event i) as [|tid].
    + destruct Hreact as [-> ->]. rewrite (Hy eq_refl).
      split; [exists []; rewrite app_nil_r; auto|].
      split; [auto|]. split; discriminate.
    + destruct Hev as [-> Hrun].
      destruct (Nat.eqb (timer.id (si_acquire_proc.si_acq_timeout (self c)))
                        (timer.id (si_acquire_proc.si_acq_retry_timer (self c)))) eqn:Hsame.
      { apply Nat.eqb_eq in Hsame. congruence. }
      destruct Hreact as [-> [msg ->]].
      destruct (Hn ltac:(discriminate)) as (l & msg' & ->). cbn [logged trace].
      split.
      { rewrite Htr0, <- app_assoc. eexists. split; [reflexivity|reflexivity]. }
      split; [discriminate|]. split; [discriminate|]. auto.
Qed.

(** Hence, from a state with the retry timer not running, the inputs
    delivered never make the procedure ask MAC for a BCCH window; they end
    it in error only by the expiry of the timeout timer, and with success
    only when one of them finds the SIB in the serving cell. *)
Lemma si_acquire_run_stalled (ins : list si_acquire_proc.input) :
  forall (c : ctx si_acquire_proc.t) o c',
    timer.running (si_acquire_proc.si_acq_retry_timer (self c)) = false ->
    timer.id (si_acquire_proc.si_acq_retry_timer (self c))
      <> timer.id (si_acquire_proc.si_acq_timeout (self c)) ->
    si_acquire_proc.run ins c = Some (o, c') ->
    (exists new, trace c' = trace c ++ new /\ existsb is_bcch_start_rx new = false) /\
    (o = error ->
     timer.running (si_acquire_proc.si_acq_timeout (self c)) = true /\
     exists i, In i ins /\
       si_acquire_proc.in_event i
       = si_acquire_proc.si_acq_timer_expired
           (timer.id (si_acquire_proc.si_acq_timeout (self c))) /\
       has_sib (rrc.serving (si_acquire_proc.world i))
               (si_acquire_proc.sib_index (self c)) = false) /\
    (o = success ->
     exists i, In i ins /\
       has_sib (rrc.serving (si_acquire_proc.world i))
               (si_acquire_proc.sib_index (self c)) = true).
Proof.
  induction ins as [|i ins IH]; intros c o c' Hstop Hids Hrun.
  - cbn in Hrun. unfold ret in Hrun. injection Hrun as <- <-.
    split; [exists []; rewrite app_nil_r; auto|]. split; discriminate.
  - cbn [si_acquire_proc.run] in Hrun. unfold bind at 1 in Hrun.
    destruct (si_acquire_proc.deliver i c) as [[o1 c1]|] eqn:Hd; [|discriminate].
    destruct (si_acquire_deliver_stalled i c o1 c1 Hstop Hids Hd)
      as ((new & Htr & Hnew) & Hy & Hs & He).
    destruct o1.
    + destruct (Hy eq_refl) as [Hself _].
      assert (IH' := IH c1 o c'). rewrite Hself in IH'.
      destruct (IH' Hstop Hids Hrun) as ((new' & Htr' & Hnew') & Herr & Hsucc).
      split.
      { exists (new ++ new'). rewrite Htr', Htr, app_assoc. split; [reflexivity|].
        rewrite existsb_app, Hnew, Hnew'. reflexivity. }
      split.
      * intros Ho. destruct (Herr Ho) as (Hr & j & Hj & Hjev & Hjsib).
        split; [exact Hr|]. exists j. split; [right; exact Hj|]. auto.
      * intros Ho. destruct (Hsucc Ho) as (j & Hj & Hjsib).
        exists j. split; [right; exact Hj|exact Hjsib].
    + unfold ret in Hrun. injection Hrun as <- <-.
      split; [eauto|]. split; [discriminate|].
      intros _. exists i. split; [left; reflexivity|exact (Hs eq_refl)].
    + unfold ret in Hrun. injection Hrun as <- <-.
      split; [eauto|]. split; [|discriminate].
      intros _. destruct (He eq_refl) as (Hsib & Hev & Hr).
      split; [exact Hr|]. exists i. split; [left; reflexivity|]. auto.
Qed.

(** C3: when the SI-window start compares earlier than the current TTI,
    [start_si_acquire] only logs an error: MAC [bcch_start_rx] is not called
    and the retry timer is left as it was.  At both places it is called
    from, [init] under a launch of the idle procedure and the expiry of the
    retry timer, the handler then yields having only written to the log,
    with the retry timer not running (as the idle procedure held it, or
    expired).  From such a state on, whatever is delivered, MAC is asked
    for no further BCCH window, and the procedure ends in error only by the
    expiry of the timeout timer, and with success only when a delivered
    input (a received SIB, or that expiry) finds the SIB in the serving
    cell. *)
Theorem start_si_acquire_window_in_past
  (E : env_t) (c : ctx si_acquire_proc.t) (start len : Z) :
  compute_si_window (current_tti E) (si_acquire_proc.sib_index (self c))
                    (u32 (si_acquire_proc.sched_index (self c)))
                    (si_acquire_proc.period (self c))
                    (sib1ptr (rrc.serving (rrc_ptr c))) = Some (start, len) ->
  tti_point.lt (tti_point.make start) (current_tti E) = true ->
  si_acquire_proc.start_si_acquire E c = Some (tt, logged c log_error si_window_error) /\
  (forall E' sib_index_ c0 c1,
      si_acquire_proc.reachable si_acquire_proc.idle c0 ->
      si_acquire_proc.launch E' sib_index_ c0 = Some (yield, c1) ->
      si_acquire_proc.window_in_past E' c1 = true ->
      trace c1 = trace c0 ++ [Log log_info "Starting SI Acquisition procedure for SIB%d";
                              Log log_error si_window_error] /\
      si_acquire_proc.si_acq_retry_timer (self c1)
      = si_acquire_proc.si_acq_retry_timer (self c0)) /\
  (forall i c0 c1,
      si_acquire_proc.reachable si_acquire_proc.running c0 ->
      si_acquire_proc.in_event i
      = si_acquire_proc.si_acq_timer_expired
          (timer.id (si_acquire_proc.si_acq_retry_timer (self c0))) ->
      si_acquire_proc.deliver i c0 = Some (yield, c1) ->
      si_acquire_proc.window_in_past (si_acquire_proc.in_env i) c1 = true ->
      trace c1 = trace c0 ++ [Log log_info "SI Acquire Retry Timeout for SIB%d";
                              Log log_error si_window_error] /\
      si_acquire_proc.si_acq_retry_timer (self c1)
      = timer.expire (si_acquire_proc.si_acq_retry_timer (self c0))) /\
  (forall c1,
      si_acquire_proc.stalled c1 ->
      timer.running (si_acquire_proc.si_acq_retry_timer (self c1)) = false /\
      forall (ins : list si_acquire_proc.input) o c2,
        si_acquire_proc.run ins c1 = Some (o, c2) ->
        (exists new, trace c2 = trace c1 ++ new /\ existsb is_bcch_start_rx new = false) /\
        (o = error ->
         timer.running (si_acquire_proc.si_acq_timeout (self c1)) = true /\
         exists i, In i ins /\
           si_acquire_proc.in_event i
           = si_acquire_proc.si_acq_timer_expired
               (timer.id (si_acquire_proc.si_acq_timeout (self c1))) /\
           has_sib (rrc.serving (si_acquire_proc.world i))
                   (si_acquire_proc.sib_index (self c1)) = false) /\
        (o = success ->
         exists i, In i ins /\
           has_sib (rrc.serving (si_acquire_proc.world i))
                   (si_acquire_proc.sib_index (self c1)) = true)).
Proof.
  intros Hwin Hlt.
  split; [exact (start_si_acquire_early_return E c start len Hwin Hlt)|].
  split; [|split].
  - intros E' idx c0 c1 _ Hl Hpast.
    destruct (si_acquire_launch_stalled _ _ _ _ Hl Hpast) as (Htr & Hretry & _). auto.
  - intros i c0 c1 Hreach Hev Hd Hpast.
    destruct (si_acquire_reachable_inv _ _ Hreach) as [Hids _].
    destruct (si_acquire_retry_stalled _ _ _ Hids Hev Hd Hpast) as (Htr & _ & Hexp & _). auto.
  - intros c1 Hstalled.
    destruct (si_acquire_stalled_state _ Hstalled) as [Hstop Hids].
    split; [exact Hstop|].
    intros ins o c2 Hrun. exact (si_acquire_run_stalled ins c1 o c2 Hstop Hids Hrun).
Qed.

Lemma start_si_acquire_window_in_past_witness :
  si_acquire_proc.start_si_acquire sample.env sample.si_acquire
    = Some (tt, logged sample.si_acquire log_error si_window_error) /\
  exists c1 c2,
    si_acquire_proc.launch sample.env 2 sample.si_acquire_new = Some (yield, c1) /\
    timer.running (si_acquire_proc.si_acq_retry_timer (self c1)) = false /\
    si_acquire_proc.run
      [si_acquire_proc.mk_input sample.env sample.ue si_acquire_proc.sib_received_ev;
       si_acquire_proc.mk_input sample.env sample.ue (si_acquire_proc.si_acq_timer_expired 1)]
      c1 = Some (error, c2) /\
    exists new, trace c2 = trace c1 ++ new /\ existsb is_bcch_start_rx new = false.
Proof.
  destruct (start_si_acquire_window_in_past sample.env sample.si_acquire 5121 1)
    as (Hreturn & _ & _ & Hstalled).
  - vm_compute. reflexivity.
  - vm_compute. reflexivity.
  - split; [exact Hreturn|].
    assert (Hlaunch : exists c1, si_acquire_proc.launch sample.env 2 sample.si_acquire_new
                                 = Some (yield, c1))
      by (eexists; vm_compute; reflexivity).
    destruct Hlaunch as [c1 Hlaunch].
    assert (Hpast : si_acquire_proc.window_in_past sample.env c1 = true).
    { vm_compute in Hlaunch. injection Hlaunch as <-. vm_compute. reflexivity. }
    assert (Hrun : exists c2,
               si_acquire_proc.run
                 [si_acquire_proc.mk_input sample.env sample.ue si_acquire_proc.sib_received_ev;
                  si_acquire_proc.mk_input sample.env sample.ue
                                           (si_acquire_proc.si_acq_timer_expired 1)]
                 c1 = Some (error, c2)).
    { vm_compute in Hlaunch. injection Hlaunch as <-. eexists. vm_compute. reflexivity. }
    destruct Hrun as [c2 Hrun].
    assert (Hreach : si_acquire_proc.reachable si_acquire_proc.idle sample.si_acquire_new).
    { apply si_acquire_proc.reach_construct; [reflexivity|reflexivity|].
      vm_compute. discriminate. }
    destruct (Hstalled c1 (si_acquire_proc.stalled_launch _ _ _ _ Hreach Hlaunch Hpast))
      as [Hstop Hruns].
    destruct (Hruns _ _ _ Hrun) as (Hnew & _ & _).
    exists c1, c2. split; [exact Hlaunch|]. split; [exact Hstop|]. split; [exact Hrun|].
    exact Hnew.
Defined.

(** C3, as first stated, fails: the launch below finds the window start in
    the past (TTI 0, rf512, second entry), asks MAC for nothing and leaves
    the retry timer stopped; SIB3 then reaches the serving cell, and the
    reception ends the procedure with success, the timeout timer never
    having expired. *)
Lemma si_acquire_window_in_past_ends_with_success :
  exists c1 c2,
    si_acquire_proc.launch sample.env 2 sample.si_acquire_new = Some (yield, c1) /\
    si_acquire_proc.window_in_past sample.env c1 = true /\
    existsb is_bcch_start_rx (trace c1) = false /\
    timer.running (si_acquire_proc.si_acq_retry_timer (self c1)) = false /\
    timer.running (si_acquire_proc.si_acq_timeout (self c1)) = true /\
    si_acquire_proc.deliver
      (si_acquire_proc.mk_input sample.env sample.ue_with_sib3 si_acquire_proc.sib_received_ev)
      c1 = Some (success, c2) /\
    timer.expired (si_acquire_proc.si_acq_timeout (self c2)) = false.
Proof.
  eexists. eexists. split; [vm_compute; reflexivity|].
  repeat split; vm_compute; reflexivity.
Qed.

(** ** Connection request *)

Lemma connection_request_then_error (c : ctx connection_request_proc.t) :
  connection_request_proc.then_ result_error c
  = Some (tt, mk_ctx (connection_request_proc.set_dedicated_info_nas (self c) None)
                     (rrc.set_dedicated_info_nas (rrc_ptr c) None)
                     (trace c ++ conn_req_error_calls)).
Proof.
  unfold connection_request_proc.then_. run_monad. cbn.
  rewrite <- !app_assoc. reflexivity.
Qed.

(** C4: in state [wait_t300], [step] yields while T300 runs; once T300 is
    not running it succeeds if RRC is CONNECTED; else, if T300 has expired,
    it resets MAC, reestablishes RLC and returns error; else (T300 stopped
    by a Reject) it resets MAC and returns error.  On an error outcome the
    [then] hook drops the dedicated NAS SDU, of the procedure and of RRC,
    and calls NAS [connection_request_completed(false)]. *)
Theorem connection_request_wait_t300 (E : env_t) (c : ctx connection_request_proc.t) :
  connection_request_proc.state (self c) = connection_request_proc.wait_t300 ->
  (timer.is_running (rrc.t300 (rrc_ptr c)) = true ->
   connection_request_proc.step E c = Some (yield, c)) /\
  (timer.is_running (rrc.t300 (rrc_ptr c)) = false ->
   rrc.state (rrc_ptr c) = RRC_STATE_CONNECTED ->
   connection_request_proc.step E c = Some (success, c)) /\
  (timer.is_running (rrc.t300 (rrc_ptr c)) = false ->
   rrc.state (rrc_ptr c) <> RRC_STATE_CONNECTED ->
   timer.is_expired (rrc.t300 (rrc_ptr c)) = true ->
   connection_request_proc.step E c = Some (error, after c t300_expired_calls)) /\
  (timer.is_running (rrc.t300 (rrc_ptr c)) = false ->
   rrc.state (rrc_ptr c) <> RRC_STATE_CONNECTED ->
   timer.is_expired (rrc.t300 (rrc_ptr c)) = false ->
   connection_request_proc.step E c = Some (error, after c t300_stopped_calls)) /\
  (forall c1 : ctx connection_request_proc.t,
      connection_request_proc.then_ result_error c1
      = Some (tt, mk_ctx (connection_request_proc.set_dedicated_info_nas (self c1) None)
                         (rrc.set_dedicated_info_nas (rrc_ptr c1) None)
                         (trace c1 ++ conn_req_error_calls))) /\
  (forall c1,
      connection_request_proc.step E c = Some (error, c1) ->
      connection_request_proc.run E c
      = Some (error, mk_ctx (connection_request_proc.set_dedicated_info_nas (self c1) None)
                            (rrc.set_dedicated_info_nas (rrc_ptr c1) None)
                            (trace c1 ++ conn_req_error_calls))).
Proof.
  intros Hstate.
  assert (Hstep : connection_request_proc.step E c = connection_request_proc.step_wait_t300 E c).
  { unfold connection_request_proc.step. run_monad. rewrite Hstate. reflexivity. }
  rewrite Hstep. unfold connection_request_proc.step_wait_t300.
  destruct c as [p r tr]. run_monad.
  repeat split.
  - intros ->. reflexivity.
  - intros -> ->. reflexivity.
  - intros -> Hs ->. destruct (rrc.state r); [|congruence]. cbn.
    unfold t300_expired_calls. rewrite <- !app_assoc. reflexivity.
  - intros -> Hs ->. destruct (rrc.state r); [|congruence]. cbn.
    unfold t300_stopped_calls. rewrite <- !app_assoc. reflexivity.
  - intros c1. apply connection_request_then_error.
  - intros c1 H1. unfold connection_request_proc.run. unfold bind at 1.
    rewrite Hstep. unfold connection_request_proc.step_wait_t300. run_monad.
    rewrite H1. pose proof (connection_request_then_error c1) as Hthen.
    run_monad. rewrite Hthen. reflexivity.
Qed.

Lemma connection_request_wait_t300_witness :
  let c := mk_ctx (connection_request_proc.mk connection_request_proc.wait_t300 0
                                              (Some [7]) same_cell)
                  (rrc.set_dedicated_info_nas
                     (rrc.set_t300 sample.ue (timer.mk 300 1000 false true)) (Some [8]))
                  [] in
  connection_request_proc.step sample.env c = Some (error, after c t300_expired_calls) /\
  connection_request_proc.run sample.env c
  = Some (error,
          mk_ctx (connection_request_proc.mk connection_request_proc.wait_t300 0 None same_cell)
                 (rrc.set_t300 sample.ue (timer.mk 300 1000 false true))
                 (t300_expired_calls ++ conn_req_error_calls)).
Proof.
  intros c.
  destruct (connection_request_wait_t300 sample.env c eq_refl)
    as (_ & _ & Hexpired & _ & _ & Hrun).
  assert (Hstep : connection_request_proc.step sample.env c
                  = Some (error, after c t300_expired_calls)).
  { apply Hexpired; [reflexivity|discriminate|reflexivity]. }
  split; [exact Hstep|].
  rewrite (Hrun _ Hstep). reflexivity.
Defined.

(** ** Serving cell configuration *)

Section ServingCellConfig.

Import serving_cell_config_proc.

(** The walk over the required SIBs always returns; it changes neither the
    list nor the [rrc] object; it returns success with [req_idx] at the end
    of the list, and anything else with [req_idx] inside the list. *)
Lemma launch_sib_acquire_from_spec (E : env_t) (rest : list Z) :
  forall (idx : nat) (c : ctx t),
  exists o c',
    launch_sib_acquire_from E rest idx c = Some (o, c') /\
    required_sibs (self c') = required_sibs (self c) /\
    rrc_ptr c' = rrc_ptr c /\
    ((o = success /\ req_idx (self c') = (idx + List.length rest)%nat) \/
     (o <> success /\ (idx <= req_idx (self c') < idx + List.length rest)%nat)).
Proof.
  induction rest as [|s rest IH]; intros idx c.
  - cbn [launch_sib_acquire_from]. run_monad. eexists. eexists.
    split; [reflexivity|]. cbn. repeat split. left. split; [reflexivity|lia].
  - cbn [launch_sib_acquire_from]. run_monad.
    destruct (has_sib (rrc.serving (rrc_ptr c)) s) eqn:Hhas; cbn [negb].
    + destruct (s =? 1); [|destruct (s =? 12)]; run_monad;
        match goal with
        | |- context [launch_sib_acquire_from E rest (S idx) ?c1] =>
            destruct (IH (S idx) c1) as (o & c' & Hrun & Hsibs & Hrrc & Hidx)
        end;
        exists o, c'; (split; [exact Hrun|]);
        cbn [List.length]; (repeat split; [exact Hsibs|exact Hrrc|]);
        (destruct Hidx as [[-> Hi]|[Hns Hi]]; [left|right]; split; auto; lia).
    + destruct ((s <? 2) || is_sib_scheduled E (rrc.serving (rrc_ptr c)) s).
      * destruct (si_acquirer_launch_ret E s); cbn [negb];
          eexists; eexists; (split; [reflexivity|]); cbn;
          repeat split; right; (split; [discriminate|lia]).
      * destruct (IH (S idx) c) as (o & c' & Hrun & Hsibs & Hrrc & Hidx).
        exists o, c'. split; [exact Hrun|]. cbn [List.length].
        repeat split; auto.
        destruct Hidx as [[-> Hi]|[Hns Hi]]; [left|right]; split; auto; lia.
Qed.

Lemma launch_sib_acquire_spec (E : env_t) (c : ctx t) :
  (req_idx (self c) <= List.length (required_sibs (self c)))%nat ->
  exists o c',
    launch_sib_acquire E c = Some (o, c') /\
    required_sibs (self c') = required_sibs (self c) /\
    ((o = success /\ req_idx (self c') = List.length (required_sibs (self c'))) \/
     (o <> success /\ (req_idx (self c') < List.length (required_sibs (self c')))%nat)).
Proof.
  intros Hle. unfold launch_sib_acquire. run_monad.
  destruct (launch_sib_acquire_from_spec E
              (skipn (req_idx (self c)) (required_sibs (self c))) (req_idx (self c)) c)
    as (o & c' & Hrun & Hsibs & _ & Hidx).
  exists o, c'. split; [exact Hrun|]. split; [exact Hsibs|].
  rewrite length_skipn in Hidx. rewrite Hsibs.
  destruct Hidx as [[-> Hi]|[Hns Hi]]; [left|right]; split; auto; lia.
Qed.

Lemma serving_cell_config_step_spec (E : env_t) (c : ctx t) :
  (req_idx (self c) < List.length (required_sibs (self c)))%nat ->
  exists o c',
    step E c = Some (o, c') /\
    required_sibs (self c') = required_sibs (self c) /\
    ((o = success /\ req_idx (self c') = List.length (required_sibs (self c'))) \/
     (o <> success /\ (req_idx (self c') < List.length (required_sibs (self c')))%nat)).
Proof.
  intros Hlt. unfold step.
  destruct (fut_is_complete (si_acquire_fut E)); cbn [negb].
  - run_monad.
    destruct (nth_error (required_sibs (self c)) (req_idx (self c))) as [s|] eqn:Hnth.
    2:{ apply nth_error_None in Hnth. lia. }
    destruct ((fut_is_error (si_acquire_fut E) || negb (has_sib (rrc.serving (rrc_ptr c)) s))
              && (s <? 2)).
    + eexists. eexists. split; [reflexivity|]. cbn. split; [reflexivity|].
      right. split; [discriminate|exact Hlt].
    + match goal with
      | |- context [launch_sib_acquire E ?c1] =>
          destruct (launch_sib_acquire_spec E c1) as (o & c' & Hrun & Hsibs & Hidx)
      end.
      { cbn. lia. }
      exists o, c'. split; [exact Hrun|]. split; [exact Hsibs|exact Hidx].
  - run_monad. exists yield, c. split; [reflexivity|]. split; [reflexivity|].
    right. split; [discriminate|exact Hlt].
Qed.

Lemma serving_cell_config_init_spec (E : env_t) (required_sibs_ : list Z) (c : ctx t) :
  phy_cell_is_camping E = true ->
  exists o c',
    init E required_sibs_ c = Some (o, c') /\
    required_sibs (self c') = required_sibs_ /\
    ((o = success /\ req_idx (self c') = List.length required_sibs_) \/
     (o <> success /\ (req_idx (self c') < List.length required_sibs_)%nat)).
Proof.
  intros Hcamp. unfold init. run_monad. rewrite Hcamp. cbn [negb].
  match goal with
  | |- context [launch_sib_acquire E ?c1] =>
      destruct (launch_sib_acquire_spec E c1) as (o & c' & Hrun & Hsibs & Hidx)
  end.
  { cbn. lia. }
  cbn in Hsibs. rewrite Hsibs in Hidx.
  exists o, c'. split; [exact Hrun|]. split; [exact Hsibs|exact Hidx].
Qed.

Lemma serving_cell_config_running_in_bounds (c : ctx t) :
  running c -> (req_idx (self c) < List.length (required_sibs (self c)))%nat.
Proof.
  induction 1 as [E rs c c' Hinit | E c c' Hrun IH Hstep | c r tr Hrun IH].
  - destruct (phy_cell_is_camping E) eqn:Hcamp.
    + destruct (serving_cell_config_init_spec E rs c Hcamp) as (o & c1 & Hi & Hsibs & Hidx).
      rewrite Hinit in Hi. injection Hi as <- <-.
      rewrite Hsibs. destruct Hidx as [[Ho _]|[_ Hlt]]; [discriminate|exact Hlt].
    + unfold init in Hinit. run_monad. rewrite Hcamp in Hinit. discriminate.
  - destruct (serving_cell_config_step_spec E c IH) as (o & c1 & Hs & Hsibs & Hidx).
    rewrite Hstep in Hs. injection Hs as <- <-.
    destruct Hidx as [[Ho _]|[_ Hlt]]; [discriminate|exact Hlt].
  - exact IH.
Qed.

End ServingCellConfig.


(** C9: whenever the procedure is running, that is after [init] has
    launched an SI acquisition and yielded, [req_idx] is below the size of
    [required_sibs]; so [step] reads [required_sibs[req_idx]] in bounds and
    returns. *)
Theorem serving_cell_config_req_idx_in_bounds (c : ctx serving_cell_config_proc.t) :
  serving_cell_config_proc.running c ->
  (serving_cell_config_proc.req_idx (self c)
   < List.length (serving_cell_config_proc.required_sibs (self c)))%nat /\
  (exists required_sib,
      nth_error (serving_cell_config_proc.required_sibs (self c))
                (serving_cell_config_proc.req_idx (self c)) = Some required_sib) /\
  forall E, exists o c', serving_cell_config_proc.step E c = Some (o, c').
Proof.
  intros Hrun. pose proof (serving_cell_config_running_in_bounds c Hrun) as Hlt.
  split; [exact Hlt|]. split.
  - destruct (nth_error (serving_cell_config_proc.required_sibs (self c))
                        (serving_cell_config_proc.req_idx (self c))) as [s|] eqn:Hnth.
    + eauto.
    + apply nth_error_None in Hnth. lia.
  - intros E. destruct (serving_cell_config_step_spec E c Hlt) as (o & c' & Hs & _). eauto.
Qed.


Lemma serving_cell_config_req_idx_in_bounds_witness :
  exists c',
    serving_cell_config_proc.init sample.env [0; 1; 2]
      (mk_ctx (serving_cell_config_proc.mk [] 0) sample.ue []) = Some (yield, c') /\
    (serving_cell_config_proc.req_idx (self c')
     < List.length (serving_cell_config_proc.required_sibs (self c')))%nat.
Proof.
  eexists. split; [vm_compute; reflexivity|].
  apply serving_cell_config_req_idx_in_bounds.
  eapply (serving_cell_config_proc.running_init sample.env [0; 1; 2]
            (mk_ctx (serving_cell_config_proc.mk [] 0) sample.ue [])).
  vm_compute. reflexivity.
Defined.

(** ** Paging *)

Lemma logs_make_no_call (l : list action) :
  forallb is_log l = true ->
  existsb is_nas_paging l = false /\
  existsb is_serv_cell_cfg_launch l = false /\
  existsb is_si_acquirer_launch l = false.
Proof.
  induction l as [|a l IH]; cbn; [auto|].
  intros H. apply andb_true_iff in H. destruct H as [Ha Hl].
  destruct (IH Hl) as (H1 & H2 & H3). rewrite H1, H2, H3.
  destruct a; cbn in *; try discriminate. auto.
Qed.

(** Over records none of which carries the identity of the UE, the loop
    runs out, having written to the log only. *)
Lemma walk_records_no_match (E : env_t) (rest : list s_tmsi_t) :
  forall (idx : nat) (c : ctx process_pcch_proc.t),
    Forall (fun s => s_tmsi_eqb (rrc.ue_identity (rrc_ptr c)) s = false) rest ->
    exists logs,
      process_pcch_proc.walk_records E rest idx c
      = Some (None, mk_ctx (process_pcch_proc.set_paging_idx (self c) (idx + List.length rest))
                           (rrc_ptr c) (trace c ++ logs)) /\
      forallb is_log logs = true.
Proof.
  induction rest as [|s rest IH]; intros idx c Hno.
  - cbn [process_pcch_proc.walk_records]. run_monad. exists [].
    rewrite app_nil_r, Nat.add_0_r. auto.
  - inversion Hno as [|? ? Hs Hrest]; subst.
    cbn [process_pcch_proc.walk_records]. run_monad. rewrite Hs.
    match goal with
    | |- context [process_pcch_proc.walk_records E rest (S idx) ?c1] =>
        destruct (IH (S idx) c1 Hrest) as (logs & Hwalk & Hlogs)
    end.
    rewrite Hwalk. cbn [self rrc_ptr trace List.length].
    eexists. rewrite <- !app_assoc, Nat.add_succ_r. split; [reflexivity|].
    cbn. exact Hlogs.
Qed.

(** C6, amended: a paging message none of whose records carries the S-TMSI
    of the UE, and which does not announce a system information
    modification, is consumed with success: the procedure only writes to the
    log, so NAS paging is not invoked, no serving-cell configuration is
    launched, and the [rrc] object, the SIBs of the serving cell among it,
    is left as it was. *)
Theorem pcch_no_match_no_effect (E : env_t) (paging_ : paging_s) (c : ctx process_pcch_proc.t) :
  Forall (fun s => s_tmsi_eqb (rrc.ue_identity (rrc_ptr c)) s = false)
         (paging_record_list paging_) ->
  sys_info_mod_present paging_ = false ->
  exists logs,
    process_pcch_proc.init E paging_ c
    = Some (success,
            mk_ctx (process_pcch_proc.mk paging_ (List.length (paging_record_list paging_))
                                         process_pcch_proc.next_record)
                   (rrc_ptr c) (trace c ++ logs)) /\
    forallb is_log logs = true /\
    existsb is_nas_paging logs = false /\
    existsb is_serv_cell_cfg_launch logs = false.
Proof.
  intros Hno Hmod.
  unfold process_pcch_proc.init, process_pcch_proc.step, process_pcch_proc.step_next_record.
  run_monad.
  unfold process_pcch_proc.set_state, process_pcch_proc.set_paging_idx,
    process_pcch_proc.set_paging.
  cbn [self rrc_ptr trace process_pcch_proc.state process_pcch_proc.paging
       process_pcch_proc.paging_idx skipn].
  match goal with
  | |- context [process_pcch_proc.walk_records E _ 0%nat ?c1] =>
      destruct (walk_records_no_match E (paging_record_list paging_) 0%nat c1 Hno)
        as (logs & Hwalk & Hlogs)
  end.
  rewrite Hwalk, Hmod. cbn.
  exists ([Log log_info "starting..."] ++ logs ++ [Log log_info "Completed successfully"]).
  rewrite <- !app_assoc. split; [reflexivity|].
  assert (Hall : forallb is_log ([Log log_info "starting..."] ++ logs
                                 ++ [Log log_info "Completed successfully"]) = true).
  { cbn. rewrite forallb_app, Hlogs. reflexivity. }
  split; [exact Hall|].
  destruct (logs_make_no_call _ Hall) as (H1 & H2 & _). auto.
Qed.

Lemma pcch_no_match_no_effect_witness :
  exists logs,
    process_pcch_proc.init sample.env (mk_paging [mk_s_tmsi 1 41; mk_s_tmsi 2 42] false)
      (mk_ctx (process_pcch_proc.mk (mk_paging [] false) 0 process_pcch_proc.next_record)
              sample.ue [])
    = Some (success,
            mk_ctx (process_pcch_proc.mk (mk_paging [mk_s_tmsi 1 41; mk_s_tmsi 2 42] false) 2
                                         process_pcch_proc.next_record)
                   sample.ue logs) /\
    existsb is_nas_paging logs = false /\
    existsb is_serv_cell_cfg_launch logs = false.
Proof.
  destruct (pcch_no_match_no_effect sample.env
              (mk_paging [mk_s_tmsi 1 41; mk_s_tmsi 2 42] false)
              (mk_ctx (process_pcch_proc.mk (mk_paging [] false) 0 process_pcch_proc.next_record)
                      sample.ue []))
    as (logs & Hinit & _ & Hnas & Hcfg).
  - repeat constructor.
  - reflexivity.
  - exists logs. split; [exact Hinit|]. split; [exact Hnas|exact Hcfg].
Defined.

(** C6 as stated fails: a paging message with no record for the UE but with
    the system information modification flag makes the procedure drop the
    SIBs of the serving cell and launch the serving-cell configuration; it
    then waits for that procedure instead of completing. *)
Lemma pcch_no_match_sys_info_mod :
  let c := mk_ctx (process_pcch_proc.mk (mk_paging [] false) 0 process_pcch_proc.next_record)
                  sample.ue [] in
  let paging_ := mk_paging [mk_s_tmsi 1 41] true in
  Forall (fun s => s_tmsi_eqb (rrc.ue_identity (rrc_ptr c)) s = false)
         (paging_record_list paging_) /\
  has_sib1 (rrc.serving (rrc_ptr c)) = true /\
  exists c',
    process_pcch_proc.init sample.env paging_ c = Some (yield, c') /\
    has_sib1 (rrc.serving (rrc_ptr c')) = false /\
    existsb is_serv_cell_cfg_launch (trace c') = true.
Proof.
  intros c paging_. split; [repeat constructor|]. split; [reflexivity|].
  eexists. split; [vm_compute; reflexivity|]. split; reflexivity.
Qed.

(** ** Events that reach a procedure in a state that does not expect them *)

(** C1, amended: a [react] handler that tests the state of its procedure
    returns yield, and leaves the procedure and the [rrc] object as they
    are, when the event arrives in a state it is not meant for: with a
    warning in [cell_search_proc] (result of a PHY cell selection), in
    [cell_selection_proc] (state [cell_config]), in [process_pcch_proc] and
    in [ho_proc] (result of a PHY cell selection, completion of the random
    access), and silently in [cell_selection_proc] (state [cell_search]) and
    in [connection_request_proc].  The exceptions are [cell_search_proc]
    reacting to a cell search result, which outside the state
    [phy_cell_search] logs an error and returns error, and
    [si_acquire_proc], which has no state to test and answers the expiry of
    a timer it does not know, the SIB being absent, with an error in the log
    and the outcome error. *)
Theorem react_in_unexpected_state (E : env_t) :
  (forall (c : ctx cell_search_proc.t) cs_ret,
      cell_search_proc.state (self c) <> cell_search_proc.phy_cell_select ->
      cell_search_proc.react_cell_select E cs_ret c
      = Some (yield, logged c log_warning "Received unexpected cell search result")) /\
  (forall (c : ctx cell_search_proc.t) event,
      cell_search_proc.state (self c) <> cell_search_proc.phy_cell_search ->
      cell_search_proc.react_cell_search E event c
      = Some (error, logged c log_error "Received unexpected cell search result")) /\
  (forall (c : ctx cell_selection_proc.t) event,
      cell_selection_proc.state (self c) = cell_selection_proc.cell_config ->
      cell_selection_proc.react E event c
      = Some (yield, logged c log_warning "Unexpected cell selection event received")) /\
  (forall (c : ctx cell_selection_proc.t) event,
      cell_selection_proc.state (self c) = cell_selection_proc.cell_search ->
      cell_selection_proc.react E event c = Some (yield, c)) /\
  (forall (c : ctx connection_request_proc.t) e,
      connection_request_proc.state (self c) <> connection_request_proc.cell_selection ->
      connection_request_proc.react E e c = Some (yield, c)) /\
  (forall (c : ctx process_pcch_proc.t) e,
      process_pcch_proc.state (self c) <> process_pcch_proc.nas_paging ->
      process_pcch_proc.react E e c
      = Some (yield, logged c log_warning "Received an unexpected paging complete")) /\
  (forall (c : ctx ho_proc.t) cs_ret,
      ho_proc.state (self c) <> ho_proc.wait_phy_cell_select_complete ->
      ho_proc.react_cell_select E cs_ret c
      = Some (yield, logged c log_warning "Received unexpected PHY Cell Selection event")) /\
  (forall (c : ctx ho_proc.t) ev,
      ho_proc.state (self c) <> ho_proc.wait_ra_completion ->
      ho_proc.react_ra_completed E ev c
      = Some (yield, logged c log_warning "Received unexpected RA Complete Event")) /\
  (forall (c : ctx si_acquire_proc.t) timer_id,
      has_sib (rrc.serving (rrc_ptr c)) (si_acquire_proc.sib_index (self c)) = false ->
      timer_id <> timer.id (si_acquire_proc.si_acq_retry_timer (self c)) ->
      timer_id <> timer.id (si_acquire_proc.si_acq_timeout (self c)) ->
      si_acquire_proc.react_si_acq_timer_expired E timer_id c
      = Some (error, logged c log_error "Unrecognized timer id")).
Proof.
  repeat split.
  - intros [p r tr] cs_ret Hs. unfold cell_search_proc.react_cell_select. run_monad.
    destruct (cell_search_proc.state p); cbn; try reflexivity; congruence.
  - intros [p r tr] event Hs. unfold cell_search_proc.react_cell_search. run_monad.
    destruct (cell_search_proc.state p); cbn; try reflexivity; congruence.
  - intros [p r tr] event Hs. unfold cell_selection_proc.react. run_monad.
    cbn in Hs. rewrite Hs. reflexivity.
  - intros [p r tr] event Hs. unfold cell_selection_proc.react. run_monad.
    cbn in Hs. rewrite Hs. reflexivity.
  - intros [p r tr] e Hs. unfold connection_request_proc.react. run_monad.
    destruct (connection_request_proc.state p); cbn; try reflexivity; congruence.
  - intros [p r tr] e Hs. unfold process_pcch_proc.react. run_monad.
    destruct (process_pcch_proc.state p); cbn; try reflexivity; congruence.
  - intros [p r tr] cs_ret Hs. unfold ho_proc.react_cell_select. run_monad.
    destruct (ho_proc.state p); cbn; try reflexivity; congruence.
  - intros [p r tr] ev Hs. unfold ho_proc.react_ra_completed. run_monad.
    destruct (ho_proc.state p); cbn; try reflexivity; congruence.
  - intros [p r tr] timer_id Hsib Hretry Htimeout.
    unfold si_acquire_proc.react_si_acq_timer_expired. run_monad.
    cbn [self rrc_ptr] in *. rewrite Hsib.
    apply Nat.eqb_neq in Hretry, Htimeout. rewrite Hretry, Htimeout. reflexivity.
Qed.

Lemma react_in_unexpected_state_witness :
  let search := mk_ctx (cell_search_proc.mk cell_search_proc.wait_measurement
                          (mk_cell_srch_res (mk_cell_search_ret CELL_NOT_FOUND MORE_FREQS)
                                            (mk_phy_cell 0 0)))
                       sample.ue [] in
  let selection st := mk_ctx (cell_selection_proc.mk st 0 no_cell false false) sample.ue [] in
  let request := mk_ctx (connection_request_proc.mk connection_request_proc.wait_t300 0
                                                   None no_cell) sample.ue [] in
  let pcch := mk_ctx (process_pcch_proc.mk (mk_paging [] false) 0 process_pcch_proc.next_record)
                     sample.ue [] in
  let ho := mk_ctx (ho_proc.mk ho_proc.launch_phy_cell_select sample.recfg 2850 sample.cell 70)
                   sample.connected_ue [] in
  cell_search_proc.react_cell_select sample.env true search
  = Some (yield, logged search log_warning "Received unexpected cell search result") /\
  cell_search_proc.react_cell_search sample.env
    (mk_cell_srch_res (mk_cell_search_ret CELL_FOUND MORE_FREQS) (mk_phy_cell 3 2850)) search
  = Some (error, logged search log_error "Received unexpected cell search result") /\
  cell_selection_proc.react sample.env true (selection cell_selection_proc.cell_config)
  = Some (yield, logged (selection cell_selection_proc.cell_config) log_warning
                        "Unexpected cell selection event received") /\
  cell_selection_proc.react sample.env true (selection cell_selection_proc.cell_search)
  = Some (yield, selection cell_selection_proc.cell_search) /\
  connection_request_proc.react sample.env (result_value changed_cell) request
  = Some (yield, request) /\
  process_pcch_proc.react sample.env (process_pcch_proc.mk_paging_complete true) pcch
  = Some (yield, logged pcch log_warning "Received an unexpected paging complete") /\
  ho_proc.react_cell_select sample.env true ho
  = Some (yield, logged ho log_warning "Received unexpected PHY Cell Selection event") /\
  ho_proc.react_ra_completed sample.env (ho_proc.mk_ra_completed true) ho
  = Some (yield, logged ho log_warning "Received unexpected RA Complete Event") /\
  si_acquire_proc.react_si_acq_timer_expired sample.env 7 sample.si_acquire
  = Some (error, logged sample.si_acquire log_error "Unrecognized timer id").
Proof.
  intros search selection request pcch ho.
  destruct (react_in_unexpected_state sample.env)
    as (H1 & H2 & H3 & H4 & H5 & H6 & H7 & H8 & H9).
  split; [apply H1; discriminate|].
  split; [apply H2; discriminate|].
  split; [apply H3; reflexivity|].
  split; [apply H4; reflexivity|].
  split; [apply H5; discriminate|].
  split; [apply H6; discriminate|].
  split; [apply H7; discriminate|].
  split; [apply H8; discriminate|].
  apply H9; [reflexivity|discriminate|discriminate].
Defined.

(** C1 as stated fails: a cell search result that reaches
    [cell_search_proc] while it waits for the PHY cell selection is answered
    with an error in the log and the outcome error, not with yield. *)
Lemma cell_search_unexpected_result_is_error :
  let c := mk_ctx (cell_search_proc.mk cell_search_proc.phy_cell_select
                     (mk_cell_srch_res (mk_cell_search_ret CELL_FOUND MORE_FREQS)
                                       (mk_phy_cell 1 2850)))
                  sample.ue [] in
  cell_search_proc.react_cell_search sample.env
    (mk_cell_srch_res (mk_cell_search_ret CELL_NOT_FOUND NO_MORE_FREQS) (mk_phy_cell 0 0)) c
  = Some (error,
          mk_ctx (self c) (rrc_ptr c)
                 [Log log_error "Received unexpected cell search result"]).
Proof. reflexivity. Qed.

(** ** Handover *)

Lemma ho_step_not_connected (E : env_t) (c : ctx ho_proc.t) :
  rrc.state (rrc_ptr c) <> RRC_STATE_CONNECTED ->
  ho_proc.step E c = Some (error, logged c log_info ho_interrupted).
Proof.
  intros Hs. destruct c as [p r tr]. unfold ho_proc.step. run_monad.
  cbn in Hs. destruct (rrc.state r); [reflexivity|congruence].
Qed.

(** Destructs, innermost first, the tests the handler result in [H]
    depends on. *)
Ltac break_match H :=
  repeat match type of H with
         | context [match ?x with _ => _ end] =>
             lazymatch x with
             | context [match _ with _ => _ end] => fail
             | _ => destruct x eqn:?; cbv beta iota in H; cbn [self rrc_ptr trace] in H
             end
         end.

(** The [react] handlers of the handover ask PHY for no cell selection and
    reset no layer. *)
Lemma ho_react_calls (E : env_t) (ev : ho_proc.event) (c : ctx ho_proc.t) o c' :
  ho_proc.invoke E (ho_proc.do_react ev) c = Some (o, c') ->
  exists new,
    trace c' = trace c ++ new /\
    existsb is_phy_cell_select new = false /\
    existsb is_stack_reset new = false.
Proof.
  intros H. destruct c as [p r tr]. destruct ev as [cs_ret| |ev]; cbn [ho_proc.invoke] in H.
  - unfold ho_proc.react_cell_select in H. run_monad.
    break_match H; try discriminate; injection H as <- <-; cbn [trace];
      rewrite <- ?app_assoc; eexists; (split; [reflexivity|]); split; reflexivity.
  - unfold ho_proc.react_t304_expiry in H. run_monad. injection H as <- <-.
    eexists. split; [reflexivity|]. split; reflexivity.
  - unfold ho_proc.react_ra_completed in H. run_monad.
    break_match H; try discriminate; injection H as <- <-; cbn [trace];
      rewrite <- ?app_assoc; eexists; (split; [reflexivity|]); split; reflexivity.
Qed.

(** C10, amended: [ho_proc::step] first tests the RRC state and, when it is
    no longer CONNECTED, returns error having written one line to the log
    and nothing else; the PHY cell-select request and the reset of the
    stack are made by [step] only, so no handler of the handover makes them
    once the UE has left CONNECTED.  (The random access is started by the
    [react] to the PHY cell selection, which does not test the RRC state.) *)
Theorem ho_step_checks_rrc_state (E : env_t) (c : ctx ho_proc.t) :
  rrc.state (rrc_ptr c) <> RRC_STATE_CONNECTED ->
  ho_proc.step E c = Some (error, logged c log_info ho_interrupted) /\
  forall (i : ho_proc.invocation) o c',
    ho_proc.invoke E i c = Some (o, c') ->
    exists new,
      trace c' = trace c ++ new /\
      existsb is_phy_cell_select new = false /\
      existsb is_stack_reset new = false.
Proof.
  intros Hs. split; [exact (ho_step_not_connected E c Hs)|].
  intros [|ev] o c' H.
  - cbn [ho_proc.invoke] in H. rewrite (ho_step_not_connected E c Hs) in H.
    injection H as <- <-. eexists. split; [reflexivity|]. split; reflexivity.
  - exact (ho_react_calls E ev c o c' H).
Qed.

Lemma ho_step_checks_rrc_state_witness :
  let c := mk_ctx (ho_proc.mk ho_proc.launch_phy_cell_select sample.recfg 2850 sample.cell 70)
                  sample.ue [] in
  ho_proc.step sample.env c = Some (error, logged c log_info ho_interrupted) /\
  exists new,
    trace (logged c log_info "HO preparation timed out.") = trace c ++ new /\
    existsb is_phy_cell_select new = false /\
    existsb is_stack_reset new = false.
Proof.
  intros c.
  destruct (ho_step_checks_rrc_state sample.env c) as [Hstep Hcalls]; [discriminate|].
  split; [exact Hstep|].
  apply (Hcalls (ho_proc.do_react ho_proc.ev_t304_expiry) error). reflexivity.
Defined.

(** C10 as stated fails for the random access: with the UE back in
    RRC_IDLE, the result of the PHY cell selection still makes the handover
    start a contention-based random access. *)
Lemma ho_random_access_outside_connected :
  let c := mk_ctx (ho_proc.mk ho_proc.wait_phy_cell_select_complete sample.recfg 2850
                              sample.cell 70)
                  sample.ue [] in
  rrc.state (rrc_ptr c) = RRC_STATE_IDLE /\
  exists c',
    ho_proc.invoke sample.env (ho_proc.do_react (ho_proc.ev_cell_select true)) c
    = Some (yield, c') /\
    rrc.state (rrc_ptr c') = RRC_STATE_IDLE /\
    existsb is_random_access (trace c') = true /\
    In mac_start_cont_ho (trace c').
Proof.
  intros c. split; [reflexivity|].
  eexists. split; [vm_compute; reflexivity|].
  split; [reflexivity|]. split; [reflexivity|].
  cbn. auto 10.
Qed.

(** ** Further properties of the scheduling arithmetic *)

Lemma find_sib_sched_spec (sib_index : Z) (l : list sched_info_s) :
  forall i T n,
    0 <= i -> i + Z.of_nat (List.length l) < 2147483648 ->
    find_sib_sched l i sib_index = (T, n) ->
    (n = -1 /\ T = 0 /\
     forall si, In si l -> ~ In (u32 (sib_index + 1)) (sib_map_info si)) \/
    (exists j si,
        nth_error l j = Some si /\ n = i + Z.of_nat j /\ T = si_periodicity si /\
        In (u32 (sib_index + 1)) (sib_map_info si) /\
        forall j' si', (j' < j)%nat -> nth_error l j' = Some si' ->
                       ~ In (u32 (sib_index + 1)) (sib_map_info si')).
Proof.
  induction l as [|si l IH]; intros i T n Hi Hlen H; cbn [find_sib_sched] in H.
  - injection H as <- <-. left. repeat split. intros si [].
  - cbn [List.length] in Hlen.
    destruct (existsb (fun m => m =? u32 (sib_index + 1)) (sib_map_info si)) eqn:Hex.
    + injection H as <- <-. right. exists 0%nat, si.
      split; [reflexivity|]. split.
      { unfold to_i32. destruct (i <? 2147483648) eqn:Hlt; [lia|].
        apply Z.ltb_ge in Hlt. lia. }
      split; [reflexivity|]. split.
      { apply existsb_exists in Hex. destruct Hex as (m & Hm & Heq).
        apply Z.eqb_eq in Heq. subst m. exact Hm. }
      intros j' si' Hj. lia.
    + assert (Hnot : ~ In (u32 (sib_index + 1)) (sib_map_info si)).
      { intros Hin. assert (Hex' : existsb (fun m => m =? u32 (sib_index + 1))
                                          (sib_map_info si) = true).
        { apply existsb_exists. exists (u32 (sib_index + 1)). split; [exact Hin|].
          apply Z.eqb_refl. }
        congruence. }
      rewrite (u32_small (i + 1)) in H by lia.
      destruct (IH (i + 1) T n ltac:(lia) ltac:(lia) H)
        as [(-> & -> & Hnone) | (j & sj & Hnth & -> & -> & Hin & Hfirst)].
      * left. repeat split. intros si' [<- | Hin]; auto.
      * right. exists (S j), sj. split; [exact Hnth|]. split; [lia|].
        split; [reflexivity|]. split; [exact Hin|].
        intros [|j'] si' Hj Hnth'.
        -- cbn in Hnth'. injection Hnth' as <-. exact Hnot.
        -- cbn in Hnth'. apply (Hfirst j' si'); [lia|exact Hnth'].
Qed.

(** X1: for a SIB of index 2 or more, [compute_si_periodicity_and_idx]
    returns the position and the periodicity of the first entry of the
    scheduling list of SIB1 that maps the SIB, and [{0, -1}] exactly when no
    entry maps it. *)
Theorem compute_si_periodicity_and_idx_lookup (sib_index : Z) (sib1 : sib_type1_s) (T n : Z) :
  2 <= sib_index ->
  (List.length (sched_info_list sib1) <= 32)%nat ->
  compute_si_periodicity_and_idx sib_index (Some sib1) = Some (T, n) ->
  (n = -1 /\ T = 0 /\
   forall si, In si (sched_info_list sib1) -> ~ In (u32 (sib_index + 1)) (sib_map_info si)) \/
  (0 <= n /\
   exists si,
     nth_error (sched_info_list sib1) (Z.to_nat n) = Some si /\
     si_periodicity si = T /\
     In (u32 (sib_index + 1)) (sib_map_info si) /\
     forall j si', (j < Z.to_nat n)%nat -> nth_error (sched_info_list sib1) j = Some si' ->
                   ~ In (u32 (sib_index + 1)) (sib_map_info si')).
Proof.
  intros Hidx Hlen H. unfold compute_si_periodicity_and_idx in H.
  destruct (sib_index =? 0) eqn:H0; [apply Z.eqb_eq in H0; lia|].
  destruct (sib_index =? 1) eqn:H1; [apply Z.eqb_eq in H1; lia|].
  injection H as H.
  destruct (find_sib_sched_spec sib_index (sched_info_list sib1) 0 T n ltac:(lia) ltac:(lia) H)
    as [Hnone | (j & si & Hnth & -> & -> & Hin & Hfirst)].
  - left. exact Hnone.
  - right. split; [lia|]. exists si. rewrite Z.add_0_l, Nat2Z.id. auto.
Qed.

Lemma compute_si_periodicity_and_idx_lookup_witness :
  0 <= 1 /\
  exists si,
    nth_error (sched_info_list sample.sib1) (Z.to_nat 1) = Some si /\
    si_periodicity si = 512 /\
    In (u32 (2 + 1)) (sib_map_info si).
Proof.
  destruct (compute_si_periodicity_and_idx_lookup 2 sample.sib1 512 1)
    as [(Hn & _) | (Hn & si & Hnth & HT & Hin & _)].
  - lia.
  - cbn. lia.
  - reflexivity.
  - discriminate.
  - split; [exact Hn|]. exists si. auto.
Defined.

(** X2: for a TTI of the ring, a periodicity of SIB1 and a window offset
    [x = n * w] of at most 1240 subframes, the SI-window start lies in the
    ring and [x] subframes after a multiple of the period of [T] frames. *)
Theorem sib_start_tti_aligned (tti T x : Z) :
  0 <= tti < 10240 -> In T si_periods -> 0 <= x <= 1240 ->
  exists s,
    sib_start_tti tti T (x / 10) (x mod 10) = Some s /\
    0 <= s < 10240 /\
    (s - x) mod (T * 10) = 0.
Proof.
  intros Htti HT Hx.
  assert (HT' : 0 < T <= 512 /\ (T * 10 | 10240)).
  { unfold si_periods in HT. simpl in HT.
    destruct HT as [<-|[<-|[<-|[<-|[<-|[<-|[<-|[<-|[]]]]]]]]]; (split; [lia|]).
    - exists 512; reflexivity.
    - exists 128; reflexivity.
    - exists 64; reflexivity.
    - exists 32; reflexivity.
    - exists 16; reflexivity.
    - exists 8; reflexivity.
    - exists 4; reflexivity.
    - exists 2; reflexivity. }
  destruct HT' as [HTr Hdiv].
  destruct (sib_start_tti_distance tti T x Htti HTr Hx) as (s & d & Hs & Hd & Hsd).
  exists s. split; [exact Hs|].
  split; [subst s; apply Z.mod_pos_bound; lia|].
  pose proof (Z.div_mod tti (T * 10) ltac:(lia)) as Hdm.
  assert (Heq : tti + d = x + (tti / (T * 10) + 1) * (T * 10)) by lia.
  destruct Hdiv as [k Hk].
  pose proof (Z.div_mod (tti + d) 10240 ltac:(lia)) as Hsdm. rewrite <- Hsd in Hsdm.
  assert (Hs' : s - x = (tti / (T * 10) + 1 - k * ((tti + d) / 10240)) * (T * 10)).
  { assert (Hk' : 10240 * ((tti + d) / 10240) = k * ((tti + d) / 10240) * (T * 10))
      by (rewrite Hk; ring).
    replace ((tti / (T * 10) + 1 - k * ((tti + d) / 10240)) * (T * 10))
      with ((tti / (T * 10) + 1) * (T * 10) - k * ((tti + d) / 10240) * (T * 10)) by ring.
    lia. }
  rewrite Hs'. apply Z.mod_mul. lia.
Qed.

Lemma sib_start_tti_aligned_witness :
  exists s,
    sib_start_tti 10239 512 (47 / 10) (47 mod 10) = Some s /\
    0 <= s < 10240 /\
    (s - 47) mod (512 * 10) = 0.
Proof. apply (sib_start_tti_aligned 10239 512 47); [lia|cbn; auto 10|lia]. Defined.

(** X3: for a SIB other than SIB1, a TTI of the ring, an SI periodicity of
    at most 256 frames, a position [n] in the scheduling list below 32 and
    a legal si-WindowLength [w] in SIB1, [compute_si_window] returns the
    window length [w] and a start in the ring that is strictly later than
    the TTI in the wrap-aware order: no 32-bit wrap occurs, and
    [start_si_acquire] finds [si_win_start >= tti]. *)
Theorem compute_si_window_later (tti sib_index n T : Z) (s1 : sib_type1_s) :
  sib_index <> 0 ->
  0 <= tti < 10240 -> In T si_periods -> T <> 512 ->
  0 <= n < 32 -> In (si_win_len s1) si_window_lengths ->
  exists start,
    compute_si_window tti sib_index n T (Some s1) = Some (start, si_win_len s1) /\
    0 <= start < 10240 /\
    0 < tti_point.sub start tti /\
    tti_point.lt start tti = false.
Proof.
  intros Hidx Htti HT HT512 Hn Hw.
  destruct (sib_start_tti_later tti T n (si_win_len s1) Htti HT HT512 Hn Hw)
    as (s & Hs & Hrange & Hsub & Hlt).
  assert (Hx : 0 <= n * si_win_len s1 <= 1240).
  { unfold si_window_lengths in Hw. simpl in Hw.
    repeat (destruct Hw as [<- | Hw]; [lia|]). contradiction. }
  exists s. unfold compute_si_window.
  apply Z.eqb_neq in Hidx. rewrite Hidx. cbv zeta.
  rewrite (u32_small (n * si_win_len s1)) by lia.
  rewrite Hs. auto.
Qed.

Lemma compute_si_window_later_witness :
  exists start,
    compute_si_window 10239 2 31 256 (Some (mk_sib1 [] 40)) = Some (start, 40) /\
    0 <= start < 10240 /\
    0 < tti_point.sub start 10239 /\
    tti_point.lt start 10239 = false.
Proof.
  apply (compute_si_window_later 10239 2 31 256 (mk_sib1 [] 40));
    [lia|lia|cbn; auto 10|lia|lia|cbn; auto 10].
Defined.

(** ** Further properties of the SI acquisition *)

Lemma tti_sub_bounds (a b : Z) :
  0 <= a < 10240 -> 0 <= b < 10240 -> -5120 <= tti_point.sub a b <= 5120.
Proof.
  intros Ha Hb. unfold tti_point.sub.
  destruct (a - b >? 5120) eqn:H1; [lia|].
  destruct (a - b <? -5120) eqn:H2; lia.
Qed.

(** The two ways [start_si_acquire] returns. *)
Lemma start_si_acquire_cases (E : env_t) (c c' : ctx si_acquire_proc.t) :
  si_acquire_proc.start_si_acquire E c = Some (tt, c') ->
  c' = logged c log_error si_window_error \/
  exists first len,
    compute_si_window (current_tti E) (si_acquire_proc.sib_index (self c))
                      (u32 (si_acquire_proc.sched_index (self c)))
                      (si_acquire_proc.period (self c))
                      (sib1ptr (rrc.serving (rrc_ptr c))) = Some (first, len) /\
    tti_point.lt (tti_point.make first) (current_tti E) = false /\
    c' = mk_ctx
           (si_acquire_proc.set_si_acq_retry_timer (self c)
              (timer.run
                 (timer.set (si_acquire_proc.si_acq_retry_timer (self c))
                    (u32 ((if si_acquire_proc.sib_index (self c) =? 0 then sib1_periodicity
                           else u32 (si_acquire_proc.period (self c) * 5))
                          + tti_point.sub (tti_point.make first) (current_tti E))))))
           (rrc_ptr c)
           (trace c ++ [mac_bcch_start_rx (tti_point.make first) len;
                        Log log_info si_acquire_instructed]).
Proof.
  unfold si_acquire_proc.start_si_acquire. run_monad.
  destruct (compute_si_window _ _ _ _ _) as [[first len]|]; [|discriminate].
  destruct (tti_point.lt (tti_point.make first) (current_tti E)) eqn:Hlt; intros H.
  - left. injection H as <-. reflexivity.
  - right. exists first, len. split; [reflexivity|]. split; [exact Hlt|].
    injection H as <-. cbn [self rrc_ptr trace]. rewrite <- app_assoc. reflexivity.
Qed.

(** X4: whenever [start_si_acquire] returns, either it has only logged the
    error of a window start in the past, or it has asked MAC exactly once
    for a BCCH window whose start is a TTI of the ring not earlier than the
    current TTI, and has armed the retry timer for the retry period (20 for
    SIB1, else five periods) plus the distance to the window start; the
    timeout timer and the [rrc] object are left as they were. *)
Theorem start_si_acquire_schedules (E : env_t) (c c' : ctx si_acquire_proc.t) :
  0 <= current_tti E < 10240 ->
  0 <= si_acquire_proc.period (self c) <= 512 ->
  si_acquire_proc.start_si_acquire E c = Some (tt, c') ->
  c' = logged c log_error si_window_error \/
  exists s len,
    trace c' = trace c ++ [mac_bcch_start_rx s len; Log log_info si_acquire_instructed] /\
    0 <= s < 10240 /\
    0 <= tti_point.sub s (current_tti E) <= 5120 /\
    si_acquire_proc.si_acq_retry_timer (self c')
    = timer.mk (timer.id (si_acquire_proc.si_acq_retry_timer (self c)))
               ((if si_acquire_proc.sib_index (self c) =? 0 then 20
                 else si_acquire_proc.period (self c) * 5)
                + tti_point.sub s (current_tti E))
               true false /\
    si_acquire_proc.si_acq_timeout (self c') = si_acquire_proc.si_acq_timeout (self c) /\
    rrc_ptr c' = rrc_ptr c.
Proof.
  intros Htti Hperiod H.
  destruct (start_si_acquire_cases E c c' H) as [-> | (first & len & Hwin & Hlt & ->)].
  - left. reflexivity.
  - right. exists (tti_point.make first), len.
    assert (Hs : 0 <= tti_point.make first < 10240)
      by (unfold tti_point.make; apply Z.mod_pos_bound; lia).
    pose proof (tti_sub_bounds _ _ Hs Htti) as Hsub.
    unfold tti_point.lt in Hlt. apply Z.ltb_ge in Hlt.
    split; [reflexivity|]. split; [exact Hs|]. split; [lia|].
    split; [|split; reflexivity].
    cbn [self si_acquire_proc.set_si_acq_retry_timer si_acquire_proc.si_acq_retry_timer].
    unfold timer.run, timer.set. cbn [timer.id timer.duration].
    rewrite (u32_small (si_acquire_proc.period (self c) * 5)) by lia.
    unfold sib1_periodicity.
    rewrite u32_small; [reflexivity|].
    destruct (si_acquire_proc.sib_index (self c) =? 0); lia.
Qed.

Lemma start_si_acquire_schedules_witness :
  let c := mk_ctx (si_acquire_proc.mk 1 16 0 (timer.mk 1 5000 false false)
                                      (timer.mk 2 1 false false))
                  sample.ue [] in
  exists c',
    si_acquire_proc.start_si_acquire sample.env c = Some (tt, c') /\
    exists s len,
      trace c' = trace c ++ [mac_bcch_start_rx s len; Log log_info si_acquire_instructed] /\
      0 <= s < 10240 /\
      si_acquire_proc.si_acq_retry_timer (self c') = timer.mk 2 (16 * 5 + tti_point.sub s 0)
                                                              true false.
Proof.
  intros c. eexists. split; [vm_compute; reflexivity|].
  destruct (start_si_acquire_schedules sample.env c _ ltac:(cbn; lia) ltac:(cbn; lia)
              ltac:(vm_compute; reflexivity))
    as [Habs | (s & len & Htr & Hs & _ & Hretry & _)].
  - discriminate Habs.
  - exists s, len. split; [exact Htr|]. split; [exact Hs|exact Hretry].
Defined.

(** X5: [si_acquire_proc::init] returns success exactly when the serving
    cell already holds the SIB, and then has only written to the log; when
    it yields, the timeout timer is running and the procedure has recorded
    the SIB index together with the periodicity and the (non-negative)
    scheduling index that [compute_si_periodicity_and_idx] gives; when it
    returns error, MAC has not been asked for a BCCH window and neither
    timer has been touched.  The [rrc] object is never changed. *)
Theorem si_acquire_init_outcomes (E : env_t) (sib_index_ : Z) (c : ctx si_acquire_proc.t) o c' :
  si_acquire_proc.init E sib_index_ c = Some (o, c') ->
  rrc_ptr c' = rrc_ptr c /\
  (o = success <-> has_sib (rrc.serving (rrc_ptr c)) sib_index_ = true) /\
  (o = success -> c' = logged c log_info "The UE has already acquired SIB%d") /\
  (o = yield ->
   timer.is_running (si_acquire_proc.si_acq_timeout (self c')) = true /\
   si_acquire_proc.sib_index (self c') = sib_index_ /\
   0 <= si_acquire_proc.sched_index (self c') /\
   compute_si_periodicity_and_idx sib_index_ (sib1ptr (rrc.serving (rrc_ptr c)))
   = Some (si_acquire_proc.period (self c'), si_acquire_proc.sched_index (self c'))) /\
  (o = error ->
   si_acquire_proc.si_acq_timeout (self c') = si_acquire_proc.si_acq_timeout (self c) /\
   si_acquire_proc.si_acq_retry_timer (self c')
   = si_acquire_proc.si_acq_retry_timer (self c) /\
   exists new, trace c' = trace c ++ new /\ existsb is_bcch_start_rx new = false).
Proof.
  unfold si_acquire_proc.init. run_monad.
  destruct (has_sib (rrc.serving (rrc_ptr c)) sib_index_) eqn:Hhas.
  - intros H. injection H as <- <-. cbn.
    split; [reflexivity|]. split; [tauto|]. split; [reflexivity|].
    split; discriminate.
  - destruct ((sib_index_ >? 0) && negb (has_sib1 (rrc.serving (rrc_ptr c)))).
    + intros H. injection H as <- <-. cbn.
      split; [reflexivity|]. split; [split; discriminate|].
      split; [discriminate|]. split; [discriminate|]. intros _.
      split; [reflexivity|]. split; [reflexivity|].
      rewrite <- app_assoc. eexists. split; [reflexivity|reflexivity].
    + destruct (compute_si_periodicity_and_idx sib_index_ (sib1ptr (rrc.serving (rrc_ptr c))))
        as [[first second]|] eqn:Hidx; [|discriminate].
      destruct (second <? 0) eqn:Hneg.
      * intros H. injection H as <- <-. cbn.
        split; [reflexivity|]. split; [split; discriminate|].
        split; [discriminate|]. split; [discriminate|]. intros _.
        split; [reflexivity|]. split; [reflexivity|].
        rewrite <- app_assoc. eexists. split; [reflexivity|reflexivity].
      * apply Z.ltb_ge in Hneg.
        match goal with
        | |- context [si_acquire_proc.start_si_acquire E ?c1] =>
            destruct (si_acquire_proc.start_si_acquire E c1) as [[[] c2]|] eqn:Hstart;
              [|discriminate];
              destruct (start_si_acquire_cases E c1 c2 Hstart)
                as [-> | (f & l & _ & _ & ->)]
        end; intros H; injection H as <- <-; cbn;
          (split; [reflexivity|]); (split; [split; discriminate|]);
          (split; [discriminate|]); (split; [|discriminate]); intros _; auto.
Qed.

Lemma si_acquire_init_outcomes_witness :
  exists c',
    si_acquire_proc.init sample.env 2 sample.si_acquire = Some (yield, c') /\
    timer.is_running (si_acquire_proc.si_acq_timeout (self c')) = true /\
    si_acquire_proc.sib_index (self c') = 2 /\
    0 <= si_acquire_proc.sched_index (self c').
Proof.
  eexists. split; [vm_compute; reflexivity|].
  destruct (si_acquire_init_outcomes sample.env 2 sample.si_acquire yield _
              ltac:(vm_compute; reflexivity))
    as (_ & _ & _ & Hyield & _).
  destruct (Hyield eq_refl) as (Hrun & Hidx & Hsched & _).
  split; [exact Hrun|]. split; [exact Hidx|exact Hsched].
Defined.

(** ** Further properties of the serving cell configuration *)

Lemma launch_sib_acquire_from_all_held (E : env_t) (rest : list Z) :
  forall (idx : nat) (c : ctx serving_cell_config_proc.t),
    Forall (fun s => has_sib (rrc.serving (rrc_ptr c)) s = true) rest ->
    exists new,
      serving_cell_config_proc.launch_sib_acquire_from E rest idx c
      = Some (success,
              mk_ctx (serving_cell_config_proc.set_req_idx (self c) (idx + List.length rest))
                     (rrc_ptr c) (trace c ++ new)) /\
      existsb is_si_acquirer_launch new = false /\
      (In rrc_handle_sib2 new <-> In 1 rest) /\
      (In rrc_handle_sib13 new <-> In 12 rest).
Proof.
  induction rest as [|s rest IH]; intros idx c Hall.
  - cbn [serving_cell_config_proc.launch_sib_acquire_from]. run_monad.
    eexists. rewrite Nat.add_0_r. split; [reflexivity|].
    split; [reflexivity|]. cbn. intuition discriminate.
  - inversion Hall as [|? ? Hs Hrest]; subst.
    cbn [serving_cell_config_proc.launch_sib_acquire_from]. run_monad.
    rewrite Hs. cbn [negb].
    destruct (Z.eqb_spec s 1) as [->|Hn1]; [|destruct (Z.eqb_spec s 12) as [->|Hn12]];
      run_monad;
      match goal with
      | |- context [serving_cell_config_proc.launch_sib_acquire_from E rest (S idx) ?c1] =>
          destruct (IH (S idx) c1 Hrest) as (new & Hrun & Hno & H2 & H13)
      end;
      cbn [self rrc_ptr trace] in Hrun; rewrite Hrun;
      cbn [List.length]; rewrite <- ?app_assoc, Nat.add_succ_r; cbn [Nat.add];
      eexists; (split; [reflexivity|]);
      (split; [rewrite existsb_app; cbn; exact Hno|]);
      rewrite !in_app_iff; cbn [In]; rewrite H2, H13;
      split; intuition (try discriminate; try lia).
Qed.

(** X6: when PHY is camping and the serving cell holds every required SIB,
    [init] succeeds at once with [req_idx] at the end of the list and without
    launching any SI acquisition; it calls [handle_sib2] exactly if SIB2
    (index 1) is required and [handle_sib13] exactly if SIB13 (index 12) is,
    and clears [has_mcch] of the serving cell. *)
Theorem serving_cell_config_all_sibs_held
  (E : env_t) (required_sibs_ : list Z) (c : ctx serving_cell_config_proc.t) :
  phy_cell_is_camping E = true ->
  Forall (fun s => has_sib (rrc.serving (rrc_ptr c)) s = true) required_sibs_ ->
  exists new,
    serving_cell_config_proc.init E required_sibs_ c
    = Some (success,
            mk_ctx (serving_cell_config_proc.mk required_sibs_ (List.length required_sibs_))
                   (rrc.update_serving (rrc_ptr c) (fun cell => set_has_mcch cell false))
                   (trace c ++ new)) /\
    existsb is_si_acquirer_launch new = false /\
    (In rrc_handle_sib2 new <-> In 1 required_sibs_) /\
    (In rrc_handle_sib13 new <-> In 12 required_sibs_).
Proof.
  intros Hcamp Hall.
  unfold serving_cell_config_proc.init, serving_cell_config_proc.launch_sib_acquire.
  run_monad. rewrite Hcamp. cbn [negb].
  unfold serving_cell_config_proc.set_req_idx, serving_cell_config_proc.set_required_sibs.
  cbn [self rrc_ptr trace serving_cell_config_proc.req_idx
       serving_cell_config_proc.required_sibs skipn].
  match goal with
  | |- context [serving_cell_config_proc.launch_sib_acquire_from E _ 0%nat ?c1] =>
      destruct (launch_sib_acquire_from_all_held E required_sibs_ 0%nat c1)
        as (new & Hrun & Hno & H2 & H13)
  end.
  { cbn [rrc_ptr]. revert Hall. apply Forall_impl. intros s Hs.
    destruct (rrc_ptr c) as [? ? ? ? ? ? ? ? ? ? [[? ? ? ? ?] ?]]. exact Hs. }
  rewrite Hrun. cbn [self rrc_ptr trace serving_cell_config_proc.set_req_idx
                     serving_cell_config_proc.required_sibs Nat.add].
  exists (Log log_info "Starting a Serving Cell Configuration Procedure" :: new).
  rewrite <- app_assoc. split; [reflexivity|]. cbn [existsb is_si_acquirer_launch orb In].
  split; [exact Hno|]. split; split; intros H.
  - destruct H as [H|H]; [discriminate|]. apply H2, H.
  - right. apply H2, H.
  - destruct H as [H|H]; [discriminate|]. apply H13, H.
  - right. apply H13, H.
Qed.

Lemma serving_cell_config_all_sibs_held_witness :
  exists new,
    serving_cell_config_proc.init sample.env [0; 1]
      (mk_ctx (serving_cell_config_proc.mk [] 0) sample.ue [])
    = Some (success,
            mk_ctx (serving_cell_config_proc.mk [0; 1] 2)
                   (rrc.update_serving sample.ue (fun cell => set_has_mcch cell false))
                   new) /\
    existsb is_si_acquirer_launch new = false /\
    (In rrc_handle_sib2 new <-> In 1 [0; 1]).
Proof.
  destruct (serving_cell_config_all_sibs_held sample.env [0; 1]
              (mk_ctx (serving_cell_config_proc.mk [] 0) sample.ue []))
    as (new & Hinit & Hno & H2 & _).
  - reflexivity.
  - repeat constructor.
  - exists new. split; [exact Hinit|]. split; [exact Hno|exact H2].
Defined.

(** The walk launches the SI acquisition at most once, and only for a
    required SIB that the cell does not hold and that is SIB1, SIB2 or
    scheduled in SIB1. *)
Lemma launch_sib_acquire_from_calls (E : env_t) (rest : list Z) :
  forall (idx : nat) (c : ctx serving_cell_config_proc.t) o c',
    serving_cell_config_proc.launch_sib_acquire_from E rest idx c = Some (o, c') ->
    exists new,
      trace c' = trace c ++ new /\
      ((o = success /\ filter is_si_acquirer_launch new = []) \/
       (o <> success /\
        exists k s,
          nth_error rest k = Some s /\
          serving_cell_config_proc.req_idx (self c') = (idx + k)%nat /\
          has_sib (rrc.serving (rrc_ptr c)) s = false /\
          (s < 2 \/ is_sib_scheduled E (rrc.serving (rrc_ptr c)) s = true) /\
          filter is_si_acquirer_launch new = [si_acquirer_launch s] /\
          (o = yield <-> si_acquirer_launch_ret E s = true))).
Proof.
  induction rest as [|s rest IH]; intros idx c o c'.
  - cbn [serving_cell_config_proc.launch_sib_acquire_from]. run_monad.
    intros H. injection H as <- <-. eexists. split; [reflexivity|]. left. auto.
  - cbn [serving_cell_config_proc.launch_sib_acquire_from]. run_monad.
    destruct (has_sib (rrc.serving (rrc_ptr c)) s) eqn:Hhas; cbn [negb].
    + destruct (s =? 1); [|destruct (s =? 12)]; run_monad; intros H;
        apply IH in H; cbn [self rrc_ptr trace] in H;
        destruct H as (new & Htr & Hcases); rewrite <- ?app_assoc in Htr;
        eexists; (split; [exact Htr|]); cbn [app filter is_si_acquirer_launch];
        (destruct Hcases as [[-> Hno]|(Hns & k & s' & Hnth & Hidx & Habs & Hsch & Hone & Hy)];
         [left; auto|right; split; [exact Hns|];
                     exists (S k), s'; rewrite Nat.add_succ_r; auto 10]).
    + destruct ((s <? 2) || is_sib_scheduled E (rrc.serving (rrc_ptr c)) s) eqn:Hcond.
      * assert (Hsch : s < 2 \/ is_sib_scheduled E (rrc.serving (rrc_ptr c)) s = true).
        { apply orb_true_iff in Hcond. destruct Hcond as [H|H]; [left|right; exact H].
          apply Z.ltb_lt in H. exact H. }
        destruct (si_acquirer_launch_ret E s) eqn:Hret; cbn [negb]; intros H;
          injection H as <- <-; cbn [self rrc_ptr trace];
          rewrite <- ?app_assoc; eexists; (split; [reflexivity|]); right;
          (split; [discriminate|]); exists 0%nat, s; rewrite Nat.add_0_r;
          cbn; rewrite ?Hret; intuition discriminate.
      * intros H. apply IH in H. destruct H as (new & Htr & Hcases).
        exists new. split; [exact Htr|].
        destruct Hcases as [[-> Hno]|(Hns & k & s' & Hnth & Hidx & Habs & Hsch & Hone & Hy)];
          [left; auto|right; split; [exact Hns|]].
        exists (S k), s'. rewrite Nat.add_succ_r. auto 10.
Qed.

(** X7: [step], when the SI acquisition waited for has completed, launches
    the SI acquisition at most once more, and only for a later required SIB
    that the serving cell does not hold and that is SIB1, SIB2 or scheduled
    in SIB1; [req_idx] then points at that SIB, and the outcome is yield if
    the launch was accepted and error if not.  It returns success only
    without a launch. *)
Theorem serving_cell_config_step_launches
  (E : env_t) (c : ctx serving_cell_config_proc.t) o c' :
  fut_is_complete (si_acquire_fut E) = true ->
  serving_cell_config_proc.step E c = Some (o, c') ->
  exists new,
    trace c' = trace c ++ new /\
    (filter is_si_acquirer_launch new = [] \/
     (o <> success /\
      exists s,
        nth_error (serving_cell_config_proc.required_sibs (self c))
                  (serving_cell_config_proc.req_idx (self c')) = Some s /\
        (serving_cell_config_proc.req_idx (self c)
         < serving_cell_config_proc.req_idx (self c'))%nat /\
        has_sib (rrc.serving (rrc_ptr c)) s = false /\
        (s < 2 \/ is_sib_scheduled E (rrc.serving (rrc_ptr c)) s = true) /\
        filter is_si_acquirer_launch new = [si_acquirer_launch s] /\
        (o = yield <-> si_acquirer_launch_ret E s = true))) /\
    (o = success -> filter is_si_acquirer_launch new = []).
Proof.
  intros Hcomplete. unfold serving_cell_config_proc.step. rewrite Hcomplete. cbn [negb].
  run_monad.
  destruct (nth_error (serving_cell_config_proc.required_sibs (self c))
                      (serving_cell_config_proc.req_idx (self c))) as [s0|] eqn:Hnth0;
    [|discriminate].
  destruct ((fut_is_error (si_acquire_fut E)
             || negb (has_sib (rrc.serving (rrc_ptr c)) s0)) && (s0 <? 2)).
  - intros H. injection H as <- <-. eexists. split; [reflexivity|].
    split; [left; reflexivity|discriminate].
  - unfold serving_cell_config_proc.launch_sib_acquire. run_monad.
    cbn [serving_cell_config_proc.set_req_idx serving_cell_config_proc.req_idx
         serving_cell_config_proc.required_sibs].
    intros H. apply launch_sib_acquire_from_calls in H.
    cbn [self rrc_ptr trace] in H.
    destruct H as (new & Htr & Hcases). exists new. split; [exact Htr|].
    destruct Hcases as [[-> Hno]|(Hns & k & s & Hnth & Hidx & Habs & Hsch & Hone & Hy)].
    + split; [left; exact Hno|intros _; exact Hno].
    + split; [|intros Ho; contradiction].
      right. split; [exact Hns|]. exists s.
      rewrite Hidx.
      rewrite nth_error_skipn in Hnth.
      split; [exact Hnth|].
      split; [lia|]. auto.
Qed.

Lemma serving_cell_config_step_launches_witness :
  let c := mk_ctx (serving_cell_config_proc.mk [0; 5; 2] 1) sample.ue [] in
  exists o c' new,
    serving_cell_config_proc.step sample.env_si_failed c = Some (o, c') /\
    trace c' = trace c ++ new /\
    (o = success -> filter is_si_acquirer_launch new = []).
Proof.
  intros c.
  assert (Hstep : serving_cell_config_proc.step sample.env_si_failed c
                  = Some (yield,
                          mk_ctx (serving_cell_config_proc.mk [0; 5; 2] 2) sample.ue
                                 [Log log_info "Cell has no SIB%d. Obtaining SIB%d";
                                  si_acquirer_launch 2]))
    by (vm_compute; reflexivity).
  destruct (serving_cell_config_step_launches sample.env_si_failed c _ _ eq_refl Hstep)
    as (new & Htr & _ & Hsucc).
  eexists. eexists. exists new. split; [exact Hstep|]. split; [exact Htr|exact Hsucc].
Defined.

(** ** Cell selection and cell search *)

(** Splits the trace of a handler result into the trace before and the
    calls made. *)
Ltac trace_new :=
  cbn [trace]; rewrite <- ?app_assoc;
  first [ eexists; split; [reflexivity|]
        | exists []; rewrite app_nil_r; split; [reflexivity|] ].

Lemma select_neighbour_none (E : env_t) (rest : list cell_t) :
  forall (idx : nat) (c : ctx cell_selection_proc.t),
    Forall (fun cell => cell_selection_criteria E (rrc_ptr c) (rsrp cell) = false) rest ->
    cell_selection_proc.select_neighbour E rest idx c
    = Some (None, mk_ctx (cell_selection_proc.set_neigh_index (self c)
                            (idx + List.length rest))
                         (rrc_ptr c) (trace c)).
Proof.
  induction rest as [|cell rest IH]; intros idx c Hall.
  - cbn [cell_selection_proc.select_neighbour]. run_monad.
    rewrite Nat.add_0_r. reflexivity.
  - inversion Hall as [|? ? Hcell Hrest]; subst.
    cbn [cell_selection_proc.select_neighbour]. run_monad. rewrite Hcell.
    rewrite (IH (S idx) c Hrest). cbn [List.length]. rewrite Nat.add_succ_r. reflexivity.
Qed.

(** X8: the loop of [start_cell_selection] over the known neighbours stops
    at the first neighbour, from [neigh_index] on, whose RSRP meets the cell
    selection criteria: [neigh_index] is left on it, it is made the serving
    cell (the previous one discarded if marked so, the mark then cleared),
    PHY is asked once to select the new serving cell, and the outcome is
    yield if PHY accepted and error if not.  When no neighbour meets the
    criteria the loop runs out with [neigh_index] past the last neighbour
    and nothing else changed. *)
Theorem select_neighbour_first_match (E : env_t) (rest : list cell_t) :
  forall (idx : nat) (c : ctx cell_selection_proc.t) res c',
    cell_selection_proc.select_neighbour E rest idx c = Some (res, c') ->
    match res with
    | None =>
        Forall (fun cell => cell_selection_criteria E (rrc_ptr c) (rsrp cell) = false) rest /\
        c' = mk_ctx (cell_selection_proc.set_neigh_index (self c) (idx + List.length rest))
                    (rrc_ptr c) (trace c)
    | Some o =>
        exists k cell,
          nth_error rest k = Some cell /\
          cell_selection_criteria E (rrc_ptr c) (rsrp cell) = true /\
          Forall (fun cell' => cell_selection_criteria E (rrc_ptr c) (rsrp cell') = false)
                 (firstn k rest) /\
          self c' = cell_selection_proc.mk cell_selection_proc.cell_selection (idx + k)
                      (cell_selection_proc.cs_result (self c)) false
                      (cell_selection_proc.serv_cell_select_attempted (self c)) /\
          rrc_ptr c' = rrc_set_serving_cell E (rrc_ptr c) (phy_cell cell)
                         (cell_selection_proc.discard_serving (self c)) /\
          exists extra,
            trace c' = trace c ++ [Log log_info "Selected cell: %s";
                                   phy_start_cell_select (phy_cell (rrc.serving (rrc_ptr c')))]
                               ++ extra /\
            ((o = yield /\ extra = [] /\
              phy_ctrl_start_cell_select E (phy_cell (rrc.serving (rrc_ptr c'))) = true) \/
             (o = error /\ extra = [Log log_error "Failed to launch PHY Cell Selection"] /\
              phy_ctrl_start_cell_select E (phy_cell (rrc.serving (rrc_ptr c'))) = false))
    end.
Proof.
  induction rest as [|cell rest IH]; intros idx c res c'.
  - cbn [cell_selection_proc.select_neighbour]. run_monad.
    intros H. injection H as <- <-. rewrite Nat.add_0_r. split; [constructor|reflexivity].
  - cbn [cell_selection_proc.select_neighbour]. run_monad.
    destruct (cell_selection_criteria E (rrc_ptr c) (rsrp cell)) eqn:Hcrit.
    + destruct (phy_ctrl_start_cell_select E _) eqn:Hphy; cbn [negb];
        intros H; injection H as <- <-;
        exists 0%nat, cell; rewrite Nat.add_0_r;
        (split; [reflexivity|]); (split; [exact Hcrit|]); (split; [constructor|]);
        cbn [self rrc_ptr trace]; (split; [reflexivity|]); (split; [reflexivity|]);
        rewrite <- ?app_assoc; eexists; (split; [reflexivity|]); [left|right]; auto.
    + intros H. apply IH in H. destruct res as [o|].
      * destruct H as (k & cell' & Hnth & Hc & Hfirst & Hself & Hrrc & Htr).
        exists (S k), cell'. rewrite Nat.add_succ_r.
        split; [exact Hnth|]. split; [exact Hc|].
        split; [cbn [firstn]; constructor; assumption|]. auto.
      * destruct H as [Hall ->]. cbn [List.length]. rewrite Nat.add_succ_r.
        split; [constructor; assumption|reflexivity].
Qed.

Lemma select_neighbour_first_match_witness :
  let c := mk_ctx (cell_selection_proc.mk cell_selection_proc.cell_selection 0 no_cell
                                          true true)
                  (rrc.set_meas_cells sample.ue
                     (mk_meas_cells sample.cell
                        [set_rsrp sample.neighbour rsrp_neg_inf; sample.neighbour]))
                  [] in
  exists c',
    cell_selection_proc.select_neighbour sample.env
      (neighbours (rrc.meas_cells (rrc_ptr c))) 0 c = Some (Some yield, c') /\
    cell_selection_proc.neigh_index (self c') = 1%nat /\
    cell_selection_proc.discard_serving (self c') = false.
Proof.
  intros c. eexists. split; [vm_compute; reflexivity|].
  pose proof (select_neighbour_first_match sample.env
                (neighbours (rrc.meas_cells (rrc_ptr c))) 0 c (Some yield) _
                ltac:(vm_compute; reflexivity)) as H.
  cbv beta iota in H.
  destruct H as (k & cell & _ & _ & _ & Hself & _).
  split; reflexivity.
Defined.

(** X9: when [init] cannot take the short cut, the RSRP of the serving cell
    does not meet the selection criteria and no known neighbour does, the
    procedure asks PHY for no cell selection and leaves the store alone: it
    launches the cell search, returns error if the launch is refused, and
    otherwise goes on as [step] does in the state [cell_search], with
    [neigh_index] past the last neighbour and the result preset to
    [no_cell]. *)
Theorem cell_selection_init_no_candidate (E : env_t) (c : ctx cell_selection_proc.t) :
  Nat.eqb (nof_neighbours (rrc.meas_cells (rrc_ptr c))) 0
  && phy_ctrl_is_in_sync E && phy_cell_is_camping E = false ->
  cell_selection_criteria E (rrc_ptr c) (rsrp (rrc.serving (rrc_ptr c))) = false ->
  Forall (fun cell => cell_selection_criteria E (rrc_ptr c) (rsrp cell) = false)
         (neighbours (rrc.meas_cells (rrc_ptr c))) ->
  exists logs,
    forallb is_log logs = true /\
    let searching st :=
      mk_ctx (cell_selection_proc.mk st (nof_neighbours (rrc.meas_cells (rrc_ptr c)))
                                     no_cell false false)
             (rrc_ptr c) (trace c ++ logs ++ [cell_searcher_launch]) in
    cell_selection_proc.init E c
    = if cell_searcher_launch_ret E
      then cell_selection_proc.step_cell_search E (searching cell_selection_proc.cell_search)
      else Some (error, searching cell_selection_proc.cell_selection).
Proof.
  intros Hfast Hserving Hnone.
  unfold cell_selection_proc.init, cell_selection_proc.start_cell_selection.
  run_monad. rewrite Hfast.
  destruct (has_sib3 (rrc.serving (rrc_ptr c)));
    [exists [Log log_info "Starting..."; Log log_info "Current neighbor cells: [%s]";
             Log log_info "Current PHY state: %s";
             Log log_info "Cell selection criteria: Qrxlevmin=%f, Qrxlevminoffset=%f";
             Log log_info "Current serving cell: %s";
             Log log_info "Could not select any known cell. Searching new cells"]
    |exists [Log log_info "Starting..."; Log log_info "Current neighbor cells: [%s]";
             Log log_info "Current PHY state: %s";
             Log log_info "Cell selection criteria: not available";
             Log log_info "Current serving cell: %s";
             Log log_info "Could not select any known cell. Searching new cells"]];
    (split; [reflexivity|]);
    cbn [self rrc_ptr trace];
    cbn [cell_selection_proc.serv_cell_select_attempted cell_selection_proc.neigh_index
         negb andb skipn];
    rewrite Hserving;
    rewrite select_neighbour_none by exact Hnone; cbn [self rrc_ptr trace Nat.add];
    cbv zeta; unfold nof_neighbours;
    destruct (cell_searcher_launch_ret E); cbn [negb];
    rewrite <- !app_assoc; cbn [app]; reflexivity.
Qed.

Lemma cell_selection_init_no_candidate_witness :
  let c := mk_ctx (cell_selection_proc.mk cell_selection_proc.cell_config 3 same_cell true true)
                  (rrc.set_meas_cells sample.ue
                     (mk_meas_cells (set_rsrp sample.cell rsrp_nan)
                                    [set_rsrp sample.neighbour rsrp_neg_inf]))
                  [] in
  exists logs,
    cell_selection_proc.init sample.env c
    = Some (yield,
            mk_ctx (cell_selection_proc.mk cell_selection_proc.cell_search 1 no_cell
                                           false false)
                   (rrc_ptr c) (logs ++ [cell_searcher_launch; cell_searcher_run])).
Proof.
  intros c.
  destruct (cell_selection_init_no_candidate sample.env c) as (logs & _ & Hinit).
  - reflexivity.
  - reflexivity.
  - repeat constructor.
  - exists logs. rewrite Hinit. cbn. rewrite <- app_assoc. reflexivity.
Defined.

(** X10: [cell_search_proc::step] never changes the [rrc] object; it returns
    success only when the serving cell has a normal RSRP and holds SIB1, or
    the SI acquisition it waits for has completed without error; and it
    launches the SI acquisition only for SIB1 (index 0), from the state
    [wait_measurement], once the RSRP is normal and SIB1 is missing. *)
Theorem cell_search_step_outcomes (E : env_t) (c : ctx cell_search_proc.t) o c' :
  cell_search_proc.step E c = Some (o, c') ->
  rrc_ptr c' = rrc_ptr c /\
  (o = success ->
   (cell_search_proc.state (self c) = cell_search_proc.wait_measurement /\
    isnormal (rsrp (rrc.serving (rrc_ptr c))) = true /\
    (has_sib1 (rrc.serving (rrc_ptr c)) = true \/
     fut_is_success (si_acquire_fut E) = true)) \/
   (cell_search_proc.state (self c) = cell_search_proc.si_acquire /\
    fut_is_success (si_acquire_fut E) = true)) /\
  exists new,
    trace c' = trace c ++ new /\
    forall a, In a new -> is_si_acquirer_launch a = true ->
              a = si_acquirer_launch 0 /\
              cell_search_proc.state (self c) = cell_search_proc.wait_measurement /\
              isnormal (rsrp (rrc.serving (rrc_ptr c))) = true /\
              has_sib1 (rrc.serving (rrc_ptr c)) = false.
Proof.
  destruct c as [p r tr].
  unfold cell_search_proc.step, cell_search_proc.step_wait_measurement,
    cell_search_proc.step_si_acquire.
  run_monad. intros H. cbn [self rrc_ptr trace] in H.
  destruct (cell_search_proc.state p) eqn:Hstate; cbv beta iota in H;
    cbn [self rrc_ptr trace] in H.
  - injection H as Ho Hc. subst o c'. split; [reflexivity|]. split; [discriminate|].
    trace_new. intros a [].
  - injection H as <- <-. split; [reflexivity|]. split; [discriminate|].
    trace_new. intros a [].
  - destruct (si_acquire_fut E) as [| []|] eqn:Hf; cbn in H; injection H as <- <-;
      (split; [reflexivity|]);
      (split; [try discriminate; intros _; right; auto|]);
      trace_new; intros a Hin Hl; cbn in Hin;
      repeat (destruct Hin as [<-|Hin]; [try discriminate Hl; auto|]); destruct Hin.
  - destruct (isnormal (rsrp (rrc.serving r))) eqn:Hnorm; cbn [negb] in H;
      cbv beta iota in H.
    2:{ injection H as <- <-. split; [reflexivity|]. split; [discriminate|].
        trace_new. intros a []. }
    destruct (has_sib1 (rrc.serving r)) eqn:Hsib1; cbv beta iota in H.
    { injection H as <- <-. split; [reflexivity|]. split; [intros _; left; auto|].
      trace_new. intros a Hin Hl. cbn in Hin.
      destruct Hin as [<-|[]]. discriminate Hl. }
    cbn [self rrc_ptr trace] in H.
    destruct (si_acquirer_launch_ret E 0); cbn [negb] in H; cbv beta iota in H.
    + cbn [self rrc_ptr trace cell_search_proc.set_state] in H.
      destruct (si_acquire_fut E) as [| []|] eqn:Hf; cbn in H; injection H as <- <-;
        (split; [reflexivity|]);
        (split; [try discriminate; intros _; left; auto|]);
        trace_new; intros a Hin Hl; cbn in Hin;
        repeat (destruct Hin as [<-|Hin]; [try discriminate Hl; auto|]); destruct Hin.
    + injection H as <- <-. split; [reflexivity|]. split; [discriminate|].
      trace_new. intros a Hin Hl. cbn in Hin.
      repeat (destruct Hin as [<-|Hin]; [try discriminate Hl; auto|]). destruct Hin.
Qed.

Lemma cell_search_step_outcomes_witness :
  let c := mk_ctx (cell_search_proc.mk cell_search_proc.wait_measurement
                     (mk_cell_srch_res (mk_cell_search_ret CELL_FOUND MORE_FREQS)
                                       (mk_phy_cell 1 2850)))
                  sample.ue [] in
  cell_search_proc.step sample.env c
  = Some (success, logged c log_info "Cell has SIB1") /\
  isnormal (rsrp (rrc.serving (rrc_ptr c))) = true.
Proof.
  intros c.
  assert (Hstep : cell_search_proc.step sample.env c
                  = Some (success, logged c log_info "Cell has SIB1")) by reflexivity.
  split; [exact Hstep|].
  destruct (cell_search_step_outcomes sample.env c _ _ Hstep) as (_ & Hsucc & _).
  destruct (Hsucc eq_refl) as [(_ & Hnorm & _)|(Habs & _)]; [exact Hnorm|discriminate Habs].
Defined.

(** ** Further properties of the connection request *)

(** X11: [connection_request_proc::init] never returns success and writes
    nothing to the [rrc] object itself: the object is left as it was, or,
    when the cell selection is launched, as the launched cell selection
    leaves it.  It launches the cell selection exactly when a PLMN is
    selected, RRC is IDLE, T302 is not running and no cell selection is
    already on-going; it yields exactly under the first three conditions
    unless the launch is refused; and it sets the NAS barring for
    mobile-originated data exactly when T302 is found running. *)
Theorem connection_request_init_preconditions
  (E : env_t) (A : answers) (cause_ : Z) (sdu : option byte_buffer_t)
  (c : ctx connection_request_proc.t) o c' :
  connection_request_proc.init E A cause_ sdu c = Some (o, c') ->
  let ready := rrc.plmn_is_selected (rrc_ptr c)
               && rrc_state_eqb (rrc.state (rrc_ptr c)) RRC_STATE_IDLE in
  let launches := ready && negb (timer.is_running (rrc.t302 (rrc_ptr c)))
                  && cell_selector_is_idle E in
  o <> success /\
  rrc_ptr c' = (if launches then snd (cell_selector_launch_does A (rrc_ptr c))
                else rrc_ptr c) /\
  connection_request_proc.cause (self c') = cause_ /\
  connection_request_proc.dedicated_info_nas (self c') = sdu /\
  exists new,
    trace c' = trace c ++ new /\
    existsb is_cell_selector_launch new = launches /\
    (In nas_set_barring_mo_data new <->
     ready && timer.is_running (rrc.t302 (rrc_ptr c)) = true) /\
    (o = yield <->
     ready && negb (timer.is_running (rrc.t302 (rrc_ptr c)))
     && (negb (cell_selector_is_idle E)
         || fst (cell_selector_launch_does A (rrc_ptr c))) = true) /\
    (o = yield ->
     connection_request_proc.state (self c') = connection_request_proc.cell_selection /\
     connection_request_proc.cs_ret (self c') = no_cell).
Proof.
  destruct c as [p r tr]. unfold connection_request_proc.init, through. run_monad.
  intros H. cbv zeta. cbn [rrc_ptr trace].
  destruct (rrc.plmn_is_selected r); cbn [negb andb] in *.
  2:{ injection H as <- <-. cbn [self rrc_ptr trace connection_request_proc.cause
                                 connection_request_proc.dedicated_info_nas
                                 connection_request_proc.set_cause
                                 connection_request_proc.set_dedicated_info_nas].
      repeat (split; [try discriminate; reflexivity|]).
      trace_new. cbn. intuition discriminate. }
  destruct (rrc.state r); cbn [rrc_state_eqb negb andb] in *.
  2:{ injection H as <- <-. cbn [self rrc_ptr trace connection_request_proc.cause
                                 connection_request_proc.dedicated_info_nas
                                 connection_request_proc.set_cause
                                 connection_request_proc.set_dedicated_info_nas].
      repeat (split; [try discriminate; reflexivity|]).
      trace_new. cbn. intuition discriminate. }
  unfold timer.is_running in *.
  destruct (timer.running (rrc.t302 r)); cbn [negb andb] in *.
  { injection H as <- <-. cbn [self rrc_ptr trace connection_request_proc.cause
                               connection_request_proc.dedicated_info_nas
                               connection_request_proc.set_cause
                               connection_request_proc.set_dedicated_info_nas].
    repeat (split; [try discriminate; reflexivity|]).
    trace_new. cbn. intuition discriminate. }
  destruct (cell_selector_is_idle E); cbn [negb andb orb] in *.
  - cbv beta iota in H. cbn [self rrc_ptr trace] in H.
    revert H. destruct (cell_selector_launch_does A r) as [launched r1].
    cbn [fst snd]. intros H.
    destruct launched; cbv beta iota in H; cbn [negb fst snd self rrc_ptr trace] in H;
      cbv beta iota in H; cbn [negb fst snd self rrc_ptr trace] in H;
      injection H as <- <-;
      cbn [self rrc_ptr trace connection_request_proc.cause
           connection_request_proc.dedicated_info_nas connection_request_proc.state
           connection_request_proc.cs_ret connection_request_proc.set_state
           connection_request_proc.set_cs_ret
           connection_request_proc.set_cause
           connection_request_proc.set_dedicated_info_nas];
      repeat (split; [try discriminate; reflexivity|]);
      trace_new; cbn; intuition discriminate.
  - injection H as <- <-.
    cbn [self rrc_ptr trace connection_request_proc.cause
         connection_request_proc.dedicated_info_nas connection_request_proc.state
         connection_request_proc.cs_ret connection_request_proc.set_state
         connection_request_proc.set_cs_ret
         connection_request_proc.set_cause
         connection_request_proc.set_dedicated_info_nas].
    repeat (split; [try discriminate; reflexivity|]).
    trace_new. cbn. intuition discriminate.
Qed.

Lemma connection_request_init_preconditions_witness :
  let c := mk_ctx (connection_request_proc.mk connection_request_proc.wait_t300 0 None
                                              same_cell) sample.ue [] in
  let A := mk_answers true true (fun r => r)
             (fun r => (true, rrc.set_meas_cells r
                                (mk_meas_cells sample.neighbour [sample.cell])))
             (fun r => (false, r)) fut_pending
             (fun r => (true, r)) (fun r => (false, r))
             (fun _ r => (true, r)) (fun r => (false, r))
             70 (fun _ => false) 11 in
  exists c',
    connection_request_proc.init sample.env A 3 (Some [1; 2]) c = Some (yield, c') /\
    connection_request_proc.state (self c') = connection_request_proc.cell_selection /\
    connection_request_proc.dedicated_info_nas (self c') = Some [1; 2] /\
    rrc.serving (rrc_ptr c') = sample.neighbour.
Proof.
  intros c A. eexists. split; [vm_compute; reflexivity|].
  destruct (connection_request_init_preconditions sample.env A 3 (Some [1; 2]) c yield _
              ltac:(vm_compute; reflexivity))
    as (_ & Hrrc & _ & Hsdu & new & _ & _ & _ & _ & Hyield).
  destruct (Hyield eq_refl) as [Hstate _].
  split; [exact Hstate|]. split; [exact Hsdu|].
  rewrite Hrrc. reflexivity.
Defined.

(** X12: in the state [config_serving_cell], once the serving-cell
    configuration has finished without error, [step] starts T300, sends the
    connection request exactly once, with the cause given to [init], hands the
    dedicated NAS SDU of the procedure (if any) over to RRC, replacing one
    still queued there, and yields in the state [wait_t300]. *)
Theorem connection_request_config_done (E : env_t) (c : ctx connection_request_proc.t) :
  connection_request_proc.state (self c) = connection_request_proc.config_serving_cell ->
  serv_cell_cfg_run_ret E = false ->
  fut_is_error (serv_cfg_fut E) = false ->
  exists c' logs,
    connection_request_proc.step E c = Some (yield, c') /\
    self c'
    = connection_request_proc.mk connection_request_proc.wait_t300
        (connection_request_proc.cause (self c)) None
        (connection_request_proc.cs_ret (self c)) /\
    timer.is_running (rrc.t300 (rrc_ptr c')) = true /\
    rrc.dedicated_info_nas (rrc_ptr c')
    = match connection_request_proc.dedicated_info_nas (self c) with
      | Some sdu => Some sdu
      | None => rrc.dedicated_info_nas (rrc_ptr c)
      end /\
    rrc.state (rrc_ptr c') = rrc.state (rrc_ptr c) /\
    trace c' = trace c ++ [serv_cell_cfg_run;
                           rrc_send_con_request (connection_request_proc.cause (self c))]
                       ++ logs /\
    forallb is_log logs = true.
Proof.
  intros Hstate Hrun Herr. destruct c as [p r tr]. cbn [self rrc_ptr trace] in *.
  unfold connection_request_proc.step, connection_request_proc.step_config_serving_cell,
    connection_request_proc.step_wait_t300.
  run_monad. rewrite Hstate, Hrun, Herr.
  destruct p as [st cause_ sdu csr]. cbn in Hstate. subst st.
  cbn [connection_request_proc.dedicated_info_nas connection_request_proc.cause
       connection_request_proc.cs_ret].
  destruct sdu as [sdu|]; [destruct (rrc.dedicated_info_nas r) as [old|] eqn:Hold|];
    cbn; rewrite ?Hold; cbn;
    eexists; eexists; (split; [reflexivity|]); cbn;
    repeat (split; [reflexivity|]);
    rewrite <- ?app_assoc; (split; [reflexivity|reflexivity]).
Qed.

Lemma connection_request_config_done_witness :
  let c := mk_ctx (connection_request_proc.mk connection_request_proc.config_serving_cell 3
                                              (Some [1; 2]) changed_cell)
                  (rrc.set_dedicated_info_nas sample.ue (Some [9])) [] in
  let E := mk_env 0 true true true (fun _ => true) (fun _ => true) (fun _ => true)
                  fut_pending true false (fut_value tt) true true fut_pending true true
                  (fun _ _ => false) (fun _ r => isnormal r)
                  (fun mc _ => (true, mc)) (fun mc _ _ => mc) (fun r _ _ => r) true in
  exists c',
    connection_request_proc.step E c = Some (yield, c') /\
    timer.is_running (rrc.t300 (rrc_ptr c')) = true /\
    rrc.dedicated_info_nas (rrc_ptr c') = Some [1; 2].
Proof.
  intros c E.
  destruct (connection_request_config_done E c eq_refl eq_refl eq_refl)
    as (c' & logs & Hstep & _ & Hrun & Hsdu & _).
  exists c'. split; [exact Hstep|]. split; [exact Hrun|exact Hsdu].
Defined.

(** ** Further properties of the paging procedure *)

(** Records that do not page the UE, or that arrive while RRC is not
    IDLE, are passed over with lines in the log only. *)
Lemma walk_records_skip (E : env_t) (pre rest : list s_tmsi_t) :
  forall (idx : nat) (c : ctx process_pcch_proc.t),
    (rrc.state (rrc_ptr c) <> RRC_STATE_IDLE \/
     Forall (fun s => s_tmsi_eqb (rrc.ue_identity (rrc_ptr c)) s = false) pre) ->
    exists logs,
      forallb is_log logs = true /\
      process_pcch_proc.walk_records E (pre ++ rest) idx c
      = process_pcch_proc.walk_records E rest (idx + List.length pre)
          (mk_ctx (self c) (rrc_ptr c) (trace c ++ logs)).
Proof.
  induction pre as [|s pre IH]; intros idx c Hskip.
  - exists []. split; [reflexivity|]. cbn [app List.length].
    rewrite Nat.add_0_r, app_nil_r. destruct c; reflexivity.
  - cbn [app process_pcch_proc.walk_records]. run_monad.
    assert (Hpre : rrc.state (rrc_ptr c) <> RRC_STATE_IDLE \/
                   Forall (fun s => s_tmsi_eqb (rrc.ue_identity (rrc_ptr c)) s = false) pre).
    { destruct Hskip as [H|H]; [left; exact H|right; inversion H; assumption]. }
    destruct (s_tmsi_eqb (rrc.ue_identity (rrc_ptr c)) s) eqn:Hs.
    + destruct (rrc.state (rrc_ptr c)) eqn:Hst.
      * exfalso. destruct Hskip as [H|H]; [congruence|].
        inversion H; subst. congruence.
      * cbn [rrc_state_eqb]. run_monad.
        match goal with
        | |- context [process_pcch_proc.walk_records E (pre ++ rest) (S idx) ?c1] =>
            destruct (IH (S idx) c1) as (logs & Hlogs & Hwalk)
        end.
        { cbn [rrc_ptr]. rewrite Hst. left. discriminate. }
        rewrite Hwalk. cbn [self rrc_ptr trace List.length].
        rewrite <- !app_assoc, Nat.add_succ_r. eexists. split; [|reflexivity].
        cbn. exact Hlogs.
    + match goal with
      | |- context [process_pcch_proc.walk_records E (pre ++ rest) (S idx) ?c1] =>
          destruct (IH (S idx) c1 Hpre) as (logs & Hlogs & Hwalk)
      end.
      rewrite Hwalk. cbn [self rrc_ptr trace List.length].
      rewrite <- !app_assoc, Nat.add_succ_r. eexists. split; [|reflexivity].
      cbn. exact Hlogs.
Qed.

(** X13: while RRC is not IDLE, a paging message never makes the procedure
    invoke NAS paging, whatever its records: all records are passed over,
    and the procedure never waits for NAS. *)
Theorem pcch_not_idle_never_pages
  (E : env_t) (paging_ : paging_s) (c : ctx process_pcch_proc.t) o c' :
  rrc.state (rrc_ptr c) <> RRC_STATE_IDLE ->
  process_pcch_proc.init E paging_ c = Some (o, c') ->
  process_pcch_proc.paging_idx (self c') = List.length (paging_record_list paging_) /\
  process_pcch_proc.state (self c') <> process_pcch_proc.nas_paging /\
  (o = success -> sys_info_mod_present paging_ = false \/
                  fut_is_success (serv_cfg_fut E) = true) /\
  exists new, trace c' = trace c ++ new /\ existsb is_nas_paging new = false.
Proof.
  intros Hst.
  unfold process_pcch_proc.init, process_pcch_proc.step, process_pcch_proc.step_next_record,
    process_pcch_proc.step_serv_cell_cfg.
  run_monad.
  unfold process_pcch_proc.set_state, process_pcch_proc.set_paging_idx,
    process_pcch_proc.set_paging.
  cbn [self rrc_ptr trace process_pcch_proc.state process_pcch_proc.paging
       process_pcch_proc.paging_idx skipn].
  match goal with
  | |- context [process_pcch_proc.walk_records E _ 0%nat ?c1] =>
      destruct (walk_records_skip E (paging_record_list paging_) [] 0%nat c1)
        as (logs & Hlogs & Hwalk)
  end.
  { left. exact Hst. }
  rewrite app_nil_r in Hwalk. rewrite Hwalk.
  cbn [process_pcch_proc.walk_records]. run_monad.
  unfold process_pcch_proc.set_paging_idx.
  cbn [self rrc_ptr trace process_pcch_proc.state process_pcch_proc.paging
       process_pcch_proc.paging_idx Nat.add].
  destruct (logs_make_no_call _ Hlogs) as (Hnas & _).
  intros H.
  destruct (sys_info_mod_present paging_); cbv beta iota in H; cbn [self rrc_ptr trace] in H.
  - destruct (serv_cell_cfg_launch_ret E); cbn [negb] in H; cbv beta iota in H;
      cbn [self rrc_ptr trace] in H.
    + destruct (serv_cell_cfg_run_ret E); cbv beta iota in H;
        [|destruct (fut_is_success (serv_cfg_fut E)) eqn:Hf; cbv beta iota in H];
        injection H as <- <-; cbn [self process_pcch_proc.paging_idx process_pcch_proc.state];
        (split; [reflexivity|]); (split; [discriminate|]);
        (split; [try discriminate; auto|]);
        cbn [trace]; rewrite <- ?app_assoc; eexists; (split; [reflexivity|]);
        cbn [existsb app is_nas_paging orb]; rewrite existsb_app, Hnas; reflexivity.
    + injection H as <- <-. cbn [self process_pcch_proc.paging_idx process_pcch_proc.state].
      split; [reflexivity|]. split; [discriminate|]. split; [discriminate|].
      cbn [trace]. rewrite <- ?app_assoc. eexists. split; [reflexivity|].
      cbn [existsb app is_nas_paging orb]. rewrite existsb_app, Hnas. reflexivity.
  - injection H as <- <-. cbn [self process_pcch_proc.paging_idx process_pcch_proc.state].
    split; [reflexivity|]. split; [discriminate|]. split; [auto|].
    cbn [trace]. rewrite <- ?app_assoc. eexists. split; [reflexivity|].
    cbn [existsb app is_nas_paging orb]. rewrite existsb_app, Hnas. reflexivity.
Qed.

Lemma pcch_not_idle_never_pages_witness :
  let c := mk_ctx (process_pcch_proc.mk (mk_paging [] false) 0 process_pcch_proc.next_record)
                  sample.connected_ue [] in
  exists c' new,
    process_pcch_proc.init sample.env (mk_paging [mk_s_tmsi 1 42] false) c
    = Some (success, c') /\
    trace c' = trace c ++ new /\ existsb is_nas_paging new = false.
Proof.
  intros c. eexists.
  assert (Hinit : process_pcch_proc.init sample.env (mk_paging [mk_s_tmsi 1 42] false) c
                  = Some (success,
                          mk_ctx (process_pcch_proc.mk (mk_paging [mk_s_tmsi 1 42] false) 1
                                                       process_pcch_proc.next_record)
                                 sample.connected_ue
                                 [Log log_info "starting...";
                                  Log log_info "Received paging (%d/%d) for UE %lu:%lu";
                                  Log log_warning "Received paging while in CONNECT";
                                  Log log_info "Completed successfully"]))
    by (vm_compute; reflexivity).
  destruct (pcch_not_idle_never_pages sample.env _ c _ _ ltac:(discriminate) Hinit)
    as (_ & _ & _ & new & Htr & Hnew).
  exists new. split; [exact Hinit|]. split; [exact Htr|exact Hnew].
Defined.

(** X14: while RRC is IDLE, the procedure invokes NAS paging for the first
    record that carries the S-TMSI of the UE, and for that one only: it
    stops there with [paging_idx] on the record, and yields in the state
    [nas_paging] if NAS accepted, or returns error if not.  The [rrc] object
    is not changed. *)
Theorem pcch_pages_first_match
  (E : env_t) (pre post : list s_tmsi_t) (s : s_tmsi_t) (sys_info_mod : bool)
  (c : ctx process_pcch_proc.t) :
  rrc.state (rrc_ptr c) = RRC_STATE_IDLE ->
  Forall (fun s' => s_tmsi_eqb (rrc.ue_identity (rrc_ptr c)) s' = false) pre ->
  s_tmsi_eqb (rrc.ue_identity (rrc_ptr c)) s = true ->
  let paging_ := mk_paging (pre ++ s :: post) sys_info_mod in
  exists new,
    process_pcch_proc.init E paging_ c
    = Some (if nas_paging_ret E s then yield else error,
            mk_ctx (process_pcch_proc.mk paging_ (List.length pre)
                      (if nas_paging_ret E s then process_pcch_proc.nas_paging
                       else process_pcch_proc.next_record))
                   (rrc_ptr c) (trace c ++ new)) /\
    filter is_nas_paging new = [nas_page s] /\
    existsb is_serv_cell_cfg_launch new = false.
Proof.
  intros Hst Hpre Hs. cbv zeta.
  unfold process_pcch_proc.init, process_pcch_proc.step, process_pcch_proc.step_next_record.
  run_monad.
  unfold process_pcch_proc.set_state, process_pcch_proc.set_paging_idx,
    process_pcch_proc.set_paging.
  cbn [self rrc_ptr trace process_pcch_proc.state process_pcch_proc.paging
       process_pcch_proc.paging_idx skipn paging_record_list].
  match goal with
  | |- context [process_pcch_proc.walk_records E _ 0%nat ?c1] =>
      destruct (walk_records_skip E pre (s :: post) 0%nat c1)
        as (logs & Hlogs & Hwalk)
  end.
  { right. exact Hpre. }
  rewrite Hwalk. cbn [process_pcch_proc.walk_records]. run_monad.
  cbn [self rrc_ptr trace Nat.add]. rewrite Hs, Hst. cbn [rrc_state_eqb].
  assert (Hfilter : filter is_nas_paging logs = []).
  { clear -Hlogs. induction logs as [|a l IH]; [reflexivity|].
    cbn in Hlogs. apply andb_true_iff in Hlogs. destruct Hlogs as [Ha Hl].
    destruct a; try discriminate. cbn. auto. }
  destruct (logs_make_no_call _ Hlogs) as (_ & Hcfg & _).
  destruct (nas_paging_ret E s); cbn [negb]; cbv beta iota;
    unfold process_pcch_proc.set_paging_idx, process_pcch_proc.set_state;
    cbn [self rrc_ptr trace process_pcch_proc.state process_pcch_proc.paging
         process_pcch_proc.paging_idx];
    rewrite <- ?app_assoc; eexists; (split; [reflexivity|]);
    cbn [app filter is_nas_paging existsb is_serv_cell_cfg_launch orb];
    rewrite filter_app, existsb_app, Hfilter, Hcfg; split; reflexivity.
Qed.

Lemma pcch_pages_first_match_witness :
  let c := mk_ctx (process_pcch_proc.mk (mk_paging [] false) 0 process_pcch_proc.next_record)
                  sample.ue [] in
  exists new,
    process_pcch_proc.init sample.env
      (mk_paging ([mk_s_tmsi 1 41] ++ mk_s_tmsi 1 42 :: [mk_s_tmsi 1 42]) true) c
    = Some (yield,
            mk_ctx (process_pcch_proc.mk
                      (mk_paging ([mk_s_tmsi 1 41] ++ mk_s_tmsi 1 42 :: [mk_s_tmsi 1 42]) true)
                      1 process_pcch_proc.nas_paging)
                   sample.ue new) /\
    filter is_nas_paging new = [nas_page (mk_s_tmsi 1 42)].
Proof.
  intros c.
  destruct (pcch_pages_first_match sample.env [mk_s_tmsi 1 41] [mk_s_tmsi 1 42]
              (mk_s_tmsi 1 42) true c)
    as (new & Hinit & Hfilter & _).
  - reflexivity.
  - repeat constructor.
  - reflexivity.
  - exists new. split; [exact Hinit|exact Hfilter].
Defined.

(** X15: once NAS reports the paging complete, the procedure resumes after
    the record it stopped on: when no later record carries the S-TMSI of
    the UE and the message announces no system information modification, it
    completes with success without paging NAS again; when NAS reports a
    failure it returns error. *)
Theorem pcch_resumes_after_nas
  (E : env_t) (pre post : list s_tmsi_t) (s : s_tmsi_t) (c : ctx process_pcch_proc.t) :
  process_pcch_proc.state (self c) = process_pcch_proc.nas_paging ->
  paging_record_list (process_pcch_proc.paging (self c)) = pre ++ s :: post ->
  process_pcch_proc.paging_idx (self c) = List.length pre ->
  sys_info_mod_present (process_pcch_proc.paging (self c)) = false ->
  Forall (fun s' => s_tmsi_eqb (rrc.ue_identity (rrc_ptr c)) s' = false) post ->
  (exists logs,
      process_pcch_proc.react E (process_pcch_proc.mk_paging_complete true) c
      = Some (success,
              mk_ctx (process_pcch_proc.mk (process_pcch_proc.paging (self c))
                        (List.length (pre ++ s :: post)) process_pcch_proc.next_record)
                     (rrc_ptr c) (trace c ++ logs)) /\
      forallb is_log logs = true) /\
  process_pcch_proc.react E (process_pcch_proc.mk_paging_complete false) c
  = Some (error, logged c log_info "NAS Paging has failed").
Proof.
  intros Hstate Hlist Hidx Hmod Hpost. destruct c as [[pg idx st] r tr].
  cbn [self rrc_ptr trace process_pcch_proc.state process_pcch_proc.paging
       process_pcch_proc.paging_idx] in *. subst st idx.
  split; [|reflexivity].
  unfold process_pcch_proc.react, process_pcch_proc.step, process_pcch_proc.step_next_record.
  run_monad.
  cbn [process_pcch_proc.state process_pcch_proc.state_eqb negb
       process_pcch_proc.outcome process_pcch_proc.set_state process_pcch_proc.set_paging_idx
       process_pcch_proc.paging process_pcch_proc.paging_idx].
  unfold process_pcch_proc.set_state, process_pcch_proc.set_paging_idx.
  cbn [self rrc_ptr trace process_pcch_proc.state process_pcch_proc.paging
       process_pcch_proc.paging_idx].
  rewrite Hlist.
  assert (Hskip : skipn (S (List.length pre)) (pre ++ s :: post) = post).
  { clear. induction pre as [|x pre IH]; [reflexivity|exact IH]. }
  rewrite Hskip.
  match goal with
  | |- context [process_pcch_proc.walk_records E post ?i ?c1] =>
      destruct (walk_records_skip E post [] i c1) as (logs & Hlogs & Hwalk)
  end.
  { right. exact Hpost. }
  rewrite app_nil_r in Hwalk. rewrite Hwalk.
  cbn [process_pcch_proc.walk_records]. run_monad.
  cbn [self rrc_ptr trace process_pcch_proc.paging process_pcch_proc.set_paging_idx
       process_pcch_proc.paging_idx process_pcch_proc.state].
  rewrite Hmod. unfold process_pcch_proc.set_paging_idx.
  cbn [self rrc_ptr trace process_pcch_proc.paging process_pcch_proc.paging_idx
       process_pcch_proc.state].
  exists ([Log log_info "Received paging complete event"] ++ logs
          ++ [Log log_info "Completed successfully"]).
  rewrite <- !app_assoc. split.
  - rewrite length_app. cbn [List.length]. rewrite Nat.add_succ_r. reflexivity.
  - cbn. rewrite forallb_app, Hlogs. reflexivity.
Qed.

Lemma pcch_resumes_after_nas_witness :
  let pg := mk_paging ([mk_s_tmsi 1 41] ++ mk_s_tmsi 1 42 :: [mk_s_tmsi 3 3]) false in
  let c := mk_ctx (process_pcch_proc.mk pg 1 process_pcch_proc.nas_paging) sample.ue [] in
  exists logs,
    process_pcch_proc.react sample.env (process_pcch_proc.mk_paging_complete true) c
    = Some (success,
            mk_ctx (process_pcch_proc.mk pg 3 process_pcch_proc.next_record) sample.ue logs).
Proof.
  intros pg c.
  destruct (pcch_resumes_after_nas sample.env [mk_s_tmsi 1 41] [mk_s_tmsi 3 3]
              (mk_s_tmsi 1 42) c eq_refl eq_refl eq_refl eq_refl)
    as [(logs & Hreact & _) _].
  - repeat constructor.
  - exists logs. exact Hreact.
Defined.

(** ** Further properties of the handover *)

Lemma find_neighbour_sound (l : list cell_t) (e p : Z) :
  forall i, find_neighbour l e p = Some i ->
            exists cell, nth_error l i = Some cell /\
                         earfcn (phy_cell cell) = e /\ pci (phy_cell cell) = p.
Proof.
  induction l as [|c l IH]; intros i H; cbn in H; [discriminate|].
  destruct ((earfcn (phy_cell c) =? e) && (pci (phy_cell c) =? p)) eqn:Hc.
  - injection H as <-. apply andb_true_iff in Hc. destruct Hc as [He Hp].
    apply Z.eqb_eq in He, Hp. exists c. auto.
  - destruct (find_neighbour l e p) as [j|]; [|discriminate].
    injection H as <-. exact (IH j eq_refl).
Qed.

Lemma update_nth_same {A} (f : A -> A) (l : list A) :
  forall i x, nth_error l i = Some x -> nth_error (update_nth l i f) i = Some (f x).
Proof.
  induction l as [|y l IH]; intros [|i] x H; cbn in *; try discriminate.
  - injection H as <-. reflexivity.
  - exact (IH i x H).
Qed.

Lemma update_nth_other {A} (f : A -> A) (l : list A) :
  forall i j, i <> j -> nth_error (update_nth l i f) j = nth_error l j.
Proof.
  induction l as [|y l IH]; intros [|i] [|j] H; cbn; try reflexivity; try congruence.
  apply IH. congruence.
Qed.

(** X16: while RRC is CONNECTED, [ho_proc::step] acts only in the state
    [launch_phy_cell_select]: it reestablishes PDCP and RLC, waits for the
    uplink, clears the RNTIs, resets MAC and PHY, sets the handover RNTI and
    applies the common (and, if present, the dedicated) radio configuration,
    in that order, and then asks PHY to select the neighbour cell that has
    the PCI and EARFCN of the handover target; it yields in the state
    [wait_phy_cell_select_complete] if PHY accepted and returns error if
    not.  In the other states it yields without any call. *)
Theorem ho_step_launches_cell_select (E : env_t) (c : ctx ho_proc.t) :
  rrc.state (rrc_ptr c) = RRC_STATE_CONNECTED ->
  (ho_proc.state (self c) <> ho_proc.launch_phy_cell_select ->
   ho_proc.step E c = Some (yield, c)) /\
  (ho_proc.state (self c) = ho_proc.launch_phy_cell_select ->
   forall o c',
     ho_proc.step E c = Some (o, c') ->
     let mci := mob_ctrl_info (ho_proc.recfg_r8 (self c)) in
     exists target tail,
       In target (neighbours (rrc.meas_cells (rrc_ptr c))) /\
       earfcn (phy_cell target) = ho_proc.target_earfcn (self c) /\
       pci (phy_cell target) = target_pci mci /\
       rrc_ptr c' = rrc_ptr c /\
       trace c'
       = trace c
         ++ [pdcp_reestablish; rlc_reestablish; mac_wait_uplink; mac_clear_rntis;
             mac_reset; phy_reset; mac_set_ho_rnti (new_ue_id mci) (target_pci mci);
             rrc_apply_rr_config_common (negb (rr_cfg_ded_present (ho_proc.recfg_r8 (self c))))]
         ++ (if rr_cfg_ded_present (ho_proc.recfg_r8 (self c))
             then [rrc_apply_rr_config_dedicated] else [])
         ++ [Log log_info "Starting cell selection of target cell %s";
             phy_start_cell_select (phy_cell target)]
         ++ tail /\
       ((o = yield /\ tail = [] /\
         ho_proc.state (self c') = ho_proc.wait_phy_cell_select_complete /\
         phy_ctrl_start_cell_select E (phy_cell target) = true) \/
        (o = error /\
         tail = [Log log_error "Failed to launch the selection of target cell %s"] /\
         ho_proc.state (self c') = ho_proc.launch_phy_cell_select /\
         phy_ctrl_start_cell_select E (phy_cell target) = false))).
Proof.
  intros Hconn. destruct c as [p r tr]. cbn [self rrc_ptr trace] in *.
  unfold ho_proc.step. run_monad. rewrite Hconn. cbn [rrc_state_eqb negb].
  split.
  - intros Hs. destruct (ho_proc.state p); cbn; try reflexivity; congruence.
  - intros Hs o c'. rewrite Hs. cbn [ho_proc.state_eqb]. cbv zeta.
    destruct (rr_cfg_ded_present (ho_proc.recfg_r8 p)) eqn:Hded; cbn [negb];
      cbv beta iota; cbn [self rrc_ptr trace];
      (destruct (find_neighbour (neighbours (rrc.meas_cells r)) (ho_proc.target_earfcn p)
                                (target_pci (mob_ctrl_info (ho_proc.recfg_r8 p))))
         as [i|] eqn:Hfind; [|discriminate]);
      destruct (find_neighbour_sound _ _ _ _ Hfind) as (target & Hnth & He & Hp);
      rewrite Hnth;
      (destruct (phy_ctrl_start_cell_select E (phy_cell target)) eqn:Hphy; cbn [negb];
       intros H; injection H as <- <-;
       eexists target, _; (split; [exact (nth_error_In _ _ Hnth)|]);
       (split; [exact He|]); (split; [exact Hp|]); (split; [reflexivity|]);
       cbn [trace self ho_proc.state ho_proc.set_state]; rewrite <- ?app_assoc;
       cbn [app]; (split; [reflexivity|]); [left|right]; rewrite ?Hs; auto).
Qed.

Lemma ho_step_launches_cell_select_witness :
  let c := mk_ctx (ho_proc.mk ho_proc.launch_phy_cell_select sample.recfg 2850 sample.cell 70)
                  sample.connected_ue [] in
  exists c' target,
    ho_proc.step sample.env c = Some (yield, c') /\
    pci (phy_cell target) = 2 /\
    In (phy_start_cell_select (phy_cell target)) (trace c').
Proof.
  intros c.
  assert (Hstep : exists c', ho_proc.step sample.env c = Some (yield, c'))
    by (eexists; vm_compute; reflexivity).
  destruct Hstep as [c' Hstep].
  destruct (ho_step_launches_cell_select sample.env c eq_refl) as [_ Hlaunch].
  destruct (Hlaunch eq_refl yield c' Hstep)
    as (target & tail & _ & _ & Hpci & _ & Htr & _).
  exists c', target. split; [exact Hstep|]. split; [exact Hpci|].
  rewrite Htr. rewrite !in_app_iff. right. right. right. left. cbn. auto.
Defined.

(** X17: when PHY reports that it could not synchronise with the target
    cell, the handover returns error, having set the RSRP of the target
    neighbour to minus infinity and changed nothing else: the serving cell
    and the other neighbours are as before, no random access is started and
    the procedure stays in its state. *)
Theorem ho_cell_select_failed (E : env_t) (c : ctx ho_proc.t) (i : nat) :
  ho_proc.state (self c) = ho_proc.wait_phy_cell_select_complete ->
  find_neighbour (neighbours (rrc.meas_cells (rrc_ptr c))) (ho_proc.target_earfcn (self c))
                 (target_pci (mob_ctrl_info (ho_proc.recfg_r8 (self c)))) = Some i ->
  exists target c',
    nth_error (neighbours (rrc.meas_cells (rrc_ptr c))) i = Some target /\
    ho_proc.react_cell_select E false c = Some (error, c') /\
    self c' = self c /\
    rrc.serving (rrc_ptr c') = rrc.serving (rrc_ptr c) /\
    nth_error (neighbours (rrc.meas_cells (rrc_ptr c'))) i
    = Some (set_rsrp target rsrp_neg_inf) /\
    (forall j, j <> i ->
               nth_error (neighbours (rrc.meas_cells (rrc_ptr c'))) j
               = nth_error (neighbours (rrc.meas_cells (rrc_ptr c))) j) /\
    rrc.state (rrc_ptr c') = rrc.state (rrc_ptr c) /\
    exists new, trace c' = trace c ++ new /\ forallb is_log new = true.
Proof.
  intros Hs Hfind. destruct c as [p r tr]. cbn [self rrc_ptr trace] in *.
  destruct (find_neighbour_sound _ _ _ _ Hfind) as (target & Hnth & _ & _).
  exists target. unfold ho_proc.react_cell_select. run_monad.
  rewrite Hs. cbn [ho_proc.state_eqb negb]. cbv beta iota. cbn [self rrc_ptr trace].
  rewrite Hfind, Hnth. cbn [negb]. cbv beta iota. cbn [self rrc_ptr trace].
  eexists. split; [reflexivity|]. split; [reflexivity|].
  cbn [self rrc_ptr trace]. split; [reflexivity|].
  destruct r as [st plmn ue sibs t300 t302 t304 t310 nas sec [serv neigh]].
  cbn in *. split; [reflexivity|].
  split; [exact (update_nth_same _ _ _ _ Hnth)|].
  split; [intros j Hj; apply update_nth_other; congruence|].
  split; [reflexivity|]. eexists. split; reflexivity.
Qed.

Lemma ho_cell_select_failed_witness :
  let c := mk_ctx (ho_proc.mk ho_proc.wait_phy_cell_select_complete sample.recfg 2850
                              sample.cell 70)
                  sample.connected_ue [] in
  exists c',
    ho_proc.react_cell_select sample.env false c = Some (error, c') /\
    nth_error (neighbours (rrc.meas_cells (rrc_ptr c'))) 0
    = Some (set_rsrp sample.neighbour rsrp_neg_inf).
Proof.
  intros c.
  destruct (ho_cell_select_failed sample.env c 0 eq_refl eq_refl)
    as (target & c' & Hnth & Hreact & _ & _ & Hmark & _).
  injection Hnth as <-.
  exists c'. split; [exact Hreact|exact Hmark].
Defined.

(** X18: a handover command whose securityConfigHO carries the
    keyChangeIndicator is given up with error only after the target has
    been made the serving cell and the random access has been started; no
    AS keys are derived, PDCP is not reconfigured, no
    RRCConnectionReconfigurationComplete is sent, the rrc object is as
    [set_serving_cell] left it (the security configuration is not written)
    and the procedure stays in the state [wait_phy_cell_select_complete]. *)
Theorem ho_key_change_not_supported (E : env_t) (c : ctx ho_proc.t) (i : nat) :
  ho_proc.state (self c) = ho_proc.wait_phy_cell_select_complete ->
  find_neighbour (neighbours (rrc.meas_cells (rrc_ptr c))) (ho_proc.target_earfcn (self c))
                 (target_pci (mob_ctrl_info (ho_proc.recfg_r8 (self c)))) = Some i ->
  security_cfg_ho_present (ho_proc.recfg_r8 (self c)) = true ->
  key_change_ind (security_cfg_ho (ho_proc.recfg_r8 (self c))) = true ->
  exists target c' new,
    nth_error (neighbours (rrc.meas_cells (rrc_ptr c))) i = Some target /\
    ho_proc.react_cell_select E true c = Some (error, c') /\
    self c' = self c /\
    rrc_ptr c' = rrc_set_serving_cell E (rrc_ptr c) (phy_cell target) false /\
    trace c' = trace c ++ new /\
    existsb is_random_access new = true /\
    existsb is_usim_call new = false /\
    ~ In rrc_send_rrc_con_reconfig_complete new /\
    forall cfg, ~ In (pdcp_config_security_all cfg) new.
Proof.
  intros Hs Hfind Hsec Hkey. destruct c as [p r tr]. cbn [self rrc_ptr trace] in *.
  destruct (find_neighbour_sound _ _ _ _ Hfind) as (target & Hnth & _ & _).
  exists target. unfold ho_proc.react_cell_select. run_monad.
  rewrite Hs. cbn [ho_proc.state_eqb negb]. cbv beta iota. cbn [self rrc_ptr trace].
  rewrite Hfind, Hnth, Hsec, Hkey. cbn [negb andb].
  destruct (rach_cfg_ded_present (mob_ctrl_info (ho_proc.recfg_r8 p)));
    cbv beta iota; cbn [self rrc_ptr trace];
    eexists; eexists; (split; [reflexivity|]); (split; [reflexivity|]);
    cbn [self rrc_ptr trace]; (split; [reflexivity|]); (split; [reflexivity|]);
    rewrite <- ?app_assoc; (split; [reflexivity|]);
    (split; [reflexivity|]); (split; [reflexivity|]);
    cbn; intuition discriminate.
Qed.

Lemma ho_key_change_not_supported_witness :
  let recfg := mk_recfg_r8 (mk_mob_ctrl_info 2 false 0 1000 70 false 0 0) false true
                           (mk_security_cfg_ho 1 true true 2 2) in
  let c := mk_ctx (ho_proc.mk ho_proc.wait_phy_cell_select_complete recfg 2850 sample.cell 70)
                  sample.connected_ue [] in
  exists c' new,
    ho_proc.react_cell_select sample.env true c = Some (error, c') /\
    trace c' = trace c ++ new /\
    existsb is_random_access new = true /\
    rrc.sec_cfg (rrc_ptr c') = mk_sec_cfg 0 0.
Proof.
  intros recfg c.
  destruct (ho_key_change_not_supported sample.env c 0 eq_refl eq_refl eq_refl eq_refl)
    as (target & c' & new & _ & Hreact & _ & Hrrc & Htr & Hra & _).
  exists c', new. split; [exact Hreact|]. split; [exact Htr|]. split; [exact Hra|].
  rewrite Hrrc. reflexivity.
Defined.

(** X19: in the state [wait_ra_completion], the completion of the random
    access ends the handover: with success exactly when the random access
    succeeded; the measurement configuration is parsed exactly in that
    case; and once the manager has run [then], T304 is stopped after a
    success and left as it was after a failure. *)
Theorem ho_ra_completion (E : env_t) (ev : ho_proc.ra_completed_ev) (c : ctx ho_proc.t) :
  ho_proc.state (self c) = ho_proc.wait_ra_completion ->
  exists c' new,
    (o <- ho_proc.react_ra_completed E ev ;; complete ho_proc.then_ o) c
    = Some (if ho_proc.ra_success ev then success else error, c') /\
    self c' = self c /\
    rrc.t304 (rrc_ptr c')
    = (if ho_proc.ra_success ev then timer.stop (rrc.t304 (rrc_ptr c))
       else rrc.t304 (rrc_ptr c)) /\
    rrc.meas_cells (rrc_ptr c') = rrc.meas_cells (rrc_ptr c) /\
    trace c' = trace c ++ new /\
    (In meas_parse_meas_config new <-> ho_proc.ra_success ev = true).
Proof.
  intros Hs. destruct c as [p r tr]. cbn [self rrc_ptr trace] in *.
  unfold ho_proc.react_ra_completed, ho_proc.then_. run_monad.
  rewrite Hs. cbn [ho_proc.state_eqb negb].
  destruct ev as [[|]]; cbn [ho_proc.ra_success].
  - destruct (parse_meas_config_ret E); cbn [negb]; cbv beta iota;
      cbn [self rrc_ptr trace is_success is_error negb];
      eexists; eexists; (split; [reflexivity|]); cbn [self rrc_ptr trace];
      (split; [reflexivity|]);
      (split; [destruct r; reflexivity|]); (split; [destruct r; reflexivity|]);
      rewrite <- ?app_assoc; (split; [reflexivity|]); cbn; intuition discriminate.
  - cbv beta iota. cbn [self rrc_ptr trace is_success is_error negb].
    unfold timer.is_running.
    destruct (timer.running (rrc.t304 r)); cbv beta iota;
      cbn [self rrc_ptr trace];
      eexists; eexists; (split; [reflexivity|]); cbn [self rrc_ptr trace];
      (split; [reflexivity|]); (split; [reflexivity|]); (split; [reflexivity|]);
      rewrite <- ?app_assoc; (split; [reflexivity|]); cbn; intuition discriminate.
Qed.

Lemma ho_ra_completion_witness :
  let c := mk_ctx (ho_proc.mk ho_proc.wait_ra_completion sample.recfg 2850 sample.cell 70)
                  (rrc.set_t304 sample.connected_ue (timer.mk 304 1000 true false)) [] in
  exists c',
    (o <- ho_proc.react_ra_completed sample.env (ho_proc.mk_ra_completed true) ;;
     complete ho_proc.then_ o) c = Some (success, c') /\
    timer.is_running (rrc.t304 (rrc_ptr c')) = false.
Proof.
  intros c.
  destruct (ho_ra_completion sample.env (ho_proc.mk_ra_completed true) c eq_refl)
    as (c' & new & Hdone & _ & Ht304 & _).
  exists c'. split; [exact Hdone|]. rewrite Ht304. reflexivity.
Defined.

(** ** Go Idle, and the start of the handover *)

Ltac run_calls :=
  cbv [emit_log emit through get_proc modify_proc] in *; run_monad;
  cbn [proc calls] in *.

(** X20: one pass of the Go Idle procedure ([step], and [then] when [step]
    completes) always returns, never with error, and leaves the procedure
    itself unchanged.  It yields exactly when RRC is not IDLE and the SRBs
    are not flushed, and then the rrc object is untouched; it calls
    [leave_connected] exactly when RRC is not IDLE and the SRBs are flushed.
    When [step] succeeds the RRC state it leaves is IDLE.  On completion
    [then] launches the cell reselection exactly when NAS is attached, the
    rrc object then being as the launched reselection leaves it, and adds
    the reselection procedure to the callback list unless NAS is attached
    and the launch was refused: with NAS not attached the procedure is added
    without having been launched.  The expiry of the flush timer
    ([react]) calls [leave_connected] whatever the state and succeeds with
    RRC IDLE. *)
Theorem go_idle_run_outcome (E : env_t) (A : answers) (c : ctx (with_calls go_idle_proc.t)) :
  let r := rrc_ptr c in
  let after_step :=
    if negb (rrc_state_eqb (rrc.state r) RRC_STATE_IDLE) && srbs_flushed A
    then leave_connected A r else r in
  (exists o c' new,
     go_idle_proc.run E A c = Some (o, c') /\
     proc (self c') = proc (self c) /\
     calls (self c') = calls (self c) ++ new /\
     trace c' = trace c /\
     o <> error /\
     (o = yield <-> rrc.state r <> RRC_STATE_IDLE /\ srbs_flushed A = false) /\
     (o = yield -> rrc_ptr c' = r) /\
     (o = success ->
      rrc.state after_step = RRC_STATE_IDLE /\
      rrc_ptr c' = (if nas_is_attached A
                    then snd (cell_reselector_launch_does A after_step)
                    else after_step)) /\
     (In (base rrc_leave_connected) new <->
      rrc.state r <> RRC_STATE_IDLE /\ srbs_flushed A = true) /\
     (In cell_reselector_launch new <-> o = success /\ nas_is_attached A = true) /\
     (In callback_list_add_cell_reselector new <->
      o = success /\
      (nas_is_attached A = false \/
       fst (cell_reselector_launch_does A after_step) = true))) /\
  (forall timeout,
   exists c',
     go_idle_proc.react E A timeout c = Some (success, c') /\
     proc (self c') = proc (self c) /\
     rrc_ptr c' = leave_connected A r /\
     rrc.state (rrc_ptr c') = RRC_STATE_IDLE /\
     calls (self c')
     = calls (self c) ++ [base rrc_leave_connected;
                          base (Log log_info "Left connected state")]).
Proof.
  destruct c as [[p cs] r tr]. cbv zeta. cbn [self rrc_ptr trace proc calls].
  split.
  - unfold go_idle_proc.run, go_idle_proc.step, go_idle_proc.then_. run_calls.
    destruct (rrc.state r) eqn:Hst; cbn [rrc_state_eqb negb andb];
      destruct (srbs_flushed A) eqn:Hfl;
      destruct (nas_is_attached A) eqn:Hat;
      cbn [negb andb];
      do 3 (cbv beta iota; cbn [negb self rrc_ptr trace proc calls]);
      try rewrite Hst;
      match goal with
      | |- context [cell_reselector_launch_does A ?x] =>
          destruct (cell_reselector_launch_does A x) as [launched r2]; destruct launched
      | _ => idtac
      end;
      cbn [fst snd negb]; do 3 (cbv beta iota; cbn [negb self rrc_ptr trace proc calls]);
      (do 3 eexists; split; [reflexivity|]);
      cbn [self rrc_ptr trace proc calls]; rewrite <- ?app_assoc; cbn [app];
      (split; [reflexivity|]); (split; [reflexivity|]); (split; [reflexivity|]);
      unfold leave_connected, rrc.set_state; cbn [rrc.state In];
      rewrite ?Hst; intuition (try discriminate; try congruence).
  - intros timeout. unfold go_idle_proc.react. run_calls.
    eexists. split; [reflexivity|]. cbn [self rrc_ptr trace proc calls].
    rewrite <- ?app_assoc. repeat split.
Qed.

(** X21: [ho_proc::init] always returns, with error or yield, and stores the
    reconfiguration message.  It refuses the handover, with
    [con_reconfig_failed] as its last call and without touching the rrc
    object (no timer is stopped or started) or the state of the procedure,
    exactly when the target PCI is that of the serving cell or no neighbour
    has the target EARFCN and PCI, the EARFCN being that of the serving cell
    when the message carries none.  Otherwise it reads the RNTIs from MAC,
    saves the serving cell and the C-RNTI as the source of the handover,
    stops T310, runs T304 with the duration of the message, leaves the cell
    store and the RRC state as they are, and yields in the state
    [launch_phy_cell_select]. *)
Theorem ho_init_outcomes (E : env_t) (A : answers) (msg : rrc_conn_recfg_r8_ies_s)
        (c : ctx (with_calls ho_proc.t)) :
  let mci := mob_ctrl_info msg in
  let serving := rrc.serving (rrc_ptr c) in
  let target := if carrier_freq_present mci then dl_carrier_freq mci
                else earfcn (phy_cell serving) in
  let known := find_neighbour (neighbours (rrc.meas_cells (rrc_ptr c))) target (target_pci mci) in
  exists o c' new,
    ho_proc.init E A msg c = Some (o, c') /\
    calls (self c') = calls (self c) ++ new /\
    ho_proc.recfg_r8 (proc (self c')) = msg /\
    trace c' = trace c /\
    ((target_pci mci = pci (phy_cell serving) \/ known = None) /\
     o = error /\
     rrc_ptr c' = rrc_ptr c /\
     ho_proc.state (proc (self c')) = ho_proc.state (proc (self c)) /\
     (exists logs, new = logs ++ [rrc_con_reconfig_failed] /\ forallb is_base_log logs = true)
     \/
     (target_pci mci <> pci (phy_cell serving) /\ known <> None) /\
     o = yield /\
     ho_proc.state (proc (self c')) = ho_proc.launch_phy_cell_select /\
     ho_proc.target_earfcn (proc (self c')) = target /\
     ho_proc.ho_src_cell (proc (self c')) = serving /\
     ho_proc.ho_src_rnti (proc (self c')) = crnti A /\
     timer.is_running (rrc.t310 (rrc_ptr c')) = false /\
     timer.is_running (rrc.t304 (rrc_ptr c')) = true /\
     timer.duration (rrc.t304 (rrc_ptr c')) = t304_ms mci /\
     rrc.meas_cells (rrc_ptr c') = rrc.meas_cells (rrc_ptr c) /\
     rrc.state (rrc_ptr c') = rrc.state (rrc_ptr c) /\
     (exists logs, new = logs ++ [mac_get_rntis] /\ forallb is_base_log logs = true)).
Proof.
  destruct c as [[p cs] r tr]. cbv zeta. cbn [self rrc_ptr trace proc calls].
  unfold ho_proc.init. run_calls. cbv zeta. cbn [self rrc_ptr trace proc calls].
  destruct (target_pci (mob_ctrl_info msg) =? pci (phy_cell (rrc.serving r))) eqn:Hown.
  - apply Z.eqb_eq in Hown.
    do 3 eexists. split; [reflexivity|]. cbn [self rrc_ptr trace proc calls].
    rewrite <- !app_assoc. cbn [app].
    split; [reflexivity|]. split; [reflexivity|]. split; [reflexivity|].
    left. split; [left; exact Hown|]. split; [reflexivity|]. split; [reflexivity|].
    split; [reflexivity|].
    exists [base (Log log_info "Starting...");
            base (Log log_console "Warning: Received HO command to own cell");
            base (Log log_warning "Received HO command to own cell")].
    split; reflexivity.
  - apply Z.eqb_neq in Hown.
    cbv beta iota. cbn [self rrc_ptr trace proc calls].
    destruct (find_neighbour (neighbours (rrc.meas_cells r))
                (if carrier_freq_present (mob_ctrl_info msg)
                 then dl_carrier_freq (mob_ctrl_info msg)
                 else earfcn (phy_cell (rrc.serving r)))
                (target_pci (mob_ctrl_info msg))) as [i|] eqn:Hfind.
    + do 3 eexists. split; [reflexivity|]. cbn [self rrc_ptr trace proc calls].
      rewrite <- !app_assoc. cbn [app].
      split; [reflexivity|]. split; [reflexivity|]. split; [reflexivity|].
      right. split; [split; [exact Hown|discriminate]|].
      repeat (split; [reflexivity|]).
      exists [base (Log log_info "Starting...");
              base (Log log_info "Received HO command to target PCell=%d");
              base (Log log_console "Received HO command to target PCell=%d, NCC=%d")].
      split; reflexivity.
    + do 3 eexists. split; [reflexivity|]. cbn [self rrc_ptr trace proc calls].
      rewrite <- !app_assoc. cbn [app].
      split; [reflexivity|]. split; [reflexivity|]. split; [reflexivity|].
      left. split; [right; reflexivity|]. split; [reflexivity|]. split; [reflexivity|].
      split; [reflexivity|].
      exists [base (Log log_info "Starting...");
              base (Log log_info "Received HO command to target PCell=%d");
              base (Log log_console "Received HO command to target PCell=%d, NCC=%d");
              base (Log log_console "Received HO command to unknown PCI=%d");
              base (Log log_error "Could not find target cell earfcn=%d, pci=%d")].
      split; reflexivity.
Qed.

(** ** Cell reselection *)

(** X22: [cell_reselection_proc::init] leaves the procedure itself
    unchanged.  With no neighbour in the cell store, PHY in sync and
    camping, it succeeds at once without any call and with the rrc object
    untouched; otherwise it launches a cell selection, the rrc object then
    being as the launched cell selection leaves it, and yields if the launch
    was accepted and returns error if not. *)
Theorem cell_reselection_init_outcomes (E : env_t) (A : answers)
        (c : ctx (with_calls cell_reselection_proc.t)) :
  let r := rrc_ptr c in
  let settled := Nat.eqb (nof_neighbours (rrc.meas_cells r)) 0
                 && phy_ctrl_is_in_sync E && phy_cell_is_camping E in
  exists o c' new,
    cell_reselection_proc.init E A c = Some (o, c') /\
    proc (self c') = proc (self c) /\
    calls (self c') = calls (self c) ++ new /\
    trace c' = trace c /\
    (settled = true -> o = success /\ new = [] /\ rrc_ptr c' = r) /\
    (settled = false ->
     rrc_ptr c' = snd (cell_selector_launch_does A r) /\
     filter (fun x => negb (is_base_log x)) new = [cell_selector_launch_fut] /\
     o = (if fst (cell_selector_launch_does A r) then yield else error)).
Proof.
  destruct c as [[p cs] r tr]. cbv zeta. cbn [self rrc_ptr trace proc calls].
  unfold cell_reselection_proc.init. run_calls.
  destruct (Nat.eqb (nof_neighbours (rrc.meas_cells r)) 0
            && phy_ctrl_is_in_sync E && phy_cell_is_camping E).
  - exists success. eexists. exists []. split; [reflexivity|].
    cbn [self rrc_ptr trace proc calls]. rewrite app_nil_r.
    repeat (split; [reflexivity|]). split; [auto|discriminate].
  - do 3 (cbv beta iota; cbn [self rrc_ptr trace proc calls]).
    destruct (cell_selector_launch_does A r) as [launched r1].
    destruct launched; cbn [negb fst snd];
      do 3 (cbv beta iota; cbn [negb fst snd self rrc_ptr trace proc calls]);
      (do 3 eexists; split; [reflexivity|]);
      cbn [self rrc_ptr trace proc calls]; rewrite <- ?app_assoc; cbn [app];
      (split; [reflexivity|]); (split; [reflexivity|]); (split; [reflexivity|]);
      (split; [discriminate|]); intros _; repeat split.
Qed.

(** X23: one pass of the running cell reselection ([step], and [then] when
    [step] completes), when it returns, has run the cell selection once and
    written nothing to the rrc object itself: the object is as the cell
    selection run leaves it.  It yields exactly while the cell selection is
    still running and returns error exactly when the cell selection ended
    in error.  It tells MAC to start receiving PCCH exactly when the cell
    selection completed with [changed_cell] and RRC, after that run, is
    IDLE.  When it completes, with either result, [then] runs the
    reselection timer if RRC is not CONNECTED and NAS is attached, and
    leaves the timer as it is otherwise. *)
Theorem cell_reselection_run_outcomes (E : env_t) (A : answers)
        (c : ctx (with_calls cell_reselection_proc.t)) (o : proc_outcome_t)
        (c' : ctx (with_calls cell_reselection_proc.t)) :
  cell_reselection_proc.run E A c = Some (o, c') ->
  let running := fst (cell_selector_run_does A (rrc_ptr c)) in
  let r1 := snd (cell_selector_run_does A (rrc_ptr c)) in
  rrc_ptr c' = r1 /\ trace c' = trace c /\
  (o = yield <-> running = true) /\
  (o = error <-> running = false /\ cell_selection_fut A = fut_error) /\
  (exists new,
     calls (self c') = calls (self c) ++ cell_selector_run :: new /\
     ~ In cell_selector_run new /\
     (In mac_pcch_start_rx new <->
      running = false /\
      cell_selection_fut A = fut_value changed_cell /\
      rrc.state r1 = RRC_STATE_IDLE)) /\
  cell_reselection_proc.reselection_timer (proc (self c'))
  = (if negb running
        && negb (rrc_state_eqb (rrc.state r1) RRC_STATE_CONNECTED)
        && nas_is_attached A
     then timer.run (cell_reselection_proc.reselection_timer (proc (self c)))
     else cell_reselection_proc.reselection_timer (proc (self c))).
Proof.
  destruct c as [[p cs] r tr]. cbv zeta. cbn [self rrc_ptr trace proc calls].
  unfold cell_reselection_proc.run, cell_reselection_proc.step, cell_reselection_proc.then_.
  run_calls. do 3 (cbv beta iota; cbn [self rrc_ptr trace proc calls]).
  destruct (cell_selector_run_does A r) as [running r1]. cbn [fst snd].
  destruct running; cbn [negb andb].
  - intros H. injection H as <- <-. cbn [self rrc_ptr trace proc calls].
    split; [reflexivity|]. split; [reflexivity|].
    split; [split; reflexivity|].
    split; [split; [discriminate|intros [? _]; discriminate]|].
    split; [|reflexivity].
    exists []. split; [reflexivity|].
    cbn [In]. intuition discriminate.
  - destruct (cell_selection_fut A) as [|v|] eqn:Hfut; [discriminate| |].
    + destruct v; destruct (rrc.state r1) eqn:Hst; cbn [rrc_state_eqb negb andb];
        destruct (nas_is_attached A) eqn:Hat;
        destruct (phy_cell_is_camping E) eqn:Hcamp; cbn [negb];
        do 4 (cbv beta iota; cbn [self rrc_ptr trace proc calls];
              rewrite ?Hst; cbn [rrc_state_eqb negb andb]);
        intros H; injection H as <- <-; cbn [self rrc_ptr trace proc calls];
        rewrite <- ?app_assoc; cbn [app];
        (split; [reflexivity|]); (split; [reflexivity|]);
        (split; [split; discriminate|]);
        (split; [split; [discriminate|intros [_ ?]; discriminate]|]);
        (split; [|reflexivity]);
        (eexists; split; [reflexivity|]); cbn [In];
        intuition (try discriminate; try congruence).
    + destruct (rrc.state r1) eqn:Hst; cbn [rrc_state_eqb negb andb];
        destruct (nas_is_attached A) eqn:Hat;
        do 4 (cbv beta iota; cbn [self rrc_ptr trace proc calls];
              rewrite ?Hst; cbn [rrc_state_eqb negb andb]);
        intros H; injection H as <- <-; cbn [self rrc_ptr trace proc calls];
        rewrite <- ?app_assoc; cbn [app];
        (split; [reflexivity|]); (split; [reflexivity|]);
        (split; [split; discriminate|]);
        (split; [split; auto|]);
        (split; [|reflexivity]);
        (eexists; split; [reflexivity|]); cbn [In];
        intuition (try discriminate; try congruence).
Qed.

Lemma cell_reselection_run_outcomes_witness :
  exists c',
    cell_reselection_proc.run sample.env sample.stack sample.cell_reselection
    = Some (success, c') /\
    rrc.serving (rrc_ptr c') = sample.neighbour /\
    In mac_pcch_start_rx (calls (self c')) /\
    timer.is_running (cell_reselection_proc.reselection_timer (proc (self c'))) = true.
Proof.
  assert (Hrun : exists c', cell_reselection_proc.run sample.env sample.stack
                              sample.cell_reselection = Some (success, c'))
    by (eexists; vm_compute; reflexivity).
  destruct Hrun as [c' Hrun].
  destruct (cell_reselection_run_outcomes sample.env sample.stack sample.cell_reselection
              success c' Hrun) as (Hrrc & _ & _ & _ & (new & Hnew & _ & Hpcch) & Htimer).
  exists c'. split; [exact Hrun|]. split; [rewrite Hrrc; reflexivity|]. split.
  - rewrite Hnew. apply in_or_app. right. right. apply Hpcch.
    split; [reflexivity|]. split; reflexivity.
  - rewrite Htimer. reflexivity.
Defined.

(** ** RRC connection re-establishment *)

Lemma suspend_bearers_spec (A : answers) (lcids : list nat) :
  forall c : ctx (with_calls connection_reest_proc.t),
    connection_reest_proc.suspend_bearers A lcids c
    = Some (tt, mk_ctx (mk_with_calls (proc (self c))
                          (calls (self c)
                           ++ map rlc_suspend_bearer (filter (rlc_has_bearer A) lcids)))
                       (rrc_ptr c) (trace c)).
Proof.
  induction lcids as [|i rest IH]; intros [[p cs] r tr]; cbn [connection_reest_proc.suspend_bearers].
  - cbn. rewrite app_nil_r. reflexivity.
  - run_calls. cbn [filter].
    destruct (rlc_has_bearer A i); cbv beta iota; cbn [self rrc_ptr trace proc calls];
      rewrite IH; cbn [self rrc_ptr trace proc calls map].
    + rewrite <- app_assoc. reflexivity.
    + reflexivity.
Qed.

Lemma suspended_bearers_range (A : answers) (n i : nat) :
  In (rlc_suspend_bearer i) (map rlc_suspend_bearer (filter (rlc_has_bearer A) (seq 1 (n - 1))))
  <-> (1 <= i < n)%nat /\ rlc_has_bearer A i = true.
Proof.
  rewrite in_map_iff. split.
  - intros (j & Hj & Hin). injection Hj as ->.
    apply filter_In in Hin. destruct Hin as [Hseq Hhas].
    apply in_seq in Hseq. split; [lia|exact Hhas].
  - intros [Hi Hhas]. exists i. split; [reflexivity|].
    apply filter_In. split; [apply in_seq; lia|exact Hhas].
Qed.

(** X24: [connection_reest_proc::init] always returns.  Unless security is
    activated, RRC is CONNECTED and the C-RNTI is not zero, it only reads
    the RNTIs and starts Go Idle: it succeeds with the procedure and the rrc
    object (its timers included) unchanged.  When the three conditions hold
    it saves the C-RNTI, the cause and the PCI and EARFCN of the serving
    cell, stops T310, runs T311, suspends in increasing order exactly the
    bearers [i] with [1 <= i < SRSLTE_N_RADIO_BEARERS] that RLC has (never
    bearer 0), then resets MAC, applies the default PUCCH/SRS and MAC
    configurations and launches the cell reselection on the rrc object so
    prepared, which is then as the launched reselection leaves it; it yields
    in the state [cell_reselection] if the launch was accepted and returns
    error if not. *)
Theorem connection_reest_init_outcomes (E : env_t) (A : answers) (cause : Z)
        (c : ctx (with_calls connection_reest_proc.t)) :
  let p := proc (self c) in
  let r := rrc_ptr c in
  let serving := rrc.serving r in
  let met := rrc.security_is_activated r
             && rrc_state_eqb (rrc.state r) RRC_STATE_CONNECTED
             && negb (crnti A =? 0) in
  let suspended := map rlc_suspend_bearer
                       (filter (rlc_has_bearer A) (seq 1 (n_radio_bearers A - 1))) in
  let prepared := rrc.set_t311 (rrc.set_t310 r (timer.stop (rrc.t310 r)))
                               (timer.run (rrc.t311 r)) in
  let launched := fst (cell_reselector_launch_does A prepared) in
  exists o c' new,
    connection_reest_proc.init E A cause c = Some (o, c') /\
    calls (self c') = calls (self c) ++ new /\
    trace c' = trace c /\
    (met = false ->
     o = success /\ rrc_ptr c' = r /\ proc (self c') = p /\
     new = [base (Log log_info "Starting... Cause: %s"); mac_get_rntis;
            base (Log log_info "Conditions are NOT met"); rrc_start_go_idle]) /\
    (met = true ->
     connection_reest_proc.reest_rnti (proc (self c')) = crnti A /\
     connection_reest_proc.reest_cause (proc (self c')) = cause /\
     connection_reest_proc.reest_source_pci (proc (self c')) = pci (phy_cell serving) /\
     connection_reest_proc.reest_source_freq (proc (self c')) = earfcn (phy_cell serving) /\
     rrc_ptr c' = snd (cell_reselector_launch_does A prepared) /\
     new = [base (Log log_info "Starting... Cause: %s"); mac_get_rntis;
            base (Log log_info
                    "Conditions are met. Initiating RRC Connection Reestablishment Procedure")]
           ++ suspended
           ++ [base mac_reset; rrc_set_phy_default_pucch_srs;
               rrc_apply_mac_config_dedicated_default; cell_reselector_launch]
           ++ (if launched then []
               else [base (Log log_error
                             "Failed to initiate a Cell re-selection procedure...")]) /\
     (forall i, In (rlc_suspend_bearer i) new <->
                (1 <= i < n_radio_bearers A)%nat /\ rlc_has_bearer A i = true) /\
     o = (if launched then yield else error) /\
     connection_reest_proc.state (proc (self c'))
     = (if launched then connection_reest_proc.cell_reselection
        else connection_reest_proc.state p)).
Proof.
  destruct c as [[p cs] r tr]. cbv zeta. cbn [self rrc_ptr trace proc calls].
  unfold connection_reest_proc.init. run_calls.
  destruct (rrc.security_is_activated r
            && rrc_state_eqb (rrc.state r) RRC_STATE_CONNECTED
            && negb (crnti A =? 0)) eqn:Hmet.
  - do 3 (cbv beta iota; cbn [self rrc_ptr trace proc calls]).
    rewrite suspend_bearers_spec.
    do 3 (cbv beta iota; cbn [self rrc_ptr trace proc calls]).
    change (rrc.t311 (rrc.set_t310 r (timer.stop (rrc.t310 r)))) with (rrc.t311 r).
    destruct (cell_reselector_launch_does A
                (rrc.set_t311 (rrc.set_t310 r (timer.stop (rrc.t310 r)))
                              (timer.run (rrc.t311 r)))) as [launched r1].
    destruct launched; cbn [negb fst snd];
      do 3 (cbv beta iota; cbn [self rrc_ptr trace proc calls]);
      (do 3 eexists; split; [reflexivity|]); cbn [self rrc_ptr trace proc calls];
      rewrite <- ?app_assoc; cbn [app];
      (split; [reflexivity|]); (split; [reflexivity|]);
      (split; [discriminate|]); intros _;
      unfold connection_reest_proc.set_state, connection_reest_proc.set_saved;
      cbn [connection_reest_proc.reest_rnti connection_reest_proc.reest_cause
           connection_reest_proc.reest_source_pci connection_reest_proc.reest_source_freq
           connection_reest_proc.state];
      repeat (split; [reflexivity|]);
      (split; [|split; reflexivity]);
      intros i; rewrite <- (suspended_bearers_range A (n_radio_bearers A) i);
      cbn [In]; rewrite ?in_app_iff; cbn [In]; intuition discriminate.
  - do 3 eexists. split; [reflexivity|]. cbn [self rrc_ptr trace proc calls].
    rewrite <- ?app_assoc. cbn [app].
    split; [reflexivity|]. split; [reflexivity|].
    split; [|discriminate]. intros _. repeat split.
Qed.

(** X25: [connection_reest_proc::step] always returns.  It first runs the
    sub-procedure of its state (the cell reselection in [cell_reselection],
    the serving cell configuration in [cell_configuration]); T311, the SIBs
    of the serving cell and the selection criteria are read from the rrc
    object as that run leaves it.  While the sub-procedure is still running
    [step] yields and changes nothing more, whether T311 runs or not.  Once
    the sub-procedure has finished, [step] starts Go Idle exactly when T311
    is no longer running, and then succeeds with nothing more changed; and
    it sends the RRCConnectionReestablishmentRequest exactly when T311 is
    running, PHY is in sync, the serving cell holds SIB1, SIB2 and SIB3 and
    meets the cell selection criteria: the request carries the saved cause,
    C-RNTI and source PCI, T311 is stopped, T301 is run and the result is
    success.  A success of [step] is always one of these two. *)
Theorem connection_reest_step_outcomes (E : env_t) (A : answers)
        (c : ctx (with_calls connection_reest_proc.t)) :
  let p := proc (self c) in
  let ran := match connection_reest_proc.state p with
             | connection_reest_proc.cell_reselection =>
                 cell_reselector_run_does A (rrc_ptr c)
             | connection_reest_proc.cell_configuration =>
                 serv_cell_cfg_run_does A (rrc_ptr c)
             end in
  let finished := negb (fst ran) in
  let r1 := snd ran in
  let t311_running := timer.is_running (rrc.t311 r1) in
  let ready := finished && t311_running && phy_ctrl_is_in_sync E
               && connection_reest_proc.has_sibs_1_2_3 r1
               && cell_selection_criteria E r1 (rsrp (rrc.serving r1)) in
  exists o c' new,
    connection_reest_proc.step E A c = Some (o, c') /\
    calls (self c') = calls (self c) ++ new /\
    trace c' = trace c /\
    (finished = false -> o = yield /\ proc (self c') = p /\ rrc_ptr c' = r1) /\
    (In rrc_start_go_idle new <-> finished = true /\ t311_running = false) /\
    (finished = true -> t311_running = false ->
     o = success /\ proc (self c') = p /\ rrc_ptr c' = r1) /\
    (existsb is_reest_request new = true <-> ready = true) /\
    (ready = true ->
     o = success /\
     In (rrc_send_con_restablish_request (connection_reest_proc.reest_cause p)
           (connection_reest_proc.reest_rnti p) (connection_reest_proc.reest_source_pci p)) new /\
     proc (self c') = p /\
     rrc_ptr c' = rrc.set_t301 (rrc.set_t311 r1 (timer.stop (rrc.t311 r1)))
                               (timer.run (rrc.t301 r1))) /\
    (o = success -> In rrc_start_go_idle new \/ existsb is_reest_request new = true).
Proof.
  destruct c as [[p cs] r tr]. cbv zeta. cbn [self rrc_ptr trace proc calls].
  unfold connection_reest_proc.step, connection_reest_proc.step_cell_reselection,
         connection_reest_proc.step_cell_configuration, connection_reest_proc.cell_criteria.
  run_calls.
  destruct (connection_reest_proc.state p) eqn:Hst;
    do 3 (cbv beta iota; cbn [self rrc_ptr trace proc calls]);
    match goal with
    | |- context [cell_reselector_run_does A r] =>
        destruct (cell_reselector_run_does A r) as [running r1]
    | |- context [serv_cell_cfg_run_does A r] =>
        destruct (serv_cell_cfg_run_does A r) as [running r1]
    end;
    cbn [fst snd];
    destruct running;
    destruct (timer.is_running (rrc.t311 r1)) eqn:Ht311;
    destruct (phy_ctrl_is_in_sync E) eqn:Hsync;
    destruct (connection_reest_proc.has_sibs_1_2_3 r1) eqn:Hsibs;
    destruct (cell_selection_criteria E r1 (rsrp (rrc.serving r1))) eqn:Hcrit;
    cbn [negb andb];
    do 4 (cbv beta iota; cbn [self rrc_ptr trace proc calls negb andb fst snd];
          rewrite ?Ht311, ?Hcrit, ?Hsibs, ?Hsync);
    repeat match goal with
      | |- context [cell_reselector_launch_does A ?x] =>
          destruct (cell_reselector_launch_does A x) as [[|] ?]
      | |- context [serv_cell_cfg_launch_does A ?l ?x] =>
          destruct (serv_cell_cfg_launch_does A l x) as [[|] ?]
      end;
    do 3 (cbv beta iota; cbn [self rrc_ptr trace proc calls negb andb fst snd]);
    (do 3 eexists; split; [reflexivity|]); cbn [self rrc_ptr trace proc calls];
    rewrite <- ?app_assoc; cbn [app];
    (split; [reflexivity|]); (split; [reflexivity|]);
    cbn [existsb is_reest_request orb In];
    intuition (try discriminate; try congruence).
Qed.
